(** * SUCOP regulatory-notice crawler: extraction pipeline

    A shallow embedding of [sucop_crawler.py] (class [SUCOPCrawler]) and the
    properties of its filter validation, retry policy, pagination
    traversal, record extraction and normalization stage.

    Conventions of the embedding
    - Python values keep their shape: [str] is [string], [int] is [Z],
      [None]-able values are [option], a list of dicts with fixed keys is a
      list of records.
    - A call that may raise returns [outcome A]; [try/except] is a match on
      it.
    - A parsed document ([BeautifulSoup(html, 'html.parser')]) is a forest
      of [Node]s; the rendered page of the browser is the same forest.
    - A polars [DataFrame] is an ordered list of named columns of cells.
    - The date reader of the data-frame library is a parameter,
      [pl_strptime], of every definition that normalizes records; the
      theorems hold for every reader, and the closed examples take the
      reader of the digits form, [strptime_dmy], for texts on which the
      library agrees with it.  Python's [datetime.strptime] is
      [py_strptime_dmy]. *)

From Stdlib Require Import List String Ascii ZArith Lia Bool Arith.
From Stdlib Require OrderedTypeEx DecimalString DecimalNat.
From Stdlib Require Import Sorted.
Import ListNotations.
Open Scope string_scope.
Open Scope list_scope.
Open Scope nat_scope.

(* ===================================================================== *)
(** * Part I. Definitions                                                 *)
(* ===================================================================== *)

(** ** Exceptions and outcomes *)

Inductive exn : Type :=
| ValueError (msg : string)
| ComputeError (msg : string)
| ColumnNotFoundError (msg : string)
| RendererError (msg : string).

Inductive outcome (A : Type) : Type :=
| Returned (a : A)
| Raised (e : exn).

Arguments Returned {A} a.
Arguments Raised {A} e.

Definition obind {A B} (m : outcome A) (k : A -> outcome B) : outcome B :=
  match m with
  | Returned a => k a
  | Raised e => Raised e
  end.

Notation "x <- m ;; k" := (obind m (fun x => k))
  (at level 61, m at next level, right associativity).

(** [str(e)] of an exception: its message. *)
Definition str_of_exn (e : exn) : string :=
  match e with
  | ValueError m | ComputeError m | ColumnNotFoundError m | RendererError m => m
  end.

(** ** Text helpers *)

(** White space of Python text ([str.strip], [int], the tokens of a class
    attribute), within ASCII: TAB, LF, VT, FF, CR, the four separators
    FS, GS, RS, US, and the space. *)
Definition isspace (c : ascii) : bool :=
  let n := nat_of_ascii c in
  ((9 <=? n) && (n <=? 13)) || ((28 <=? n) && (n <=? 32)).

(** White space of the data-frame library ([str.strip], [\s]), within ASCII:
    TAB, LF, VT, FF, CR and the space. *)
Definition pl_isspace (c : ascii) : bool :=
  let n := nat_of_ascii c in
  ((9 <=? n) && (n <=? 13)) || (n =? 32).

Fixpoint lstrip_by (ws : ascii -> bool) (s : string) : string :=
  match s with
  | EmptyString => EmptyString
  | String c r => if ws c then lstrip_by ws r else s
  end.

Fixpoint rstrip_by (ws : ascii -> bool) (s : string) : string :=
  match s with
  | EmptyString => EmptyString
  | String c r =>
      match rstrip_by ws r with
      | EmptyString => if ws c then EmptyString else String c EmptyString
      | r' => String c r'
      end
  end.

(** [s.strip()] in Python. *)
Definition strip (s : string) : string := rstrip_by isspace (lstrip_by isspace s).

(** [.str.strip()] on a column. *)
Definition pl_strip (s : string) : string := rstrip_by pl_isspace (lstrip_by pl_isspace s).

(** [str.replace_all(r'\s+', ' ')]: every maximal run of white space
    becomes one space.  [in_ws] tells that the previous character was white. *)
Fixpoint collapse_ws (in_ws : bool) (s : string) : string :=
  match s with
  | EmptyString => EmptyString
  | String c r =>
      if pl_isspace c
      then (if in_ws then collapse_ws true r else String " " (collapse_ws true r))
      else String c (collapse_ws false r)
  end.

Definition replace_all_ws (s : string) : string := collapse_ws false s.

Definition is_digit (c : ascii) : bool :=
  let n := nat_of_ascii c in (48 <=? n) && (n <=? 57).

Definition digit_val (c : ascii) : nat := nat_of_ascii c - 48.

(** [s.isdigit()] on ASCII text: non-empty and all decimal digits. *)
Fixpoint all_digits (s : string) : bool :=
  match s with
  | EmptyString => true
  | String c r => is_digit c && all_digits r
  end.

Definition isdigit (s : string) : bool :=
  match s with
  | EmptyString => false
  | _ => all_digits s
  end.

(** Decimal value of a digit string, most significant digit first. *)
Fixpoint digits_value (acc : nat) (s : string) : nat :=
  match s with
  | EmptyString => acc
  | String c r => digits_value (10 * acc + digit_val c) r
  end.

(** [int(s)] for a string that passed [isdigit]. *)
Definition int_of_digits (s : string) : nat := digits_value 0 s.

(** Body of a Python integer literal given to [int()]: decimal digits, with
    single underscores allowed between digits.  [prev_digit] tells that the
    previous character was a digit. *)
Fixpoint int_body (prev_digit : bool) (acc : Z) (s : string) : option Z :=
  match s with
  | EmptyString => if prev_digit then Some acc else None
  | String c r =>
      if is_digit c
      then int_body true (10 * acc + Z.of_nat (digit_val c))%Z r
      else if (nat_of_ascii c =? 95) && prev_digit
           then (match r with
                 | EmptyString => None
                 | String d _ => if is_digit d then int_body false acc r else None
                 end)
           else None
  end.

(** [int(s)]: surrounding white space and one sign are accepted;
    [None] stands for [ValueError]. *)
Definition py_int (s : string) : option Z :=
  match strip s with
  | String "+" r => int_body false 0%Z r
  | String "-" r => option_map Z.opp (int_body false 0%Z r)
  | t => int_body false 0%Z t
  end.

(** [s.split(sep)] for a one-character separator. *)
Fixpoint split_on (sep : ascii) (s : string) : list string :=
  match s with
  | EmptyString => [EmptyString]
  | String c r =>
      if Ascii.eqb c sep then EmptyString :: split_on sep r
      else match split_on sep r with
           | [] => [String c EmptyString]
           | w :: ws => String c w :: ws
           end
  end.

(** White-space separated tokens of an attribute value ([class="a b"]). *)
Fixpoint tokens_aux (cur : string) (s : string) : list string :=
  match s with
  | EmptyString => match cur with EmptyString => [] | _ => [cur] end
  | String c r =>
      if isspace c
      then match cur with
           | EmptyString => tokens_aux EmptyString r
           | _ => cur :: tokens_aux EmptyString r
           end
      else tokens_aux (cur ++ String c EmptyString)%string r
  end.

Definition tokens (s : string) : list string := tokens_aux EmptyString s.

(** ** Calendar dates and the [%d/%m/%Y] format *)

Record Date : Type := mkDate { year : nat; month : nat; day : nat }.

Definition is_leap (y : nat) : bool :=
  ((y mod 4 =? 0) && negb (y mod 100 =? 0)) || (y mod 400 =? 0).

Definition days_in_month (y m : nat) : nat :=
  match m with
  | 1 | 3 | 5 | 7 | 8 | 10 | 12 => 31
  | 4 | 6 | 9 | 11 => 30
  | 2 => if is_leap y then 29 else 28
  | _ => 0
  end.

Definition valid_date (y m d : nat) : bool :=
  (1 <=? y) && (1 <=? m) && (m <=? 12) &&
  (1 <=? d) && (d <=? days_in_month y m).

(** A numeric field of the format: [lo] to [hi] decimal digits. *)
Definition num_field (lo hi : nat) (s : string) : option nat :=
  let n := String.length s in
  if (lo <=? n) && (n <=? hi) && all_digits s then Some (int_of_digits s) else None.

(** The digits form of the format [%d/%m/%Y]: day and month of one or two
    digits, a year of four digits, separated by slashes, and a date that
    exists in the calendar (years from 1 on).  Both date parsers the
    program calls read these texts, and to this date; each of them reads
    more texts than these (see [py_strptime_dmy] and, for the data-frame
    library, the parameter of [strptime_cell]). *)
Definition strptime_dmy (s : string) : option Date :=
  match split_on "/" s with
  | [ds; ms; ys] =>
      match num_field 1 2 ds, num_field 1 2 ms, num_field 4 4 ys with
      | Some d, Some m, Some y =>
          if valid_date y m d then Some (mkDate y m d) else None
      | _, _, _ => None
      end
  | _ => None
  end.

(** [datetime.strptime(s, '%d/%m/%Y')] of Python; [None] stands for
    [ValueError].  The pattern of [%d] is
    [3[0-1]|[1-2]\d|0[1-9]|[1-9]| [1-9]], that of [%m] is
    [1[0-2]|0[1-9]|[1-9]], that of [%Y] is four digits, and nothing may
    follow the year; the date must exist, years from 1 on.  Hence the texts
    of the digits form, and those that write a day of one digit after one
    space. *)
Definition py_strptime_dmy (s : string) : option Date :=
  match s with
  | String " " (String c (String "/" r)) => strptime_dmy (String c (String "/" r))
  | _ => strptime_dmy s
  end.

Arguments py_strptime_dmy : simpl never.

Definition digit_char (n : nat) : ascii := ascii_of_nat (48 + n mod 10).

Definition pad2 (n : nat) : string :=
  String (digit_char (n / 10)) (String (digit_char n) EmptyString).

Definition pad4 (n : nat) : string :=
  String (digit_char (n / 1000)) (String (digit_char (n / 100)) (pad2 n)).

(** [d.strftime('%d/%m/%Y')] *)
Definition strftime_dmy (d : Date) : string :=
  (pad2 (day d) ++ "/" ++ pad2 (month d) ++ "/" ++ pad4 (year d))%string.

(** [d.strftime('%Y-%m-%d')], the format of the statistics file. *)
Definition strftime_iso (d : Date) : string :=
  (pad4 (year d) ++ "-" ++ pad2 (month d) ++ "-" ++ pad2 (day d))%string.

(** Order of [date]/[datetime] values: year, then month, then day. *)
Definition date_ltb (a b : Date) : bool :=
  (year a <? year b) ||
  ((year a =? year b) &&
   ((month a <? month b) || ((month a =? month b) && (day a <? day b)))).

Definition date_leb (a b : Date) : bool := negb (date_ltb b a).

Definition date_eqb (a b : Date) : bool :=
  (year a =? year b) && (month a =? month b) && (day a =? day b).


(** ** Parsed documents *)

#[local] Set Warnings "-register-all".

(** A node of the document tree: a text run or an element with its
    attribute dictionary and its children in document order. *)
Inductive Node : Type :=
| Text (s : string)
| Elem (name : string) (attrs : list (string * string)) (children : list Node).

(** A document, or the contents of a page: its top-level nodes. *)
Definition Soup : Type := list Node.

(** [tag.get(key)] / [element.get_attribute(key)] *)
Fixpoint get_attr (key : string) (attrs : list (string * string)) : option string :=
  match attrs with
  | [] => None
  | (k, v) :: r => if String.eqb k key then Some v else get_attr key r
  end.

Definition node_attr (key : string) (n : Node) : option string :=
  match n with
  | Text _ => None
  | Elem _ attrs _ => get_attr key attrs
  end.

(** The element carries class [cls] among the tokens of its class
    attribute. *)
Definition has_class (cls : string) (n : Node) : bool :=
  match node_attr "class" n with
  | Some v => existsb (String.eqb cls) (tokens v)
  | None => false
  end.

Definition is_tag (name : string) (n : Node) : bool :=
  match n with
  | Text _ => false
  | Elem nm _ _ => String.eqb nm name
  end.

(** All nodes below [n], in document order; [n] itself is not included. *)
Fixpoint descendants (n : Node) : list Node :=
  match n with
  | Text _ => []
  | Elem _ _ cs => flat_map (fun c => c :: descendants c) cs
  end.

Definition soup_nodes (s : Soup) : list Node :=
  flat_map (fun c => c :: descendants c) s.

(** [tag.text]: the text runs below the node, concatenated. *)
Fixpoint node_text (n : Node) : string :=
  match n with
  | Text s => s
  | Elem _ _ cs => fold_right (fun c acc => (node_text c ++ acc)%string) EmptyString cs
  end.

(** [soup.find_all(name, class_=cls)] *)
Definition find_all (name cls : string) (s : Soup) : list Node :=
  filter (fun n => is_tag name n && has_class cls n) (soup_nodes s).

(** [tag.find(name, class_=cls)]: first match below the tag. *)
Definition find (name cls : string) (n : Node) : option Node :=
  List.find (fun m => is_tag name m && has_class cls m) (descendants n).

(** [tag.find(name)] *)
Definition find_tag (name : string) (n : Node) : option Node :=
  List.find (is_tag name) (descendants n).

(** [a or b] on two lookups: a found tag is truthy. *)
Definition or_else {A} (a b : option A) : option A :=
  match a with
  | Some _ => a
  | None => b
  end.

(** [driver.find_elements(By.CLASS_NAME, cls)] on the rendered page. *)
Definition find_elements_by_class (cls : string) (page : Soup) : list Node :=
  filter (has_class cls) (soup_nodes page).

(** ** Raw records and the extractor ([parse_normativa]) *)

Record Normativa : Type := mkNormativa {
  titulo : string;
  url : string;
  fecha_publicacion : string;
  fecha_cierre : string;
  estado : string;
  comentarios : Z
}.

(** The text of the date span inside one of the two date columns. *)
Definition fecha_value (div : option Node) : string :=
  match div with
  | Some d =>
      match or_else (find "span" "bq-fechas-value" d) (find "span" "fecha" d) with
      | Some fecha_span => strip (node_text fecha_span)
      | None => EmptyString
      end
  | None => EmptyString
  end.

(** The container of the two dates, under either class. *)
Definition fechas_block (proceso : Node) : option Node :=
  or_else (find "div" "bq-normaFechas" proceso) (find "div" "fechas-container" proceso).

Definition extract_fechas (proceso : Node) : string * string :=
  match fechas_block proceso with
  | Some fechas =>
      let pub_div := or_else (find "div" "bq-col-publicado" fechas)
                             (find "div" "fecha-publicacion" fechas) in
      let cierre_div := or_else (find "div" "bq-col-cierre" fechas)
                                (find "div" "fecha-cierre" fechas) in
      (fecha_value pub_div, fecha_value cierre_div)
  | None => (EmptyString, EmptyString)
  end.

Definition estado_block (proceso : Node) : option Node :=
  or_else (find "div" "estado-container" proceso) (find "div" "estado" proceso).

Definition extract_estado (proceso : Node) : string :=
  match estado_block proceso with
  | Some estado_div =>
      match find_tag "div" estado_div with
      | Some estado_text => strip (node_text estado_text)
      | None => EmptyString
      end
  | None => EmptyString
  end.

Definition comentarios_block (proceso : Node) : option Node :=
  or_else (find "div" "respuestasContainer" proceso) (find "div" "comentarios" proceso).

(** The node that holds the number inside the comment block. *)
Definition num_block (comentarios_div : Node) : option Node :=
  or_else (find "div" "bq-statics-number" comentarios_div)
          (find "div" "numero" comentarios_div).

Definition extract_comentarios (proceso : Node) : Z :=
  match comentarios_block proceso with
  | Some comentarios_div =>
      match num_block comentarios_div with
      | Some num_div =>
          match py_int (strip (node_text num_div)) with
          | Some n => n
          | None => 0%Z           (* ValueError: logged, the 0 stays *)
          end
      | None => 0%Z
      end
  | None => 0%Z
  end.

(** The header block that holds the title anchor. *)
Definition find_header (proceso : Node) : option Node :=
  match find "div" "bq-proceso-header-title" proceso with
  | Some h => Some h
  | None => find "div" "proceso-title" proceso
  end.

(** One turn of the loop over [procesos], up to the record it builds;
    [None] is a [continue]. *)
Definition extract_proceso (proceso : Node) : option Normativa :=
  match find_header proceso with
  | None => None
  | Some header =>
      match find_tag "a" header with
      | None => None
      | Some link =>
          let titulo := strip (node_text link) in
          let url := match node_attr "href" link with
                     | Some h => h
                     | None => EmptyString
                     end in
          match url with
          | EmptyString => None
          | _ =>
              let '(fecha_publicacion, fecha_cierre) := extract_fechas proceso in
              Some (mkNormativa titulo url fecha_publicacion fecha_cierre
                      (extract_estado proceso) (extract_comentarios proceso))
          end
      end
  end.

(** [any(n['url'] == url for n in normativas)] *)
Definition url_seen (u : string) (normativas : list Normativa) : bool :=
  existsb (fun n => String.eqb (url n) u) normativas.

(** The body of the loop: a built record is appended unless its url was
    already produced. *)
Definition add_proceso (normativas : list Normativa) (proceso : Node)
  : list Normativa :=
  match extract_proceso proceso with
  | None => normativas
  | Some normativa =>
      if url_seen (url normativa) normativas then normativas
      else normativas ++ [normativa]
  end.

(** The item containers: the primary class, or the fallback class when the
    primary one matches nothing. *)
Definition find_procesos (soup : Soup) : list Node :=
  match find_all "div" "bq-proceso" soup with
  | [] => find_all "div" "proceso-container" soup
  | procesos => procesos
  end.

(** [parse_normativa]; nothing in the loop body raises on a parsed
    document, so the two [except] clauses are never entered. *)
Definition parse_normativa (soup : Soup) : list Normativa :=
  fold_left add_proceso (find_procesos soup) [].

(** ** The retry policy ([retry_with_delay]) *)

(** What the policy does, in order: it invokes the wrapped function, logs a
    warning for a failed attempt, and sleeps [delay] seconds. *)
Inductive retry_event : Type :=
| Invoked (attempt : nat)
| Warned (attempt : nat) (e : exn)
| Slept (seconds : nat).

(** The wrapped function acts on a world [W] (the browser session); the loop
    runs over [range(max_retries)], [remaining] being the turns left and
    [attempt] the loop variable.  Falling off the loop returns [None]. *)
Fixpoint retry_loop {W A : Type} (func : W -> outcome A * W)
    (max_retries delay remaining attempt : nat) (w : W)
  : outcome (option A) * W * list retry_event :=
  match remaining with
  | 0 => (Returned None, w, [])
  | S remaining' =>
      match func w with
      | (Returned a, w') => (Returned (Some a), w', [Invoked attempt])
      | (Raised e, w') =>
          if attempt <? max_retries - 1
          then
            let '(r, w'', evs) :=
              retry_loop func max_retries delay remaining' (S attempt) w' in
            (r, w'', Invoked attempt :: Warned attempt e :: Slept delay :: evs)
          else (Raised e, w', [Invoked attempt; Warned attempt e])
      end
  end.

Definition retry_with_delay {W A : Type} (func : W -> outcome A * W)
    (max_retries delay : nat) (w : W)
  : outcome (option A) * W * list retry_event :=
  retry_loop func max_retries delay max_retries 0 w.

(** The defaults of the signature: [max_retries=3, delay=5]. *)
Definition default_max_retries : nat := 3.
Definition default_delay : nat := 5.

(** ** Pagination traversal ([get_page_content]) *)

(** [data_num and data_num.isdigit()], then [int(data_num)]. *)
Definition link_target (link : Node) : option nat :=
  match node_attr "data-num" link with
  | Some data_num => if isdigit data_num then Some (int_of_digits data_num) else None
  | None => None
  end.

(** The scan of the pagination links: the first link whose page number is
    [current_page + 1] is clicked and its number returned. *)
Fixpoint find_next_page (page_links : list Node) (current_page : nat) : option nat :=
  match page_links with
  | [] => None
  | link :: rest =>
      match link_target link with
      | Some page_num =>
          if page_num =? current_page + 1 then Some page_num
          else find_next_page rest current_page
      | None => find_next_page rest current_page
      end
  end.

(** The pagination control of a page that leads to [current_page + 1]. *)
Definition next_control (page : Soup) (current_page : nat) : option nat :=
  find_next_page (find_elements_by_class "J-paginationjs-page" page) current_page.

(** The item elements the browser finds on a page, under the two classes. *)
Definition proceso_elements (page : Soup) : list Node :=
  match find_elements_by_class "bq-proceso" page with
  | [] => find_elements_by_class "proceso-container" page
  | els => els
  end.

(** What one turn of the [while True] loop appends to [all_page_sources]. *)
Definition page_sources (page : Soup) : list Soup :=
  match proceso_elements page with
  | [] => []
  | _ => [page]
  end.

(** The [while True] loop when every call of the driver inside it returns.
    [render n] is what the browser shows once page [n] was reached; the loop
    ends with [break], the fuel only bounds the number of turns ([None]:
    still running).  The loop with the errors of the driver is
    [traverse_faulty] below. *)
Fixpoint traverse (fuel : nat) (render : nat -> Soup) (current_page : nat)
    (all_page_sources : list Soup) : option (nat * list Soup) :=
  match fuel with
  | 0 => None
  | S fuel' =>
      let page := render current_page in
      let sources := all_page_sources ++ page_sources page in
      match next_control page current_page with
      | Some page_num => traverse fuel' render page_num sources
      | None => Some (current_page, sources)
      end
  end.

(** *** Errors of the driver inside the loop *)

(** Every call of the driver in one turn of the loop sits inside a [try],
    and what the turn does when a call raises is fixed by the handlers.
    [Faults] tells which calls raise on the visit of one page:
    - [items_fail]: a lookup of the items or the reading of [page_source];
      the outer handler logs and leaves the loop, nothing being appended;
    - [links_fail]: the lookup of the pagination links or the reading of
      their attributes for the log; the inner handler looks the link to the
      next page up by selector;
    - [link_fail i]: a call made for the link at position [i] of the scan
      (reading its attribute, scrolling to it, clicking it); the handler
      goes on with the next link;
    - [css_fail]: the lookup by selector, for another reason than the link
      being absent, or the click on the link it found; the loop is left. *)
Record Faults : Type := mkFaults {
  items_fail : bool;
  links_fail : bool;
  link_fail : nat -> bool;
  css_fail : bool
}.

Definition no_faults : Faults := mkFaults false false (fun _ => false) false.

(** No call raises, whatever the page. *)
Definition calm : nat -> Faults := fun _ => no_faults.

(** [str(n)] *)
Definition str_of_nat (n : nat) : string :=
  DecimalString.NilEmpty.string_of_uint (Nat.to_uint n).

(** [find_element(By.CSS_SELECTOR, ".J-paginationjs-page[data-num='n']")]
    finds an element: the page has one of that class whose [data-num] is the
    text of [n]. *)
Definition css_has_link (page : Soup) (n : nat) : bool :=
  existsb (fun link =>
             match node_attr "data-num" link with
             | Some data_num => String.eqb data_num (str_of_nat n)
             | None => false
             end)
          (find_elements_by_class "J-paginationjs-page" page).

(** The scan of the pagination links when the calls for some links raise:
    those links are passed over.  [i] is the position of the first link of
    [page_links] in the scan. *)
Fixpoint find_next_page_faulty (skip : nat -> bool) (i : nat) (page_links : list Node)
    (current_page : nat) : option nat :=
  match page_links with
  | [] => None
  | link :: rest =>
      if skip i then find_next_page_faulty skip (S i) rest current_page
      else
        match link_target link with
        | Some page_num =>
            if page_num =? current_page + 1 then Some page_num
            else find_next_page_faulty skip (S i) rest current_page
        | None => find_next_page_faulty skip (S i) rest current_page
        end
  end.

(** Where one turn leads: the number of the page reached, or [None] for a
    [break]. *)
Definition next_page (f : Faults) (page : Soup) (current_page : nat) : option nat :=
  if links_fail f
  then if css_has_link page (current_page + 1) && negb (css_fail f)
       then Some (current_page + 1)
       else None
  else find_next_page_faulty (link_fail f) 0
         (find_elements_by_class "J-paginationjs-page" page) current_page.

(** The [while True] loop; [faults n] are the errors of the driver on the
    visit of page [n]. *)
Fixpoint traverse_faulty (fuel : nat) (faults : nat -> Faults) (render : nat -> Soup)
    (current_page : nat) (all_page_sources : list Soup) : option (nat * list Soup) :=
  match fuel with
  | 0 => None
  | S fuel' =>
      let page := render current_page in
      if items_fail (faults current_page)
      then Some (current_page, all_page_sources)
      else
        let sources := all_page_sources ++ page_sources page in
        match next_page (faults current_page) page current_page with
        | Some page_num => traverse_faulty fuel' faults render page_num sources
        | None => Some (current_page, sources)
        end
  end.

(** A result listing as a finite sequence of pages, page 1 first; past its
    end the browser shows nothing. *)
Definition Site : Type := list Soup.

Definition page_at (site : Site) (n : nat) : Soup := nth (n - 1) site [].

(** One browser session as an attempt sees it: the error [driver.get(url)]
    raises, if it raises one; whether the sector and the entity can be
    selected; the errors of the driver on each page of the loop; and the
    listing behind them. *)
Record Session : Type := mkSession {
  load_error : option exn;
  sector_selectable : bool;
  entidad_selectable : bool;
  faults : nat -> Faults;
  site : Site
}.

(** ["\n".join(all_page_sources)] as a document. *)
Fixpoint join_sources (sources : list Soup) : Soup :=
  match sources with
  | [] => []
  | [src] => src
  | src :: rest => src ++ Text (String (ascii_of_nat 10) EmptyString) :: join_sources rest
  end.

(** [_get_content]: the page is loaded, the sector and the entity are
    selected, and the loop collects the sources of the pages that showed
    items.  An error of [driver.get] is not caught here and reaches the
    caller as it is; the filters are applied best effort and the count of
    results is read inside a [try], so neither raises; the errors inside the
    loop are caught there.  On a finite listing the loop ends within
    [length site + 1] turns. *)
Definition _get_content (s : Session) : outcome (list Soup) :=
  match load_error s with
  | Some e => Raised e
  | None =>
      if negb (sector_selectable s)
      then Raised (RendererError "No se pudo seleccionar el sector")
      else if negb (entidad_selectable s)
      then Raised (RendererError "No se pudo seleccionar la entidad")
      else
        match traverse_faulty (S (List.length (site s))) (faults s)
                (page_at (site s)) 1 [] with
        | Some (_, sources) => Returned sources
        | None => Raised (RendererError "traversal still running")
        end
  end.

(** The sessions the browser offers to the successive attempts. *)
Definition World : Type := list Session.

Definition attempt_get_content (w : World) : outcome (list Soup) * World :=
  match w with
  | [] => (Raised (RendererError "no session"), [])
  | s :: rest => (_get_content s, rest)
  end.

(** [get_page_content]: the wrapped call; an error that survives the
    retries is logged and [None] returned. *)
Definition get_page_content (w : World)
  : option (list Soup) * World * list retry_event :=
  match retry_with_delay attempt_get_content default_max_retries default_delay w with
  | (Returned content, w', evs) => (content, w', evs)
  | (Raised _, w', evs) => (None, w', evs)
  end.

(** ** Data frames and column expressions *)

Inductive cell : Type :=
| VStr (s : string)
| VInt (z : Z)
| VDate (d : Date)
| VDatetime (t : Z)
| VNull.

Definition Series : Type := list cell.

(** A frame: its columns in order, each with its name. *)
Definition DataFrame : Type := list (string * Series).

Fixpoint df_column (name : string) (df : DataFrame) : option Series :=
  match df with
  | [] => None
  | (k, col) :: r => if String.eqb k name then Some col else df_column name r
  end.

Definition df_columns (df : DataFrame) : list string := map fst df.

Definition df_height (df : DataFrame) : nat :=
  match df with
  | [] => 0
  | (_, col) :: _ => List.length col
  end.

(** [pl.DataFrame(normativas)]: one column per key, in key order. *)
Definition df_of_normativas (normativas : list Normativa) : DataFrame :=
  [ ("titulo", map (fun n => VStr (titulo n)) normativas);
    ("url", map (fun n => VStr (url n)) normativas);
    ("fecha_publicacion", map (fun n => VStr (fecha_publicacion n)) normativas);
    ("fecha_cierre", map (fun n => VStr (fecha_cierre n)) normativas);
    ("estado", map (fun n => VStr (estado n)) normativas);
    ("comentarios", map (fun n => VInt (comentarios n)) normativas) ].

(** The column expressions the program builds. *)
Inductive expr : Type :=
| Col (name : string)
| Lit (c : cell)
| StrStrptimeDate (e : expr)        (* .str.strptime(pl.Date, '%d/%m/%Y') *)
| StrStrip (e : expr)               (* .str.strip() *)
| StrReplaceAllWs (e : expr)        (* .str.replace_all(r'\s+', ' ') *)
| CastInt32 (e : expr)              (* .cast(pl.Int32) *)
| FillNull (v : cell) (e : expr)    (* .fill_null(v) *)
| Alias (name : string) (e : expr). (* .alias(name) *)

Fixpoint map_cells (f : cell -> outcome cell) (col : Series) : outcome Series :=
  match col with
  | [] => Returned []
  | c :: r =>
      c' <- f c ;;
      r' <- map_cells f r ;;
      Returned (c' :: r')
  end.

(** The reader of one text that [.str.strptime(pl.Date, '%d/%m/%Y')] applies
    to every cell is the library's and not part of the program: it is a
    parameter of the normalization, [pl_strptime], with [None] for a text
    the library rejects.  The library reads the texts of the digits form, to
    the date [strptime_dmy] gives, and other texts as well (a year of fewer
    than four digits among them); which ones is left to the library. *)
Definition DateReader : Type := string -> option Date.

(** Strict parsing: a text that is no date raises. *)
Definition strptime_cell (pl_strptime : DateReader) (c : cell) : outcome cell :=
  match c with
  | VStr s =>
      match pl_strptime s with
      | Some d => Returned (VDate d)
      | None => Raised (ComputeError "strict date parsing failed")
      end
  | VNull => Returned VNull
  | _ => Raised (ComputeError "expected a string column")
  end.

Definition str_cell (f : string -> string) (c : cell) : outcome cell :=
  match c with
  | VStr s => Returned (VStr (f s))
  | VNull => Returned VNull
  | _ => Raised (ComputeError "expected a string column")
  end.

Definition int32_min : Z := (- 2147483648)%Z.
Definition int32_max : Z := 2147483647%Z.

(** Strict cast: a value outside the 32-bit range raises. *)
Definition cast_int32_cell (c : cell) : outcome cell :=
  match c with
  | VInt z =>
      if ((int32_min <=? z) && (z <=? int32_max))%Z then Returned (VInt z)
      else Raised (ComputeError "conversion to i32 failed")
  | VNull => Returned VNull
  | _ => Raised (ComputeError "cast not supported")
  end.

Definition fill_null_cell (v c : cell) : cell :=
  match c with
  | VNull => v
  | _ => c
  end.

Fixpoint eval_expr (pl_strptime : DateReader) (df : DataFrame) (e : expr)
  : outcome Series :=
  match e with
  | Col name =>
      match df_column name df with
      | Some col => Returned col
      | None => Raised (ColumnNotFoundError name)
      end
  | Lit c => Returned (repeat c (df_height df))
  | StrStrptimeDate e' =>
      col <- eval_expr pl_strptime df e' ;; map_cells (strptime_cell pl_strptime) col
  | StrStrip e' =>
      col <- eval_expr pl_strptime df e' ;; map_cells (str_cell pl_strip) col
  | StrReplaceAllWs e' =>
      col <- eval_expr pl_strptime df e' ;; map_cells (str_cell replace_all_ws) col
  | CastInt32 e' =>
      col <- eval_expr pl_strptime df e' ;; map_cells cast_int32_cell col
  | FillNull v e' =>
      col <- eval_expr pl_strptime df e' ;; Returned (map (fill_null_cell v) col)
  | Alias _ e' => eval_expr pl_strptime df e'
  end.

Fixpoint output_name (e : expr) : string :=
  match e with
  | Col name => name
  | Lit _ => "literal"
  | Alias name _ => name
  | StrStrptimeDate e' | StrStrip e' | StrReplaceAllWs e' | CastInt32 e'
  | FillNull _ e' => output_name e'
  end.

(** A column replaces the one of the same name in place, or is added last. *)
Fixpoint set_column (name : string) (col : Series) (df : DataFrame) : DataFrame :=
  match df with
  | [] => [(name, col)]
  | (k, c) :: r =>
      if String.eqb k name then (k, col) :: r else (k, c) :: set_column name col r
  end.

(** All expressions are evaluated on the frame as it was. *)
Fixpoint eval_exprs (pl_strptime : DateReader) (df : DataFrame) (exprs : list expr)
  : outcome (list (string * Series)) :=
  match exprs with
  | [] => Returned []
  | e :: r =>
      col <- eval_expr pl_strptime df e ;;
      cols <- eval_exprs pl_strptime df r ;;
      Returned ((output_name e, col) :: cols)
  end.

(** [df.with_columns(exprs)] *)
Definition with_columns (pl_strptime : DateReader) (df : DataFrame) (exprs : list expr)
  : outcome DataFrame :=
  cols <- eval_exprs pl_strptime df exprs ;;
  Returned (fold_left (fun d nc => set_column (fst nc) (snd nc) d) cols df).

(** [df.select(names)] *)
Fixpoint select (df : DataFrame) (names : list string) : outcome DataFrame :=
  match names with
  | [] => Returned []
  | name :: r =>
      match df_column name df with
      | Some col => rest <- select df r ;; Returned ((name, col) :: rest)
      | None => Raised (ColumnNotFoundError name)
      end
  end.

(** ** Normalization ([transform_data]) *)

Definition entidad_const : string := "Ministerio de Agricultura y Desarrollo Rural".
Definition sector_const : string := "Agropecuario".

Definition columnas : list string :=
  [ "titulo"; "url"; "fecha_publicacion"; "fecha_cierre";
    "estado"; "comentarios"; "entidad"; "sector"; "fecha_extraccion" ].

(** The body of the [try] block past the emptiness test; [now] is the
    reading of [datetime.now()]. *)
Definition transform_frame (pl_strptime : DateReader) (now : Z)
    (normativas : list Normativa) : outcome DataFrame :=
  let df := df_of_normativas normativas in
  df <- with_columns pl_strptime df
      [ Alias "fecha_publicacion" (StrStrptimeDate (Col "fecha_publicacion"));
        Alias "fecha_cierre" (StrStrptimeDate (Col "fecha_cierre"));
        Alias "titulo" (StrReplaceAllWs (StrStrip (Col "titulo")));
        Alias "comentarios" (FillNull (VInt 0) (CastInt32 (Col "comentarios")));
        Alias "entidad" (Lit (VStr entidad_const));
        Alias "sector" (Lit (VStr sector_const));
        Alias "fecha_extraccion" (Lit (VDatetime now)) ] ;;
  select df columnas.

(** [transform_data]: [None] for no data, and [None] again when the block
    raised (the error is logged by the [except] clause). *)
Definition transform_data (pl_strptime : DateReader) (now : Z)
    (normativas : list Normativa) : outcome (option DataFrame) :=
  match normativas with
  | [] => Returned None
  | _ =>
      match transform_frame pl_strptime now normativas with
      | Returned df => Returned (Some df)
      | Raised _ => Returned None
      end
  end.

(** ** Exports and the run ([save_to_json], [save_to_csv], [run]) *)

(** The statistics file, as far as it depends on dates and counts: the
    number of rows and the range of the publication dates in ISO text. *)
Record Stats : Type := mkStats {
  total_normativas : nat;
  rango_min : string;
  rango_max : string
}.

Definition date_min (a b : Date) : Date := if date_ltb b a then b else a.
Definition date_max (a b : Date) : Date := if date_ltb a b then b else a.

(** [series.min()] / [series.max()] of a date column; nulls are skipped and
    [None] is the answer for a column without dates. *)
Fixpoint series_extreme (pick : Date -> Date -> Date) (col : Series) : option Date :=
  match col with
  | [] => None
  | VDate d :: r =>
      match series_extreme pick r with
      | Some d' => Some (pick d d')
      | None => Some d
      end
  | _ :: r => series_extreme pick r
  end.

(** The [stats] dictionary; [None] when building it raises. *)
Definition compute_stats (df : DataFrame) : option Stats :=
  match df_column "fecha_publicacion" df with
  | Some col =>
      match series_extreme date_min col, series_extreme date_max col with
      | Some lo, Some hi =>
          Some (mkStats (df_height df) (strftime_iso lo) (strftime_iso hi))
      | _, _ => None
      end
  | None => None
  end.

(** What a run does that can be seen from outside. *)
Inductive run_event : Type :=
| WriteJson (data : list Normativa)
| CallTransform (data : list Normativa)
| WriteCsv (df : DataFrame)
| WriteStats (st : Stats)
| DriverQuit.

Definition save_to_json (data : list Normativa) : list run_event :=
  match data with
  | [] => []
  | _ => [WriteJson data]
  end.

(** The CSV is written, then the statistics; an error while building the
    statistics is caught after the CSV was written. *)
Definition write_csv_and_stats (df : DataFrame) : list run_event :=
  WriteCsv df ::
  match compute_stats df with
  | Some st => [WriteStats st]
  | None => []
  end.

Definition save_to_csv (pl_strptime : DateReader) (now : Z) (data : list Normativa)
  : outcome unit * list run_event :=
  match data with
  | [] => (Returned tt, [])
  | _ =>
      match transform_data pl_strptime now data with
      | Returned None => (Returned tt, [CallTransform data])
      | Returned (Some df) => (Returned tt, CallTransform data :: write_csv_and_stats df)
      | Raised _ => (Returned tt, [CallTransform data])
      end
  end.

(** The body of [run] once [get_page_content] has answered. *)
Definition run_from_content (pl_strptime : DateReader) (now : Z)
    (content : option (list Soup)) : outcome unit * list run_event :=
  match content with
  | None | Some [] => (Returned tt, [])
  | Some sources =>
      match parse_normativa (join_sources sources) with
      | [] => (Returned tt, [])
      | normativas =>
          let '(r, evs) := save_to_csv pl_strptime now normativas in
          (r, save_to_json normativas ++ evs)
      end
  end.

(** [run]: the browser is closed on every path ([finally]). *)
Definition run (pl_strptime : DateReader) (now : Z) (w : World)
  : outcome unit * list run_event :=
  let '(content, _, _) := get_page_content w in
  let '(r, evs) := run_from_content pl_strptime now content in
  (r, evs ++ [DriverQuit]).

(** ** Reprocessing a dump ([json_to_csv]) *)

(** The frame [json_to_csv] builds from the records it loaded. *)
Definition json_to_csv_frame (pl_strptime : DateReader) (now : Z)
    (normativas : list Normativa) : outcome DataFrame :=
  let df := df_of_normativas normativas in
  df <- with_columns pl_strptime df
      [ Alias "fecha_publicacion" (StrStrptimeDate (Col "fecha_publicacion"));
        Alias "fecha_cierre" (StrStrptimeDate (Col "fecha_cierre"));
        Alias "titulo" (StrReplaceAllWs (StrStrip (Col "titulo")));
        Alias "comentarios" (FillNull (VInt 0) (CastInt32 (Col "comentarios")));
        Alias "entidad" (Lit (VStr entidad_const));
        Alias "sector" (Lit (VStr sector_const));
        Alias "fecha_extraccion" (Lit (VDatetime now)) ] ;;
  select df
    [ "titulo"; "url"; "fecha_publicacion"; "fecha_cierre";
      "estado"; "comentarios"; "entidad"; "sector"; "fecha_extraccion" ].

(** [json_to_csv] on the records read from the dump. *)
Definition json_to_csv (pl_strptime : DateReader) (now : Z)
    (normativas : list Normativa) : outcome unit * list run_event :=
  match normativas with
  | [] => (Returned tt, [])
  | _ =>
      match json_to_csv_frame pl_strptime now normativas with
      | Returned df => (Returned tt, write_csv_and_stats df)
      | Raised _ => (Returned tt, [])
      end
  end.

(** The frame with the run timestamp left out. *)
Definition drop_column (name : string) (df : DataFrame) : DataFrame :=
  filter (fun nc => negb (String.eqb (fst nc) name)) df.

(** ** Filter validation ([__init__]) *)

Record Crawler : Type := mkCrawler {
  c_estado : option string;
  c_tipo_documento : option string;
  c_fecha_inicio : option string;
  c_fecha_fin : option string;
  base_url : string
}.

(** The steps of the constructor that reach outside the object. *)
Inductive init_event : Type :=
| SetupLogging
| SetupDriver.

(** Truth value of an optional text: [None] and the empty text are false. *)
Definition truthy (o : option string) : bool :=
  match o with
  | Some (String _ _) => true
  | _ => false
  end.

Definition py_strptime (s : string) : outcome Date :=
  match py_strptime_dmy s with
  | Some d => Returned d
  | None => Raised (ValueError "time data does not match format '%d/%m/%Y'")
  end.

(** The [try] block of the constructor with its [except ValueError]. *)
Definition validate_fechas (fecha_inicio fecha_fin : string) : outcome unit :=
  let checked :=
    inicio <- py_strptime fecha_inicio ;;
    fin <- py_strptime fecha_fin ;;
    if date_ltb fin inicio
    then Raised (ValueError "La fecha de inicio no puede ser posterior a la fecha de fin")
    else Returned tt in
  match checked with
  | Returned u => Returned u
  | Raised e => Raised (ValueError ("Error en el formato de fechas: " ++ str_of_exn e)%string)
  end.

(** [SUCOPCrawler(estado, tipo_documento, fecha_inicio, fecha_fin)];
    [driver_ok] tells whether the browser driver can be started. *)
Definition init (estado tipo_documento fecha_inicio fecha_fin : option string)
    (driver_ok : bool) : outcome Crawler * list init_event :=
  let validated :=
    match fecha_inicio, fecha_fin with
    | Some fi, Some ff =>
        if truthy fecha_inicio && truthy fecha_fin then validate_fechas fi ff
        else Returned tt
    | _, _ => Returned tt
    end in
  match validated with
  | Raised e => (Raised e, [])
  | Returned _ =>
      if driver_ok
      then (Returned (mkCrawler estado tipo_documento fecha_inicio fecha_fin
                        "https://www.sucop.gov.co/busqueda?pageSize=100"),
            [SetupLogging; SetupDriver])
      else (Raised (RendererError "No se pudo inicializar el driver de Edge"),
            [SetupLogging; SetupDriver])
  end.


(** ** Vocabulary of the statements *)

(** The title anchor of an item, and the url it carries. *)
Definition title_anchor (proceso : Node) : option Node :=
  match find_header proceso with
  | Some header => find_tag "a" header
  | None => None
  end.

Definition anchor_url (link : Node) : string :=
  match node_attr "href" link with
  | Some h => h
  | None => EmptyString
  end.

(** The urls of a list of raw records, and of a frame. *)
Definition urls (normativas : list Normativa) : list string := map url normativas.

Definition cell_text (c : cell) : string :=
  match c with
  | VStr s => s
  | _ => EmptyString
  end.

Definition frame_urls (df : DataFrame) : list string :=
  match df_column "url" df with
  | Some col => map cell_text col
  | None => []
  end.

(** A raw record the normalization accepts: the library reads both its
    dates and the comment count fits 32 bits. *)
Definition normalizable (pl_strptime : DateReader) (n : Normativa) : bool :=
  match pl_strptime (fecha_publicacion n), pl_strptime (fecha_cierre n) with
  | Some _, Some _ => ((int32_min <=? comentarios n) && (comentarios n <=? int32_max))%Z
  | _, _ => false
  end.

Definition date_cell (pl_strptime : DateReader) (s : string) : cell :=
  match pl_strptime s with
  | Some d => VDate d
  | None => VNull
  end.

(** The frame of the normalized records, column by column. *)
Definition normalized_frame (pl_strptime : DateReader) (now : Z)
    (normativas : list Normativa) : DataFrame :=
  [ ("titulo", map (fun n => VStr (replace_all_ws (pl_strip (titulo n)))) normativas);
    ("url", map (fun n => VStr (url n)) normativas);
    ("fecha_publicacion", map (fun n => date_cell pl_strptime (fecha_publicacion n)) normativas);
    ("fecha_cierre", map (fun n => date_cell pl_strptime (fecha_cierre n)) normativas);
    ("estado", map (fun n => VStr (estado n)) normativas);
    ("comentarios", map (fun n => VInt (comentarios n)) normativas);
    ("entidad", repeat (VStr entidad_const) (List.length normativas));
    ("sector", repeat (VStr sector_const) (List.length normativas));
    ("fecha_extraccion", repeat (VDatetime now) (List.length normativas)) ].

(** The outcomes of [n] successive calls of a function on a world, each call
    made whatever the previous one gave. *)
Fixpoint call_outcomes {W A : Type} (func : W -> outcome A * W) (n : nat) (w : W)
  : list (outcome A) :=
  match n with
  | 0 => []
  | S n' => let '(r, w') := func w in r :: call_outcomes func n' w'
  end.

(** The invocations and the sleeps of a trace, warnings left out. *)
Definition schedule (evs : list retry_event) : list retry_event :=
  filter (fun ev => match ev with Warned _ _ => false | _ => true end) evs.

Definition invocations (evs : list retry_event) : nat :=
  List.length (filter (fun ev => match ev with Invoked _ => true | _ => false end) evs).

(** [k] invocations numbered from [attempt], a sleep of [delay] seconds
    between one and the next. *)
Fixpoint expected_schedule (delay attempt k : nat) : list retry_event :=
  match k with
  | 0 => []
  | S k' =>
      Invoked attempt ::
      match k' with
      | 0 => []
      | S _ => Slept delay :: expected_schedule delay (S attempt) k'
      end
  end.


(** The sources collected over pages 1 to [k]. *)
Definition collected (render : nat -> Soup) (k : nat) : list Soup :=
  flat_map (fun i => page_sources (render i)) (seq 1 k).

(** ** Sample documents and records *)

Definition div (cls : string) (children : list Node) : Node :=
  Elem "div" [("class", cls)] children.

Definition anchor (href title : string) : Node :=
  Elem "a" [("href", href)] [Text title].

Definition fecha_span (txt : string) : Node :=
  Elem "span" [("class", "bq-fechas-value")] [Text txt].

(** A listing item in the primary markup, with every block present. *)
Definition item_full (href title pub cierre est num : string) : Node :=
  div "bq-proceso"
    [ div "bq-proceso-header-title" [anchor href title];
      div "bq-normaFechas"
        [ div "bq-col-publicado" [fecha_span pub];
          div "bq-col-cierre" [fecha_span cierre] ];
      div "estado-container" [div "bq-estado" [Text est]];
      div "respuestasContainer" [div "bq-statics-number" [Text num]] ].

(** A listing item that has only its title block. *)
Definition item_bare (href title : string) : Node :=
  div "bq-proceso" [div "bq-proceso-header-title" [anchor href title]].

(** A pagination link to page [num]. *)
Definition page_link (num : string) : Node :=
  Elem "li" [("class", "paginationjs-page J-paginationjs-page"); ("data-num", num)]
    [Elem "a" [] [Text num]].

Definition sample_page1 : Soup :=
  [ item_full "/proyecto/1" "Proyecto uno" "05/03/2024" "20/03/2024" "Activa" "3";
    item_full "/proyecto/2" "Proyecto dos" "06/03/2024" "21/03/2024" "Activa" "0";
    page_link "1"; page_link "2" ].

Definition sample_page2 : Soup :=
  [ item_full "/proyecto/2" "Proyecto dos" "06/03/2024" "21/03/2024" "Activa" "0";
    item_full "/proyecto/3" "Proyecto tres" "07/03/2024" "22/03/2024" "Cerrada" "abc";
    page_link "1"; page_link "2" ].

(** A page whose only item has no date block. *)
Definition sample_page_no_dates : Soup :=
  [ item_bare "/proyecto/7" "Proyecto siete" ].

(** A page whose only container has no title block. *)
Definition sample_page_no_title : Soup :=
  [ div "bq-proceso" [div "bq-normaFechas" []] ].

(** A first page without items that still links to page 2. *)
Definition sample_page_empty : Soup :=
  [ div "bq-resultados" [Text "0 resultados"]; page_link "1"; page_link "2" ].

Definition sample_record : Normativa :=
  mkNormativa "Proyecto de   resolucion" "/proyecto/1" "05/03/2024" "20/03/2024" "Activa" 3.

Definition sample_duplicates : list Normativa :=
  [ sample_record;
    mkNormativa "Otro titulo" "/proyecto/1" "06/03/2024" "21/03/2024" "Cerrada" 0 ].

Definition sample_bad_date : list Normativa :=
  [ sample_record;
    mkNormativa "Proyecto" "/proyecto/2" "por definir" "20/03/2024" "Activa" 1 ].

(** ** Vocabulary of the further properties *)

(** The records built from a list of containers, in order, the skipped
    containers left out. *)
Definition extracted (procesos : list Node) : list Normativa :=
  flat_map (fun p => match extract_proceso p with
                     | Some n => [n]
                     | None => []
                     end) procesos.

(** Of the records of each url keep the first; [seen] are the urls already
    met. *)
Fixpoint first_per_url (seen : list string) (l : list Normativa) : list Normativa :=
  match l with
  | [] => []
  | n :: r =>
      if existsb (String.eqb (url n)) seen then first_per_url seen r
      else n :: first_per_url (url n :: seen) r
  end.

(** Every white-space character of the text is a space, and no space
    follows another; [prev] tells that the previous character was a space. *)
Fixpoint single_spaced (prev : bool) (s : string) : bool :=
  match s with
  | EmptyString => true
  | String c r =>
      if pl_isspace c
      then Ascii.eqb c " " && negb prev && single_spaced true r
      else single_spaced false r
  end.

(** ** Asking for the filters ([solicitar_filtros]) *)

Definition ESTADOS_VALIDOS : list string := ["Activa"; "Cerrada"; "Finalizada"].

Definition TIPOS_DOCUMENTO : list string :=
  [ "AIN"; "Acuerdo"; "Agenda regulatoria"; "Auto"; "CONPES";
    "Circular"; "Concepto"; "Decreto"; "Directiva Presidencial";
    "Edicto"; "Instrucción"; "Ley"; "Oficio"; "Ordenanza"; "Otro";
    "Problema AIN"; "Resolución" ].

(** What a dialogue on the console gives: an answer, with the lines not yet
    read, or the end of the input reached inside a question ([EOFError]). *)
Inductive console (A : Type) : Type :=
| Answered (a : A) (rest : list string)
| EndOfInput.

Arguments Answered {A} a rest.
Arguments EndOfInput {A}.

(** The [while True] loop that asks for one of [opciones] by its number; the
    lines typed are [inputs].  An empty line omits the filter; a line that is
    no number, or a number out of range, asks again. *)
Fixpoint pedir_opcion (opciones : list string) (inputs : list string)
  : console (option string) :=
  match inputs with
  | [] => EndOfInput
  | line :: rest =>
      match strip line with
      | EmptyString => Answered None rest
      | entrada =>
          match py_int entrada with
          | Some v =>
              let idx := (v - 1)%Z in
              if ((0 <=? idx) && (idx <? Z.of_nat (List.length opciones)))%Z
              then match nth_error opciones (Z.to_nat idx) with
                   | Some o => Answered (Some o) rest
                   | None => pedir_opcion opciones rest
                   end
              else pedir_opcion opciones rest
          | None => pedir_opcion opciones rest
          end
      end
  end.

(** The loop that asks for the two dates.  An empty start or end omits both;
    a pair that does not parse, or whose start is after its end, asks
    again. *)
Fixpoint pedir_fechas (inputs : list string)
  : console (option string * option string) :=
  match inputs with
  | [] => EndOfInput
  | line1 :: rest1 =>
      match strip line1 with
      | EmptyString => Answered (None, None) rest1
      | fecha_inicio =>
          match rest1 with
          | [] => EndOfInput
          | line2 :: rest2 =>
              match strip line2 with
              | EmptyString => Answered (None, None) rest2
              | fecha_fin =>
                  match py_strptime_dmy fecha_inicio, py_strptime_dmy fecha_fin with
                  | Some inicio, Some fin =>
                      if date_leb inicio fin
                      then Answered (Some fecha_inicio, Some fecha_fin) rest2
                      else pedir_fechas rest2
                  | _, _ => pedir_fechas rest2
                  end
              end
          end
      end
  end.

Definition solicitar_filtros (inputs : list string)
  : console (option string * option string * option string * option string) :=
  match pedir_opcion ESTADOS_VALIDOS inputs with
  | EndOfInput => EndOfInput
  | Answered estado rest1 =>
      match pedir_opcion TIPOS_DOCUMENTO rest1 with
      | EndOfInput => EndOfInput
      | Answered tipo_documento rest2 =>
          match pedir_fechas rest2 with
          | EndOfInput => EndOfInput
          | Answered (fecha_inicio, fecha_fin) rest3 =>
              Answered (estado, tipo_documento, fecha_inicio, fecha_fin) rest3
          end
      end
  end.

(** The two bounds as the constructor sees them: both read by
    [datetime.strptime], and in order. *)
Definition range_ok (fecha_inicio fecha_fin : string) : bool :=
  match py_strptime_dmy fecha_inicio, py_strptime_dmy fecha_fin with
  | Some inicio, Some fin => date_leb inicio fin
  | _, _ => false
  end.

(** ** Choosing an option of a select ([wait_and_select]) *)

(** [s.lower()] on ASCII letters. *)
Definition lower_char (c : ascii) : ascii :=
  let n := nat_of_ascii c in
  if (65 <=? n) && (n <=? 90) then ascii_of_nat (n + 32) else c.

Fixpoint lower (s : string) : string :=
  match s with
  | EmptyString => EmptyString
  | String c r => String (lower_char c) (lower r)
  end.

(** [sub in s] *)
Fixpoint contains (sub s : string) : bool :=
  String.prefix sub s ||
  match s with
  | EmptyString => false
  | String _ r => contains sub r
  end.

(** The scan of the options: the position of the first option whose text
    contains the searched text, letter case apart. *)
Fixpoint first_matching (option_text : string) (options : list string) (i : nat)
  : option nat :=
  match options with
  | [] => None
  | o :: rest =>
      if contains (lower option_text) (lower o) then Some i
      else first_matching option_text rest (S i)
  end.

(** [wait_and_select]: [select_element] is the list of the option texts of
    the select once it is present, [None] when waiting for it times out.
    The answer is the Boolean returned and the position of the option
    clicked.  A click that itself fails is left out. *)
Definition wait_and_select (select_element : option (list string))
    (option_text : string) : bool * option nat :=
  match select_element with
  | None => (false, None)
  | Some [] => (false, None)
  | Some options =>
      match first_matching option_text options 0 with
      | Some i => (true, Some i)
      | None => (false, None)
      end
  end.

(** ** The dimensional export ([generate_powerbi_data.py]) *)

(** The errors of this module, and a result that may carry one. *)
Inductive bi_exn : Type :=
| BiValueError (msg : string)
| BiKeyError (key : string).

Inductive bi_result (A : Type) : Type :=
| BiOk (a : A)
| BiRaised (e : bi_exn).

Arguments BiOk {A} a.
Arguments BiRaised {A} e.

Definition bi_bind {A B} (m : bi_result A) (k : A -> bi_result B) : bi_result B :=
  match m with
  | BiOk a => k a
  | BiRaised e => BiRaised e
  end.

(** [sorted(set(l))] on texts: the distinct members of [l] in increasing
    order, built by insertion. *)
Fixpoint insert_sorted (x : string) (l : list string) : list string :=
  match l with
  | [] => [x]
  | y :: r =>
      match String.compare x y with
      | Lt => x :: l
      | Eq => l
      | Gt => y :: insert_sorted x r
      end
  end.

Definition sorted_set (l : list string) : list string :=
  fold_right insert_sorted [] l.

(** Two columns built side by side, ids from 1 ([range(1, len + 1)]). *)
Definition numbered {A : Type} (l : list A) : list (nat * A) :=
  combine (seq 1 (List.length l)) l.

(** [Dim_Estado]: rows [(id_estado, estado)]. *)
Definition dim_estados (normativas : list Normativa) : list (nat * string) :=
  numbered (sorted_set (map estado normativas)).

Record TiempoRow : Type := mkTiempoRow {
  fecha_id : nat;
  fecha : string;
  anio : nat;
  mes : nat;
  trimestre : string
}.

(** [f"Q{(month-1)//3 + 1}"] *)
Definition trimestre_of (month : nat) : string :=
  String "Q" (String (digit_char ((month - 1) / 3 + 1)) EmptyString).

(** The date texts of the records, publication then closing. *)
Definition all_fechas (normativas : list Normativa) : list string :=
  flat_map (fun n => [fecha_publicacion n; fecha_cierre n]) normativas.

(** The rows of [Dim_Tiempo] for the sorted date texts; a text that is no
    date raises [ValueError]. *)
Fixpoint tiempo_rows (id : nat) (fechas : list string) : bi_result (list TiempoRow) :=
  match fechas with
  | [] => BiOk []
  | f :: r =>
      match py_strptime_dmy f with
      | None => BiRaised (BiValueError f)
      | Some d =>
          bi_bind (tiempo_rows (S id) r)
            (fun rows => BiOk (mkTiempoRow id f (year d) (month d) (trimestre_of (month d))
                                 :: rows))
      end
  end.

(** [create_dimension_tables]: [Dim_Estado], [Dim_Tiempo], [Dim_Entidad]. *)
Definition create_dimension_tables (normativas : list Normativa)
  : bi_result (list (nat * string) * list TiempoRow * list (nat * string * string)) :=
  let estados := dim_estados normativas in
  bi_bind (tiempo_rows 1 (sorted_set (all_fechas normativas)))
    (fun dim_tiempo => BiOk (estados, dim_tiempo, [(1, entidad_const, sector_const)])).

(** A dictionary [{key: id}] built from rows [(id, key)], and [d[key]];
    a later row with the same key replaces an earlier one. *)
Definition dict_get (key : string) (rows : list (nat * string)) : option nat :=
  fold_left (fun found row => if String.eqb (snd row) key then Some (fst row) else found)
            rows None.

Definition lookup_or_raise (key : string) (rows : list (nat * string)) : bi_result nat :=
  match dict_get key rows with
  | Some id => BiOk id
  | None => BiRaised (BiKeyError key)
  end.

(** Days before the first of January of year [y], and before the first of
    month [m] in year [y]; the ordinal of a date counts from 1 on the first
    of January of year 1. *)
Definition days_before_year (y : Z) : Z :=
  let p := (y - 1)%Z in (p * 365 + p / 4 - p / 100 + p / 400)%Z.

Definition days_before_month (y m : nat) : nat :=
  list_sum (map (days_in_month y) (seq 1 (m - 1))).

Definition date_ordinal (d : Date) : Z :=
  (days_before_year (Z.of_nat (year d))
   + Z.of_nat (days_before_month (year d) (month d)) + Z.of_nat (day d))%Z.

Record FactRow : Type := mkFactRow {
  id_normativa : Z;
  f_titulo : string;
  f_url : string;
  f_id_estado : nat;
  id_fecha_publicacion : nat;
  id_fecha_cierre : nat;
  id_entidad : nat;
  num_comentarios : Z;
  dias_consulta : Z
}.

Definition bi_strptime (s : string) : bi_result Date :=
  match py_strptime_dmy s with
  | Some d => BiOk d
  | None => BiRaised (BiValueError s)
  end.

(** One record of the fact table; [hash] is Python's [hash] on texts. *)
Definition fact_row (hash : string -> Z) (estados : list (nat * string))
    (fechas : list (nat * string)) (n : Normativa) : bi_result FactRow :=
  bi_bind (lookup_or_raise (estado n) estados) (fun id_est =>
  bi_bind (lookup_or_raise (fecha_publicacion n) fechas) (fun id_pub =>
  bi_bind (lookup_or_raise (fecha_cierre n) fechas) (fun id_cie =>
  bi_bind (bi_strptime (fecha_cierre n)) (fun cierre =>
  bi_bind (bi_strptime (fecha_publicacion n)) (fun pub =>
  BiOk (mkFactRow (hash (url n) mod 100000000)%Z (titulo n) (url n)
          id_est id_pub id_cie 1 (comentarios n)
          (date_ordinal cierre - date_ordinal pub)%Z)))))).

Fixpoint fact_rows (hash : string -> Z) (estados fechas : list (nat * string))
    (normativas : list Normativa) : bi_result (list FactRow) :=
  match normativas with
  | [] => BiOk []
  | n :: r =>
      bi_bind (fact_row hash estados fechas n) (fun row =>
      bi_bind (fact_rows hash estados fechas r) (fun rows => BiOk (row :: rows)))
  end.

(** [create_fact_table] *)
Definition create_fact_table (hash : string -> Z) (normativas : list Normativa)
    (estados : list (nat * string)) (dim_tiempo : list TiempoRow)
  : bi_result (list FactRow) :=
  fact_rows hash estados (map (fun row => (fecha_id row, fecha row)) dim_tiempo) normativas.

(** Texts in strictly increasing order. *)
Definition increasing (l : list string) : Prop :=
  StronglySorted (fun a b => String.ltb a b = true) l.

(** [datetime.strptime] reads the text as a date of the format. *)
Definition parses (s : string) : bool :=
  match py_strptime_dmy s with
  | Some _ => true
  | None => false
  end.

(** What a row of [Dim_Tiempo] holds about its date text. *)
Definition tiempo_row_ok (r : TiempoRow) : Prop :=
  exists d,
    py_strptime_dmy (fecha r) = Some d /\
    anio r = year d /\ mes r = month d /\ 1 <= mes r <= 12 /\
    trimestre r = trimestre_of (mes r) /\
    In (trimestre r) ["Q1"; "Q2"; "Q3"; "Q4"].

(** What a row of the fact table holds about the record it is built from,
    given the two dimension tables. *)
Definition fact_row_ok (estados : list (nat * string)) (dim_tiempo : list TiempoRow)
    (n : Normativa) (row : FactRow) : Prop :=
  f_titulo row = titulo n /\ f_url row = url n /\
  num_comentarios row = comentarios n /\ id_entidad row = 1 /\
  (0 <= id_normativa row < 100000000)%Z /\
  In (f_id_estado row, estado n) estados /\
  (exists t, In t dim_tiempo /\ fecha_id t = id_fecha_publicacion row /\
             fecha t = fecha_publicacion n) /\
  (exists t, In t dim_tiempo /\ fecha_id t = id_fecha_cierre row /\
             fecha t = fecha_cierre n) /\
  (exists pub cierre,
      py_strptime_dmy (fecha_publicacion n) = Some pub /\
      py_strptime_dmy (fecha_cierre n) = Some cierre /\
      dias_consulta row = (date_ordinal cierre - date_ordinal pub)%Z).

(** The number of days of a year. *)
Definition days_in_year (y : nat) : nat := if is_leap y then 366 else 365.

(** A page in the fallback markup, and a page that links to page 3. *)
Definition sample_page_fallback : Soup :=
  [ div "proceso-container"
      [div "proceso-title" [anchor "/proyecto/8" "Proyecto ocho"]] ].

(** A second page in the fallback markup that shows the same item again. *)
Definition sample_page_fallback_b : Soup :=
  [ div "proceso-container"
      [div "proceso-title" [anchor "/proyecto/8" "Proyecto ocho"]];
    div "proceso-container"
      [div "proceso-title" [anchor "/proyecto/9" "Proyecto nueve"]] ].

(** A listing of three pages: two pages in the fallback markup that share an
    item, each with the link to its successor, and a last page in the
    primary markup. *)
Definition sample_mixed_site : Site :=
  [ sample_page_fallback ++ [page_link "2"];
    sample_page_fallback_b ++ [page_link "3"];
    sample_page_no_dates ].

Definition sample_page_link3 : Soup :=
  [ item_bare "/proyecto/5" "Proyecto cinco"; page_link "2"; page_link "03" ].

(* ===================================================================== *)
(** * Part II. Properties                                                 *)
(* ===================================================================== *)

(** ** Column expressions over the raw frame *)

Section ColumnLemmas.

Variable get : Normativa -> string.

Lemma map_cells_str (f : string -> string) (l : list Normativa) :
  map_cells (str_cell f) (map (fun n => VStr (get n)) l)
  = Returned (map (fun n => VStr (f (get n))) l).
Proof.
  induction l as [|n l IH]; simpl; [reflexivity|].
  rewrite IH. reflexivity.
Qed.

Lemma map_cells_strptime_ok {pl_strptime : DateReader} (l : list Normativa) :
  forallb (fun n => match pl_strptime (get n) with Some _ => true | None => false end) l = true ->
  map_cells (strptime_cell pl_strptime) (map (fun n => VStr (get n)) l)
  = Returned (map (fun n => date_cell pl_strptime (get n)) l).
Proof.
  induction l as [|n l IH]; simpl; [reflexivity|].
  intros H. apply andb_true_iff in H as [Hn Hl].
  unfold date_cell. destruct (pl_strptime (get n)); [|discriminate].
  simpl. rewrite (IH Hl). reflexivity.
Qed.

Lemma map_cells_strptime_bad {pl_strptime : DateReader} (l : list Normativa) :
  forallb (fun n => match pl_strptime (get n) with Some _ => true | None => false end) l = false ->
  exists e, map_cells (strptime_cell pl_strptime) (map (fun n => VStr (get n)) l) = Raised e.
Proof.
  induction l as [|n l IH]; simpl; [discriminate|].
  intros H. destruct (pl_strptime (get n)); simpl in *.
  - destruct (IH H) as [e He]. rewrite He. simpl. eauto.
  - eauto.
Qed.

End ColumnLemmas.

Lemma map_cells_cast_ok (l : list Normativa) :
  forallb (fun n => ((int32_min <=? comentarios n) && (comentarios n <=? int32_max))%Z) l = true ->
  map_cells cast_int32_cell (map (fun n => VInt (comentarios n)) l)
  = Returned (map (fun n => VInt (comentarios n)) l).
Proof.
  induction l as [|n l IH]; simpl; [reflexivity|].
  intros H. apply andb_true_iff in H as [Hn Hl].
  rewrite Hn. simpl. rewrite (IH Hl). reflexivity.
Qed.

Lemma map_cells_cast_bad (l : list Normativa) :
  forallb (fun n => ((int32_min <=? comentarios n) && (comentarios n <=? int32_max))%Z) l = false ->
  exists e, map_cells cast_int32_cell (map (fun n => VInt (comentarios n)) l) = Raised e.
Proof.
  induction l as [|n l IH]; simpl; [discriminate|].
  intros H.
  destruct ((int32_min <=? comentarios n) && (comentarios n <=? int32_max))%Z; simpl in *.
  - destruct (IH H) as [e He]. rewrite He. simpl. eauto.
  - eauto.
Qed.

Lemma fill_null_ints (l : list Normativa) :
  map (fill_null_cell (VInt 0)) (map (fun n => VInt (comentarios n)) l)
  = map (fun n => VInt (comentarios n)) l.
Proof. rewrite map_map. reflexivity. Qed.

Lemma normalizable_split {pl_strptime : DateReader} (l : list Normativa) :
  forallb (normalizable pl_strptime) l =
  forallb (fun n => match pl_strptime (fecha_publicacion n) with
                    | Some _ => true | None => false end) l
  && (forallb (fun n => match pl_strptime (fecha_cierre n) with
                        | Some _ => true | None => false end) l
  && forallb (fun n => ((int32_min <=? comentarios n) && (comentarios n <=? int32_max))%Z) l).
Proof.
  induction l as [|n l IH]; simpl; [reflexivity|].
  rewrite IH. unfold normalizable.
  destruct (pl_strptime (fecha_publicacion n)), (pl_strptime (fecha_cierre n));
    simpl; try reflexivity.
  - destruct ((int32_min <=? comentarios n) && (comentarios n <=? int32_max))%Z; simpl.
    + reflexivity.
    + repeat rewrite andb_false_r. reflexivity.
  - repeat rewrite andb_false_r. reflexivity.
Qed.

(** The frame the [try] block builds when every record is accepted. *)
Lemma transform_frame_returned {pl_strptime : DateReader} (now : Z) (l : list Normativa) :
  forallb (normalizable pl_strptime) l = true ->
  transform_frame pl_strptime now l = Returned (normalized_frame pl_strptime now l).
Proof.
  rewrite normalizable_split. intros H.
  apply andb_true_iff in H as [Hp H]. apply andb_true_iff in H as [Hc Hi].
  unfold transform_frame, with_columns, df_of_normativas. simpl.
  rewrite (map_cells_strptime_ok fecha_publicacion l Hp). simpl.
  rewrite (map_cells_strptime_ok fecha_cierre l Hc). simpl.
  rewrite (map_cells_str titulo pl_strip l). simpl.
  rewrite (map_cells_str (fun n => pl_strip (titulo n)) replace_all_ws l). simpl.
  rewrite (map_cells_cast_ok l Hi). simpl.
  rewrite fill_null_ints, length_map. reflexivity.
Qed.

(** The [try] block raises as soon as one record is not accepted. *)
Lemma transform_frame_raised {pl_strptime : DateReader} (now : Z) (l : list Normativa) :
  forallb (normalizable pl_strptime) l = false ->
  exists e, transform_frame pl_strptime now l = Raised e.
Proof.
  rewrite normalizable_split. intros H.
  unfold transform_frame, with_columns, df_of_normativas. simpl.
  destruct (forallb _ l) eqn:Hp in H.
  - rewrite (map_cells_strptime_ok fecha_publicacion l Hp). simpl.
    destruct (forallb _ l) eqn:Hc in H.
    + rewrite (map_cells_strptime_ok fecha_cierre l Hc). simpl.
      rewrite (map_cells_str titulo pl_strip l). simpl.
      rewrite (map_cells_str (fun n => pl_strip (titulo n)) replace_all_ws l). simpl.
      simpl in H.
      destruct (map_cells_cast_bad l H) as [e He]. rewrite He. simpl. eauto.
    + destruct (map_cells_strptime_bad fecha_cierre l Hc) as [e He].
      rewrite He. simpl. eauto.
  - destruct (map_cells_strptime_bad fecha_publicacion l Hp) as [e He].
    rewrite He. simpl. eauto.
Qed.

Lemma transform_data_some {pl_strptime : DateReader} (now : Z) (l : list Normativa)
    (df : DataFrame) :
  transform_data pl_strptime now l = Returned (Some df) ->
  l <> [] /\ forallb (normalizable pl_strptime) l = true /\ df = normalized_frame pl_strptime now l.
Proof.
  unfold transform_data. destruct l as [|n l]; [discriminate|].
  destruct (forallb (normalizable pl_strptime) (n :: l)) eqn:Hn.
  - rewrite (transform_frame_returned now _ Hn). intros H.
    injection H as <-. repeat split; congruence.
  - destruct (transform_frame_raised now _ Hn) as [e He]. rewrite He. discriminate.
Qed.

Lemma transform_data_normalizable {pl_strptime : DateReader} (now : Z) (l : list Normativa) :
  l <> [] -> forallb (normalizable pl_strptime) l = true ->
  transform_data pl_strptime now l = Returned (Some (normalized_frame pl_strptime now l)).
Proof.
  intros Hl Hn. unfold transform_data. destruct l as [|n l]; [congruence|].
  rewrite (transform_frame_returned now _ Hn). reflexivity.
Qed.

Lemma transform_data_not_normalizable {pl_strptime : DateReader} (now : Z) (l : list Normativa) :
  forallb (normalizable pl_strptime) l = false ->
  transform_data pl_strptime now l = Returned None.
Proof.
  intros Hn. unfold transform_data. destruct l as [|n l]; [reflexivity|].
  destruct (transform_frame_raised now _ Hn) as [e He]. rewrite He. reflexivity.
Qed.

Lemma frame_urls_normalized {pl_strptime : DateReader} (now : Z) (l : list Normativa) :
  frame_urls (normalized_frame pl_strptime now l) = urls l.
Proof.
  unfold frame_urls, urls. simpl. rewrite map_map. reflexivity.
Qed.

Lemma unparsable_not_normalizable {pl_strptime : DateReader} (l : list Normativa) (r : Normativa) :
  In r l ->
  pl_strptime (fecha_publicacion r) = None \/ pl_strptime (fecha_cierre r) = None ->
  forallb (normalizable pl_strptime) l = false.
Proof.
  intros Hin Hbad.
  destruct (forallb (normalizable pl_strptime) l) eqn:Hall; [|reflexivity].
  rewrite forallb_forall in Hall. specialize (Hall r Hin).
  unfold normalizable in Hall.
  destruct Hbad as [Hb|Hb]; rewrite Hb in Hall.
  - discriminate.
  - destruct (pl_strptime (fecha_publicacion r)); discriminate.
Qed.

(** ** The extractor *)

Lemma url_seen_false (u : string) (l : list Normativa) :
  url_seen u l = false -> ~ In u (urls l).
Proof.
  unfold url_seen, urls. intros H Hin.
  apply in_map_iff in Hin as [n [Hu Hn]].
  assert (existsb (fun n0 => String.eqb (url n0) u) l = true) as Ht.
  { apply existsb_exists. exists n. split; [exact Hn|]. apply String.eqb_eq. exact Hu. }
  congruence.
Qed.

Lemma url_seen_true (u : string) (l : list Normativa) :
  url_seen u l = true -> In u (urls l).
Proof.
  unfold url_seen, urls. intros H.
  apply existsb_exists in H as [n [Hn Hu]].
  apply String.eqb_eq in Hu. apply in_map_iff. eauto.
Qed.

Lemma urls_app (a b : list Normativa) : urls (a ++ b) = urls a ++ urls b.
Proof. apply map_app. Qed.

Lemma NoDup_snoc (l : list string) (x : string) :
  NoDup l -> ~ In x l -> NoDup (l ++ [x]).
Proof.
  induction l as [|a l IH]; simpl; intros Hnd Hx.
  - constructor; [intros []|constructor].
  - inversion Hnd as [|? ? Ha Hl]; subst. constructor.
    + intros Hin. apply in_app_or in Hin as [Hin|[->|[]]]; [exact (Ha Hin)|].
      apply Hx. left. reflexivity.
    + apply IH; [exact Hl|]. intros Hin. apply Hx. right. exact Hin.
Qed.

(** One turn of the loop keeps the urls pairwise distinct. *)
Lemma add_proceso_NoDup (acc : list Normativa) (p : Node) :
  NoDup (urls acc) -> NoDup (urls (add_proceso acc p)).
Proof.
  intros Hnd. unfold add_proceso.
  destruct (extract_proceso p) as [n|]; [|exact Hnd].
  destruct (url_seen (url n) acc) eqn:Hseen; [exact Hnd|].
  rewrite urls_app. simpl.
  apply NoDup_snoc; [exact Hnd|apply url_seen_false; exact Hseen].
Qed.

Lemma fold_add_NoDup (ps : list Node) (acc : list Normativa) :
  NoDup (urls acc) -> NoDup (urls (fold_left add_proceso ps acc)).
Proof.
  revert acc. induction ps as [|p ps IH]; intros acc Hnd; simpl; [exact Hnd|].
  apply IH, add_proceso_NoDup, Hnd.
Qed.

(** A url that was produced stays. *)
Lemma add_proceso_keeps (acc : list Normativa) (p : Node) (u : string) :
  In u (urls acc) -> In u (urls (add_proceso acc p)).
Proof.
  intros Hin. unfold add_proceso.
  destruct (extract_proceso p) as [n|]; [|exact Hin].
  destruct (url_seen (url n) acc); [exact Hin|].
  rewrite urls_app. apply in_or_app. left. exact Hin.
Qed.

Lemma fold_add_keeps (ps : list Node) (acc : list Normativa) (u : string) :
  In u (urls acc) -> In u (urls (fold_left add_proceso ps acc)).
Proof.
  revert acc. induction ps as [|p ps IH]; intros acc Hin; simpl; [exact Hin|].
  apply IH, add_proceso_keeps, Hin.
Qed.

(** The url of a record that was built is in the list after its turn. *)
Lemma add_proceso_adds (acc : list Normativa) (p : Node) (n : Normativa) :
  extract_proceso p = Some n -> In (url n) (urls (add_proceso acc p)).
Proof.
  intros He. unfold add_proceso. rewrite He.
  destruct (url_seen (url n) acc) eqn:Hseen.
  - apply url_seen_true, Hseen.
  - rewrite urls_app. apply in_or_app. right. simpl. auto.
Qed.

Lemma fold_add_adds (ps : list Node) (acc : list Normativa) (p : Node) (n : Normativa) :
  In p ps -> extract_proceso p = Some n ->
  In (url n) (urls (fold_left add_proceso ps acc)).
Proof.
  revert acc. induction ps as [|q ps IH]; intros acc Hin He; simpl; [destruct Hin|].
  destruct Hin as [->|Hin].
  - apply fold_add_keeps, add_proceso_adds, He.
  - apply IH; assumption.
Qed.

(** Every url of the result comes from a record built from a container. *)
Lemma fold_add_origin (ps : list Node) (acc : list Normativa) (u : string) :
  In u (urls (fold_left add_proceso ps acc)) ->
  In u (urls acc) \/
  exists p n, In p ps /\ extract_proceso p = Some n /\ url n = u.
Proof.
  revert acc. induction ps as [|q ps IH]; intros acc Hin; simpl in *; [auto|].
  destruct (IH _ Hin) as [Hacc|[p [n [Hp [He Hu]]]]].
  - unfold add_proceso in Hacc.
    destruct (extract_proceso q) as [m|] eqn:Hq; [|auto].
    destruct (url_seen (url m) acc); [auto|].
    rewrite urls_app in Hacc. apply in_app_or in Hacc as [H|H]; [auto|].
    simpl in H. destruct H as [H|[]]. right. exists q, m. auto.
  - right. exists p, n. auto.
Qed.

Lemma parse_normativa_NoDup (soup : Soup) : NoDup (urls (parse_normativa soup)).
Proof. apply fold_add_NoDup. constructor. Qed.

Lemma parse_normativa_has (soup : Soup) (p : Node) (n : Normativa) :
  In p (find_procesos soup) -> extract_proceso p = Some n ->
  In (url n) (urls (parse_normativa soup)).
Proof. apply fold_add_adds. Qed.

Lemma parse_normativa_origin (soup : Soup) (u : string) :
  In u (urls (parse_normativa soup)) ->
  exists p n, In p (find_procesos soup) /\ extract_proceso p = Some n /\ url n = u.
Proof.
  intros H. destruct (fold_add_origin _ _ _ H) as [[]|H']. exact H'.
Qed.

(** In a list without repetition a member occurs once. *)
Lemma NoDup_In_count (l : list string) (u : string) :
  NoDup l -> In u l -> count_occ string_dec l u = 1.
Proof.
  intros Hnd Hin.
  pose proof (proj1 (NoDup_count_occ string_dec l) Hnd u) as Hle.
  pose proof (proj1 (count_occ_In string_dec l u) Hin) as Hge.
  lia.
Qed.

(** ** Joined page sources *)

Lemma soup_nodes_app (a b : Soup) : soup_nodes (a ++ b) = soup_nodes a ++ soup_nodes b.
Proof. apply flat_map_app. Qed.

Lemma find_all_app (name cls : string) (a b : Soup) :
  find_all name cls (a ++ b) = find_all name cls a ++ find_all name cls b.
Proof. unfold find_all. rewrite soup_nodes_app. apply filter_app. Qed.

Lemma find_all_text (name cls t : string) (a : Soup) :
  find_all name cls (Text t :: a) = find_all name cls a.
Proof. reflexivity. Qed.

(** The containers of the joined document are those of the pages, page
    after page. *)
Lemma find_all_join (name cls : string) (sources : list Soup) :
  find_all name cls (join_sources sources) = flat_map (find_all name cls) sources.
Proof.
  induction sources as [|src rest IH]; [reflexivity|].
  destruct rest as [|src2 rest].
  - simpl. rewrite app_nil_r. reflexivity.
  - change (join_sources (src :: src2 :: rest))
      with (src ++ Text (String (ascii_of_nat 10) EmptyString) :: join_sources (src2 :: rest)).
    rewrite find_all_app, find_all_text, IH. reflexivity.
Qed.

Lemma find_procesos_primary (soup : Soup) :
  find_all "div" "bq-proceso" soup <> [] ->
  find_procesos soup = find_all "div" "bq-proceso" soup.
Proof.
  unfold find_procesos. destruct (find_all "div" "bq-proceso" soup); congruence.
Qed.

Lemma find_procesos_fallback (soup : Soup) :
  find_all "div" "bq-proceso" soup = [] ->
  find_procesos soup = find_all "div" "proceso-container" soup.
Proof. unfold find_procesos. intros ->. reflexivity. Qed.

(** A container that the extractor takes from each of two pages is taken
    from the document that joins them. *)
Lemma find_procesos_join_two (page1 page2 : Soup) (c1 c2 : Node) :
  In c1 (find_procesos page1) -> In c2 (find_procesos page2) ->
  In c1 (find_procesos (join_sources [page1; page2])) \/
  In c2 (find_procesos (join_sources [page1; page2])).
Proof.
  intros H1 H2.
  destruct (find_all "div" "bq-proceso" page1) as [|a l] eqn:P1.
  - destruct (find_all "div" "bq-proceso" page2) as [|b m] eqn:P2.
    + left. rewrite find_procesos_fallback.
      * rewrite find_all_join. simpl. apply in_or_app. left.
        rewrite (find_procesos_fallback _ P1) in H1. exact H1.
      * rewrite find_all_join. simpl. rewrite P1, P2. reflexivity.
    + right. rewrite find_procesos_primary.
      * rewrite find_all_join. simpl. rewrite P1, app_nil_r. simpl.
        rewrite find_procesos_primary in H2 by (rewrite P2; discriminate).
        exact H2.
      * rewrite find_all_join. simpl. rewrite P1, P2. discriminate.
  - left. rewrite find_procesos_primary.
    + rewrite find_all_join. simpl. apply in_or_app. left.
      rewrite find_procesos_primary in H1 by (rewrite P1; discriminate).
      exact H1.
    + rewrite find_all_join. simpl. rewrite P1. discriminate.
Qed.

Lemma flat_map_all_nil {A B : Type} (f : A -> list B) (l : list A) :
  (forall x, In x l -> f x = []) -> flat_map f l = [].
Proof.
  induction l as [|a l IH]; intros H; simpl; [reflexivity|].
  rewrite (H a) by (left; reflexivity). apply IH.
  intros x Hx. apply H. right. exact Hx.
Qed.

(** A container the extractor takes from a page of the run is taken from the
    joined document when the page has containers of the primary class, or
    when no page of the run has. *)
Lemma find_procesos_join_page (sources : list Soup) (page : Soup) (c : Node) :
  In page sources ->
  In c (find_procesos page) ->
  find_all "div" "bq-proceso" page <> [] \/
  (forall q, In q sources -> find_all "div" "bq-proceso" q = []) ->
  In c (find_procesos (join_sources sources)).
Proof.
  intros Hp Hc [Hprim|Hnone].
  - rewrite (find_procesos_primary page Hprim) in Hc.
    assert (In c (find_all "div" "bq-proceso" (join_sources sources))) as Hin.
    { rewrite find_all_join. apply in_flat_map. exists page. auto. }
    rewrite find_procesos_primary; [exact Hin|].
    intros Hnil. rewrite Hnil in Hin. destruct Hin.
  - rewrite (find_procesos_fallback page (Hnone page Hp)) in Hc.
    rewrite find_procesos_fallback.
    + rewrite find_all_join. apply in_flat_map. exists page. auto.
    + rewrite find_all_join. apply flat_map_all_nil. exact Hnone.
Qed.

(** C4, as the code has it.  For every document given to
    [parse_normativa] the urls of the returned records are pairwise
    distinct: a record is appended only when its url is not among those
    already produced.  The pages of a run are joined into one document and
    parsed once, so an item that two pages of the run share is in the
    records at most once.  It is there exactly once when its container is
    one the extractor processes in the joined document: in a run of just the
    two pages, and in a run of any length when the item is found on a page
    that has containers of the primary class, or when no page of the run has
    such containers. *)
Theorem parse_normativa_urls_distinct :
  (forall soup : Soup, NoDup (urls (parse_normativa soup))) /\
  (forall (acc : list Normativa) (proceso : Node),
      NoDup (urls acc) ->
      NoDup (urls (add_proceso acc proceso)) /\
      (forall n, extract_proceso proceso = Some n ->
                 In (url n) (urls acc) -> add_proceso acc proceso = acc)) /\
  (forall (sources : list Soup) (proceso : Node) (n : Normativa),
      In proceso (find_procesos (join_sources sources)) ->
      extract_proceso proceso = Some n ->
      count_occ string_dec (urls (parse_normativa (join_sources sources))) (url n) = 1) /\
  (forall (page1 page2 : Soup) (u : string),
      In u (urls (parse_normativa page1)) ->
      In u (urls (parse_normativa page2)) ->
      count_occ string_dec (urls (parse_normativa (join_sources [page1; page2]))) u = 1) /\
  (forall (sources : list Soup) (page : Soup) (u : string),
      In page sources ->
      In u (urls (parse_normativa page)) ->
      find_all "div" "bq-proceso" page <> [] \/
      (forall q, In q sources -> find_all "div" "bq-proceso" q = []) ->
      count_occ string_dec (urls (parse_normativa (join_sources sources))) u = 1) /\
  (forall (sources : list Soup) (u : string),
      count_occ string_dec (urls (parse_normativa (join_sources sources))) u <= 1).
Proof.
  split; [exact parse_normativa_NoDup|].
  split.
  { intros acc proceso Hnd. split; [apply add_proceso_NoDup, Hnd|].
    intros n He Hin. unfold add_proceso. rewrite He.
    destruct (url_seen (url n) acc) eqn:Hseen; [reflexivity|].
    exfalso. exact (url_seen_false _ _ Hseen Hin). }
  split.
  - intros sources proceso n Hin He.
    apply NoDup_In_count; [apply parse_normativa_NoDup|].
    exact (parse_normativa_has _ _ _ Hin He).
  - split.
    + intros page1 page2 u H1 H2.
      apply NoDup_In_count; [apply parse_normativa_NoDup|].
      destruct (parse_normativa_origin _ _ H1) as [c1 [n1 [Hc1 [He1 Hu1]]]].
      destruct (parse_normativa_origin _ _ H2) as [c2 [n2 [Hc2 [He2 Hu2]]]].
      destruct (find_procesos_join_two page1 page2 c1 c2 Hc1 Hc2) as [H|H].
      * rewrite <- Hu1. exact (parse_normativa_has _ _ _ H He1).
      * rewrite <- Hu2. exact (parse_normativa_has _ _ _ H He2).
    + split.
      * intros sources page u Hp Hu Hmark.
        apply NoDup_In_count; [apply parse_normativa_NoDup|].
        destruct (parse_normativa_origin _ _ Hu) as [c [n [Hc [He Hn]]]].
        rewrite <- Hn.
        exact (parse_normativa_has _ _ _ (find_procesos_join_page _ _ _ Hp Hc Hmark) He).
      * intros sources u.
        apply (proj1 (NoDup_count_occ string_dec _) (parse_normativa_NoDup _)).
Qed.

Lemma parse_normativa_urls_distinct_witness :
  count_occ string_dec
    (urls (parse_normativa (join_sources [sample_page1; sample_page2]))) "/proyecto/2" = 1.
Proof.
  apply (proj1 (proj2 (proj2 (proj2 parse_normativa_urls_distinct)))
           sample_page1 sample_page2).
  - vm_compute. auto.
  - vm_compute. auto.
Defined.

(** C4 as stated fails in a run of more than two pages: two pages in the
    fallback markup share the item /proyecto/8, a third page is in the
    primary markup, and the records of the run do not hold the shared item
    at all, since the containers of the fallback class are not read once the
    joined document has a container of the primary class. *)
Lemma shared_item_lost_in_mixed_run :
  let page1 := page_at sample_mixed_site 1 in
  let page2 := page_at sample_mixed_site 2 in
  _get_content (mkSession None true true calm sample_mixed_site) = Returned sample_mixed_site /\
  In "/proyecto/8" (urls (parse_normativa page1)) /\
  In "/proyecto/8" (urls (parse_normativa page2)) /\
  urls (parse_normativa (join_sources sample_mixed_site)) = ["/proyecto/7"] /\
  count_occ string_dec (urls (parse_normativa (join_sources sample_mixed_site)))
    "/proyecto/8" = 0.
Proof.
  cbv zeta. split; [vm_compute; reflexivity|].
  split; [vm_compute; auto|]. split; [vm_compute; auto|].
  split; vm_compute; reflexivity.
Qed.

(** ** Skipping and defaults *)

Lemma extract_proceso_none_iff (proceso : Node) :
  extract_proceso proceso = None <->
  (title_anchor proceso = None \/
   exists link, title_anchor proceso = Some link /\ anchor_url link = EmptyString).
Proof.
  unfold extract_proceso, title_anchor, anchor_url.
  destruct (find_header proceso) as [header|]; [|tauto].
  destruct (find_tag "a" header) as [link|]; [|tauto].
  destruct (node_attr "href" link) as [[|c h]|] eqn:Hh.
  - split; [intros _; right; exists link; rewrite Hh; auto|reflexivity].
  - destruct (extract_fechas proceso). split; [discriminate|].
    intros [H|[l [Hl Hu]]]; [discriminate|].
    injection Hl as <-. rewrite Hh in Hu. discriminate.
  - split; [intros _; right; exists link; rewrite Hh; auto|reflexivity].
Qed.

Lemma extract_proceso_fields (proceso : Node) (n : Normativa) :
  extract_proceso proceso = Some n ->
  (fecha_publicacion n, fecha_cierre n) = extract_fechas proceso /\
  estado n = extract_estado proceso /\
  comentarios n = extract_comentarios proceso.
Proof.
  unfold extract_proceso.
  destruct (find_header proceso) as [header|]; [|discriminate].
  destruct (find_tag "a" header) as [link|]; [|discriminate].
  destruct (node_attr "href" link) as [[|c h]|]; try discriminate.
  destruct (extract_fechas proceso) as [fp fc].
  intros H. injection H as <-. auto.
Qed.

(** C6. An item container is skipped exactly when it has no title anchor or
    the anchor carries an empty url.  A record that is built takes the empty
    text for both dates when the date block is missing, the empty text for
    the status when the status block is missing, and zero for the comment
    count when the comment block or its number node is missing or when the
    text of the number is no integer; and its url is among the urls of the
    records returned.  The extractor returns a list on every document. *)
Theorem extractor_skips_and_defaults :
  (forall proceso : Node,
      extract_proceso proceso = None <->
      (title_anchor proceso = None \/
       exists link, title_anchor proceso = Some link /\ anchor_url link = EmptyString)) /\
  (forall (proceso : Node) (n : Normativa),
      extract_proceso proceso = Some n ->
      (fechas_block proceso = None ->
         fecha_publicacion n = EmptyString /\ fecha_cierre n = EmptyString) /\
      (estado_block proceso = None -> estado n = EmptyString) /\
      (comentarios_block proceso = None -> comentarios n = 0%Z) /\
      (forall comentarios_div,
         comentarios_block proceso = Some comentarios_div ->
         num_block comentarios_div = None -> comentarios n = 0%Z) /\
      (forall comentarios_div num_div,
         comentarios_block proceso = Some comentarios_div ->
         num_block comentarios_div = Some num_div ->
         py_int (strip (node_text num_div)) = None -> comentarios n = 0%Z)) /\
  (forall (soup : Soup) (proceso : Node) (n : Normativa),
      In proceso (find_procesos soup) ->
      extract_proceso proceso = Some n ->
      In (url n) (urls (parse_normativa soup))) /\
  py_int "abc" = None /\
  map comentarios (parse_normativa sample_page2) = [0%Z; 0%Z].
Proof.
  split; [exact extract_proceso_none_iff|].
  split.
  { intros proceso n He.
    destruct (extract_proceso_fields _ _ He) as [Hf [Hs Hc]].
    repeat split.
    - unfold extract_fechas in Hf. rewrite H in Hf. congruence.
    - unfold extract_fechas in Hf. rewrite H in Hf. congruence.
    - intros H. rewrite Hs. unfold extract_estado. rewrite H. reflexivity.
    - intros H. rewrite Hc. unfold extract_comentarios. rewrite H. reflexivity.
    - intros d H1 H2. rewrite Hc. unfold extract_comentarios. rewrite H1, H2. reflexivity.
    - intros d m H1 H2 H3. rewrite Hc. unfold extract_comentarios.
      rewrite H1, H2, H3. reflexivity. }
  split; [exact parse_normativa_has|].
  split; reflexivity.
Qed.

Lemma extractor_skips_and_defaults_witness :
  exists n, extract_proceso (item_bare "/proyecto/9" " Proyecto nueve ") = Some n /\
            fecha_publicacion n = EmptyString /\ fecha_cierre n = EmptyString /\
            estado n = EmptyString /\ comentarios n = 0%Z.
Proof.
  eexists. split; [reflexivity|].
  pose proof (proj1 (proj2 extractor_skips_and_defaults)
                (item_bare "/proyecto/9" " Proyecto nueve ") _ eq_refl) as [Hf [Hs [Hc _]]].
  destruct (Hf eq_refl) as [Hp Hci].
  split; [exact Hp|]. split; [exact Hci|].
  split; [exact (Hs eq_refl)|exact (Hc eq_refl)].
Defined.

(** ** Normalization *)

(** C1, as the code has it.  [transform_data] applies no dedup of its own:
    the frame it returns has one row per raw record, in the order of the
    input, with the urls unchanged.  So the output has at most one record per
    url whenever the input has, as every list returned by [parse_normativa]
    has. *)
Theorem transform_data_keeps_urls_in_order (pl_strptime : DateReader) :
  (forall (now : Z) (normativas : list Normativa) (df : DataFrame),
      transform_data pl_strptime now normativas = Returned (Some df) ->
      frame_urls df = urls normativas /\
      df_height df = List.length normativas /\
      (NoDup (urls normativas) -> NoDup (frame_urls df))) /\
  (forall (now : Z) (soup : Soup) (df : DataFrame),
      transform_data pl_strptime now (parse_normativa soup) = Returned (Some df) ->
      NoDup (frame_urls df)).
Proof.
  assert (forall now normativas df,
             transform_data pl_strptime now normativas = Returned (Some df) ->
             frame_urls df = urls normativas /\
             df_height df = List.length normativas) as Hkeep.
  { intros now normativas df H.
    destruct (transform_data_some _ _ _ H) as [_ [_ ->]].
    split; [apply frame_urls_normalized|]. simpl. apply length_map. }
  split.
  - intros now normativas df H. destruct (Hkeep _ _ _ H) as [Hu Hh].
    repeat split; try assumption. rewrite Hu. auto.
  - intros now soup df H. destruct (Hkeep _ _ _ H) as [Hu _].
    rewrite Hu. apply parse_normativa_NoDup.
Qed.

Lemma transform_data_keeps_urls_in_order_witness :
  frame_urls (normalized_frame strptime_dmy 0 [sample_record]) = ["/proyecto/1"] /\
  df_height (normalized_frame strptime_dmy 0 [sample_record]) = 1 /\
  (NoDup (urls [sample_record]) ->
   NoDup (frame_urls (normalized_frame strptime_dmy 0 [sample_record]))).
Proof.
  apply (proj1 (transform_data_keeps_urls_in_order strptime_dmy) 0%Z [sample_record]).
  vm_compute. reflexivity.
Defined.

(** C1 as stated fails: two raw records with the same url and well-formed
    dates both reach the output frame. *)
Lemma transform_data_duplicate_urls_kept :
  exists df,
    transform_data strptime_dmy 0 sample_duplicates = Returned (Some df) /\
    frame_urls df = ["/proyecto/1"; "/proyecto/1"] /\
    ~ NoDup (frame_urls df).
Proof.
  eexists. split; [vm_compute; reflexivity|]. split; [reflexivity|].
  intros H. inversion H as [|? ? Hnin _]; subst. apply Hnin. left. reflexivity.
Qed.

(** C2, as the code has it.  When the library's date reader rejects the
    publication or the closing date text of some raw record,
    [transform_data] returns [None]: no frame at all, so no record is
    dropped from an otherwise successful output.  The error is logged and
    not raised: [save_to_csv] returns without writing a file, and a run
    whose records include such a date ends normally with the raw dump as its
    only file.  This holds whatever texts the library reads. *)
Theorem transform_data_unparsable_date (pl_strptime : DateReader) :
  forall (now : Z) (normativas : list Normativa) (r : Normativa),
    In r normativas ->
    pl_strptime (fecha_publicacion r) = None \/ pl_strptime (fecha_cierre r) = None ->
    transform_data pl_strptime now normativas = Returned None /\
    save_to_csv pl_strptime now normativas = (Returned tt, [CallTransform normativas]) /\
    (forall sources,
        sources <> [] ->
        parse_normativa (join_sources sources) = normativas ->
        run_from_content pl_strptime now (Some sources)
        = (Returned tt, [WriteJson normativas; CallTransform normativas])).
Proof.
  intros now normativas r Hin Hbad.
  pose proof (unparsable_not_normalizable _ _ Hin Hbad) as Hn.
  pose proof (transform_data_not_normalizable now _ Hn) as Ht.
  assert (save_to_csv pl_strptime now normativas = (Returned tt, [CallTransform normativas])) as Hs.
  { unfold save_to_csv. rewrite Ht. destruct normativas; [destruct Hin|reflexivity]. }
  repeat split; try assumption.
  intros sources Hne Hp. unfold run_from_content.
  destruct sources as [|s0 sl]; [congruence|].
  rewrite Hp. destruct normativas as [|n l]; [destruct Hin|].
  rewrite Hs. reflexivity.
Qed.

Lemma transform_data_unparsable_date_witness :
  transform_data strptime_dmy 0 sample_bad_date = Returned None /\
  save_to_csv strptime_dmy 0 sample_bad_date = (Returned tt, [CallTransform sample_bad_date]) /\
  (forall sources,
      sources <> [] ->
      parse_normativa (join_sources sources) = sample_bad_date ->
      run_from_content strptime_dmy 0 (Some sources)
      = (Returned tt, [WriteJson sample_bad_date; CallTransform sample_bad_date])).
Proof.
  apply (transform_data_unparsable_date strptime_dmy 0%Z sample_bad_date
           (mkNormativa "Proyecto" "/proyecto/2" "por definir" "20/03/2024" "Activa" 1)).
  - simpl. auto.
  - left. vm_compute. reflexivity.
Defined.

(** C2 as stated fails: a listing item without its date block gives a raw
    record with empty dates; normalization returns [None] instead of raising,
    and the run returns normally after writing the raw dump. *)
Lemma unparsable_date_not_raised :
  let normativas := parse_normativa (join_sources [sample_page_no_dates]) in
  normativas = [mkNormativa "Proyecto siete" "/proyecto/7" "" "" "" 0] /\
  strptime_dmy "" = None /\
  transform_data strptime_dmy 0 normativas = Returned None /\
  (forall e, transform_data strptime_dmy 0 normativas <> Raised e) /\
  run_from_content strptime_dmy 0 (Some [sample_page_no_dates])
  = (Returned tt, [WriteJson normativas; CallTransform normativas]) /\
  run strptime_dmy 0 [mkSession None true true calm [sample_page_no_dates]]
  = (Returned tt, [WriteJson normativas; CallTransform normativas; DriverQuit]).
Proof.
  cbv zeta. repeat split; try (vm_compute; reflexivity).
  intros e. vm_compute. discriminate.
Qed.

(** ** Dates *)

(** A text that begins with a space is not of the digits form. *)
Lemma strptime_dmy_space (r : string) : strptime_dmy (String " " r) = None.
Proof.
  unfold strptime_dmy.
  change (split_on "/" (String " " r))
    with (match split_on "/" r with
          | [] => [String " " EmptyString]
          | w :: ws => String " " w :: ws
          end).
  assert (forall w, num_field 1 2 (String " " w) = None) as Hw.
  { intros w. unfold num_field. cbn [all_digits]. change (is_digit " ") with false.
    rewrite andb_false_r. reflexivity. }
  destruct (split_on "/" r) as [|w [|ms [|ys [|x l]]]]; try reflexivity.
  rewrite Hw. reflexivity.
Qed.

(** Python reads every text of the digits form, and to the same date. *)
Lemma strptime_dmy_py (s : string) (d : Date) :
  strptime_dmy s = Some d -> py_strptime_dmy s = Some d.
Proof.
  intros H. unfold py_strptime_dmy.
  destruct s as [|c s']; [exact H|].
  destruct (Ascii.eqb c " ") eqn:Ec.
  - apply Ascii.eqb_eq in Ec. subst c. rewrite strptime_dmy_space in H. discriminate.
  - destruct c as [[] [] [] [] [] [] [] []]; first [exact H | discriminate].
Qed.

(** The two agree on a text that does not begin with white space. *)
Lemma py_strptime_dmy_head (c : ascii) (r : string) :
  isspace c = false -> py_strptime_dmy (String c r) = strptime_dmy (String c r).
Proof.
  intros Hc. unfold py_strptime_dmy.
  destruct c as [[] [] [] [] [] [] [] []]; first [reflexivity | discriminate].
Qed.

(** What Python reads is the digits form, after one space at most. *)
Lemma py_strptime_dmy_digits (s : string) (d : Date) :
  py_strptime_dmy s = Some d ->
  strptime_dmy s = Some d \/
  exists r, s = String " " r /\ strptime_dmy r = Some d.
Proof.
  intros H. unfold py_strptime_dmy in H.
  destruct s as [|c s']; [left; exact H|].
  destruct (Ascii.eqb c " ") eqn:Ec.
  - apply Ascii.eqb_eq in Ec. subst c.
    destruct s' as [|c' [|c'' r]]; try (left; exact H).
    destruct (Ascii.eqb c'' "/") eqn:Ec''.
    + apply Ascii.eqb_eq in Ec''. subst c''. right. eexists. split; [reflexivity|exact H].
    + left. destruct c'' as [[] [] [] [] [] [] [] []]; first [exact H | discriminate].
  - left. destruct c as [[] [] [] [] [] [] [] []]; first [exact H | discriminate].
Qed.

Lemma digit_char_facts (n : nat) :
  is_digit (digit_char n) = true /\
  Ascii.eqb (digit_char n) "/" = false /\
  digit_val (digit_char n) = n mod 10.
Proof.
  unfold digit_char.
  assert (n mod 10 < 10) as Hk by (apply Nat.mod_upper_bound; discriminate).
  remember (n mod 10) as k eqn:Ek. clear Ek.
  do 10 (destruct k as [|k]; [repeat split; reflexivity|]). lia.
Qed.

Lemma days_in_month_le (y m : nat) : days_in_month y m <= 31.
Proof.
  unfold days_in_month.
  do 13 (destruct m as [|m]; [try destruct (is_leap y); lia|]). lia.
Qed.

(** Parsing a text of the shape [dd/mm/yyyy]. *)
Lemma strptime_dmy_shape (d1 d2 m1 m2 y1 y2 y3 y4 : ascii) :
  is_digit d1 = true -> is_digit d2 = true -> is_digit m1 = true -> is_digit m2 = true ->
  is_digit y1 = true -> is_digit y2 = true -> is_digit y3 = true -> is_digit y4 = true ->
  Ascii.eqb d1 "/" = false -> Ascii.eqb d2 "/" = false ->
  Ascii.eqb m1 "/" = false -> Ascii.eqb m2 "/" = false ->
  Ascii.eqb y1 "/" = false -> Ascii.eqb y2 "/" = false ->
  Ascii.eqb y3 "/" = false -> Ascii.eqb y4 "/" = false ->
  strptime_dmy
    (String d1 (String d2 (String "/" (String m1 (String m2 (String "/"
      (String y1 (String y2 (String y3 (String y4 EmptyString))))))))))
  = let d := 10 * (10 * 0 + digit_val d1) + digit_val d2 in
    let m := 10 * (10 * 0 + digit_val m1) + digit_val m2 in
    let y := 10 * (10 * (10 * (10 * 0 + digit_val y1) + digit_val y2) + digit_val y3)
             + digit_val y4 in
    if valid_date y m d then Some (mkDate y m d) else None.
Proof.
  intros D1 D2 D3 D4 D5 D6 D7 D8 S1 S2 S3 S4 S5 S6 S7 S8.
  unfold strptime_dmy.
  cbn [split_on]. rewrite S1, S2, S3, S4, S5, S6, S7, S8.
  replace (Ascii.eqb "/" "/") with true by reflexivity.
  cbn [split_on].
  unfold num_field. cbn [String.length all_digits Nat.leb andb].
  rewrite D1, D2, D3, D4, D5, D6, D7, D8. cbn [andb].
  unfold int_of_digits. cbn [digits_value]. reflexivity.
Qed.

Lemma two_digits (n : nat) : n < 100 -> 10 * (10 * 0 + (n / 10) mod 10) + n mod 10 = n.
Proof.
  intros Hn. rewrite Nat.mod_small by (apply Nat.Div0.div_lt_upper_bound; lia).
  pose proof (Nat.div_mod_eq n 10). lia.
Qed.

Lemma four_digits (n : nat) :
  n < 10 * (10 * (10 * 10)) ->
  10 * (10 * (10 * (10 * 0 + (n / (10 * (10 * 10))) mod 10) + (n / (10 * 10)) mod 10)
        + (n / 10) mod 10) + n mod 10 = n.
Proof.
  intros Hn.
  pose proof (Nat.div_mod_eq n 10) as E1.
  pose proof (Nat.div_mod_eq (n / 10) 10) as E2.
  pose proof (Nat.div_mod_eq (n / 10 / 10) 10) as E3.
  rewrite <- !Nat.Div0.div_div.
  assert (n / 10 / 10 / 10 < 10) as Hq.
  { repeat (apply Nat.Div0.div_lt_upper_bound). lia. }
  rewrite (Nat.mod_small _ _ Hq).
  pose proof (Nat.mod_upper_bound n 10). 
  pose proof (Nat.mod_upper_bound (n/10) 10). 
  pose proof (Nat.mod_upper_bound (n/10/10) 10). 
  lia.
Qed.

(** Writing a date of the calendar with [%d/%m/%Y] and reading it back
    gives the date. *)
Lemma strptime_strftime_dmy (d : Date) :
  valid_date (year d) (month d) (day d) = true ->
  year d < 10 * (10 * (10 * 10)) ->
  strptime_dmy (strftime_dmy d) = Some d.
Proof.
  destruct d as [y m dd]. cbn [year month day]. intros Hv Hy.
  assert (dd < 100 /\ m < 100) as [Hd Hm].
  { pose proof (days_in_month_le y m).
    unfold valid_date in Hv. repeat (apply andb_true_iff in Hv as [Hv ?]).
    apply Nat.leb_le in H0, H1, H2, H3. lia. }
  unfold strftime_dmy, pad4, pad2. cbn [year month day String.append].
  destruct (digit_char_facts (dd / 10)) as [D1 [S1 V1]].
  destruct (digit_char_facts dd) as [D2 [S2 V2]].
  destruct (digit_char_facts (m / 10)) as [D3 [S3 V3]].
  destruct (digit_char_facts m) as [D4 [S4 V4]].
  destruct (digit_char_facts (y / 1000)) as [D5 [S5 V5]].
  destruct (digit_char_facts (y / 100)) as [D6 [S6 V6]].
  destruct (digit_char_facts (y / 10)) as [D7 [S7 V7]].
  destruct (digit_char_facts y) as [D8 [S8 V8]].
  rewrite strptime_dmy_shape by assumption. cbv zeta.
  rewrite V1, V2, V3, V4, V5, V6, V7, V8.
  rewrite (two_digits dd Hd), (two_digits m Hm).
  change 1000 with (10 * (10 * 10)). change 100 with (10 * 10).
  rewrite (four_digits y Hy), Hv. reflexivity.
Qed.

(** C8. A raw record whose publication date is the text "05/03/2024" has
    that column parsed to the calendar date 2024-03-05 (day, month, year);
    when the record is accepted by the normalization the returned frame holds
    that date; and writing the date in the same day/month/year format gives
    "05/03/2024" again.  The text is of the digits form, so the reader is
    [strptime_dmy] here; the column and the frame hold the same date under
    every reader that gives this date for the text. *)
Theorem published_date_round_trip :
  forall (now : Z) (r : Normativa),
    fecha_publicacion r = "05/03/2024" ->
    strptime_dmy (fecha_publicacion r) = Some (mkDate 2024 3 5) /\
    eval_expr strptime_dmy (df_of_normativas [r])
      (Alias "fecha_publicacion" (StrStrptimeDate (Col "fecha_publicacion")))
    = Returned [VDate (mkDate 2024 3 5)] /\
    (normalizable strptime_dmy r = true ->
     exists df, transform_data strptime_dmy now [r] = Returned (Some df) /\
                df_column "fecha_publicacion" df = Some [VDate (mkDate 2024 3 5)]) /\
    strftime_dmy (mkDate 2024 3 5) = fecha_publicacion r /\
    (forall pl_strptime : DateReader,
        pl_strptime "05/03/2024" = Some (mkDate 2024 3 5) ->
        eval_expr pl_strptime (df_of_normativas [r])
          (Alias "fecha_publicacion" (StrStrptimeDate (Col "fecha_publicacion")))
        = Returned [VDate (mkDate 2024 3 5)] /\
        (normalizable pl_strptime r = true ->
         exists df, transform_data pl_strptime now [r] = Returned (Some df) /\
                    df_column "fecha_publicacion" df = Some [VDate (mkDate 2024 3 5)])).
Proof.
  intros now r Hr.
  assert (forall pl_strptime : DateReader,
             pl_strptime "05/03/2024" = Some (mkDate 2024 3 5) ->
             eval_expr pl_strptime (df_of_normativas [r])
               (Alias "fecha_publicacion" (StrStrptimeDate (Col "fecha_publicacion")))
             = Returned [VDate (mkDate 2024 3 5)] /\
             (normalizable pl_strptime r = true ->
              exists df, transform_data pl_strptime now [r] = Returned (Some df) /\
                         df_column "fecha_publicacion" df
                         = Some [VDate (mkDate 2024 3 5)])) as Hany.
  { intros pl_strptime Hp. split.
    - simpl. rewrite Hr, Hp. reflexivity.
    - intros Hn. exists (normalized_frame pl_strptime now [r]). split.
      + apply transform_data_normalizable; [discriminate|]. simpl. rewrite Hn. reflexivity.
      + simpl. unfold date_cell. rewrite Hr, Hp. reflexivity. }
  destruct (Hany strptime_dmy eq_refl) as [He Hn].
  rewrite Hr.
  split; [reflexivity|]. split; [exact He|]. split; [exact Hn|].
  split; [reflexivity|exact Hany].
Qed.

Lemma published_date_round_trip_witness :
  strptime_dmy (fecha_publicacion sample_record) = Some (mkDate 2024 3 5) /\
  eval_expr strptime_dmy (df_of_normativas [sample_record])
    (Alias "fecha_publicacion" (StrStrptimeDate (Col "fecha_publicacion")))
  = Returned [VDate (mkDate 2024 3 5)] /\
  (normalizable strptime_dmy sample_record = true ->
   exists df, transform_data strptime_dmy 0 [sample_record] = Returned (Some df) /\
              df_column "fecha_publicacion" df = Some [VDate (mkDate 2024 3 5)]) /\
  strftime_dmy (mkDate 2024 3 5) = fecha_publicacion sample_record.
Proof.
  destruct (published_date_round_trip 0%Z sample_record eq_refl) as [H1 [H2 [H3 [H4 _]]]].
  repeat split; assumption.
Defined.

(** ** Reprocessing a dump *)

Lemma drop_timestamp_normalized {pl_strptime : DateReader} (t1 t2 : Z) (l : list Normativa) :
  drop_column "fecha_extraccion" (normalized_frame pl_strptime t1 l)
  = drop_column "fecha_extraccion" (normalized_frame pl_strptime t2 l).
Proof. reflexivity. Qed.

(** C9. On the same raw records [json_to_csv] builds the frame that
    [transform_data] builds: the same expressions and the same column order.
    With the same clock reading the frames are equal and so are the files
    written; with different readings they differ in the column
    [fecha_extraccion] only.  When [transform_data] gives no frame,
    [json_to_csv] writes nothing. *)
Theorem json_to_csv_agrees_with_transform_data (pl_strptime : DateReader) :
  forall (t1 t2 : Z) (normativas : list Normativa),
    json_to_csv_frame pl_strptime t1 normativas = transform_frame pl_strptime t1 normativas /\
    (forall df1,
        transform_data pl_strptime t1 normativas = Returned (Some df1) ->
        exists df2,
          json_to_csv_frame pl_strptime t2 normativas = Returned df2 /\
          json_to_csv pl_strptime t2 normativas = (Returned tt, write_csv_and_stats df2) /\
          df_columns df1 = columnas /\ df_columns df2 = columnas /\
          drop_column "fecha_extraccion" df2 = drop_column "fecha_extraccion" df1 /\
          (t1 = t2 -> df2 = df1)) /\
    (transform_data pl_strptime t1 normativas = Returned None ->
     json_to_csv pl_strptime t2 normativas = (Returned tt, [])) /\
    (normativas <> [] ->
     snd (save_to_csv pl_strptime t1 normativas)
     = CallTransform normativas :: snd (json_to_csv pl_strptime t1 normativas)).
Proof.
  intros t1 t2 normativas.
  assert (forall t, json_to_csv_frame pl_strptime t normativas
                    = transform_frame pl_strptime t normativas) as Hsame
    by reflexivity.
  split; [apply Hsame|]. split; [|split].
  - intros df1 H. destruct (transform_data_some _ _ _ H) as [Hne [Hn ->]].
    exists (normalized_frame pl_strptime t2 normativas).
    assert (json_to_csv_frame pl_strptime t2 normativas
            = Returned (normalized_frame pl_strptime t2 normativas)) as Hf
      by (rewrite Hsame; apply transform_frame_returned, Hn).
    split; [exact Hf|]. split.
    { unfold json_to_csv. rewrite Hf. destruct normativas; [congruence|reflexivity]. }
    split; [reflexivity|]. split; [reflexivity|]. split; [reflexivity|].
    intros ->. reflexivity.
  - intros H. unfold json_to_csv, transform_data in *.
    destruct normativas as [|n l]; [reflexivity|].
    change (json_to_csv_frame pl_strptime t2 (n :: l))
      with (transform_frame pl_strptime t2 (n :: l)).
    destruct (transform_frame pl_strptime t2 (n :: l)) as [df|e] eqn:H2; [|reflexivity].
    exfalso. destruct (forallb (normalizable pl_strptime) (n :: l)) eqn:Hn.
    + rewrite (transform_frame_returned t1 _ Hn) in H. discriminate.
    + destruct (transform_frame_raised t2 _ Hn) as [e He]. congruence.
  - intros Hne. unfold save_to_csv, json_to_csv, transform_data.
    destruct normativas as [|n l]; [congruence|].
    change (json_to_csv_frame pl_strptime t1 (n :: l))
      with (transform_frame pl_strptime t1 (n :: l)).
    destruct (transform_frame pl_strptime t1 (n :: l)); reflexivity.
Qed.

Lemma json_to_csv_agrees_with_transform_data_witness :
  exists df2,
    json_to_csv_frame strptime_dmy 9 [sample_record] = Returned df2 /\
    json_to_csv strptime_dmy 9 [sample_record] = (Returned tt, write_csv_and_stats df2) /\
    df_columns (normalized_frame strptime_dmy 4 [sample_record]) = columnas /\
    df_columns df2 = columnas /\
    drop_column "fecha_extraccion" df2
    = drop_column "fecha_extraccion" (normalized_frame strptime_dmy 4 [sample_record]) /\
    (4%Z = 9%Z -> df2 = normalized_frame strptime_dmy 4 [sample_record]).
Proof.
  apply (proj1 (proj2 (json_to_csv_agrees_with_transform_data strptime_dmy 4%Z 9%Z
                         [sample_record]))).
  vm_compute. reflexivity.
Defined.

(** ** Runs without records *)

(** C10. [transform_data] returns [None] for the empty list, not an empty
    frame; and when the extractor returns no record the run stops there:
    [transform_data] is not called and no file is written. *)
Theorem no_records_no_output (pl_strptime : DateReader) :
  (forall now : Z, transform_data pl_strptime now [] = Returned None) /\
  (forall (now : Z) (sources : list Soup),
      parse_normativa (join_sources sources) = [] ->
      run_from_content pl_strptime now (Some sources) = (Returned tt, [])) /\
  (forall (now : Z) (w : World) (sources : list Soup) (w' : World) (evs : list retry_event),
      get_page_content w = (Some sources, w', evs) ->
      parse_normativa (join_sources sources) = [] ->
      run pl_strptime now w = (Returned tt, [DriverQuit])).
Proof.
  split; [reflexivity|].
  assert (forall now sources,
             parse_normativa (join_sources sources) = [] ->
             run_from_content pl_strptime now (Some sources) = (Returned tt, [])) as Hrun.
  { intros now sources Hp. unfold run_from_content.
    destruct sources; [reflexivity|]. rewrite Hp. reflexivity. }
  split; [exact Hrun|].
  intros now w sources w' evs Hg Hp. unfold run. rewrite Hg.
  rewrite (Hrun now sources Hp). reflexivity.
Qed.

Lemma no_records_no_output_witness :
  run strptime_dmy 0 [mkSession None true true calm [sample_page_no_title]]
  = (Returned tt, [DriverQuit]).
Proof.
  apply (proj2 (proj2 (no_records_no_output strptime_dmy)) 0%Z
           [mkSession None true true calm [sample_page_no_title]] [sample_page_no_title] []
           [Invoked 0]).
  - vm_compute. reflexivity.
  - vm_compute. reflexivity.
Defined.

(** ** The retry policy *)

Section RetryPolicy.

Context {W A : Type}.
Variable func : W -> outcome A * W.
Variables max_retries delay : nat.

(** The loop from turn [attempt] on, [remaining] turns being left. *)
Lemma retry_loop_policy (remaining : nat) :
  forall (attempt : nat) (w : W),
    attempt + S remaining = max_retries ->
    exists k,
      1 <= k <= S remaining /\
      schedule (snd (retry_loop func max_retries delay (S remaining) attempt w))
      = expected_schedule delay attempt k /\
      invocations (snd (retry_loop func max_retries delay (S remaining) attempt w)) = k /\
      (forall j, j < k - 1 ->
                 exists e, nth_error (call_outcomes func (S remaining) w) j = Some (Raised e)) /\
      ((exists a,
           nth_error (call_outcomes func (S remaining) w) (k - 1) = Some (Returned a) /\
           fst (fst (retry_loop func max_retries delay (S remaining) attempt w))
           = Returned (Some a)) \/
       (k = S remaining /\
        exists e,
          nth_error (call_outcomes func (S remaining) w) (k - 1) = Some (Raised e) /\
          fst (fst (retry_loop func max_retries delay (S remaining) attempt w)) = Raised e)).
Proof.
  induction remaining as [|rem IH]; intros attempt w Hsum.
  - exists 1. simpl. destruct (func w) as [[a|e] w'] eqn:Hf.
    + simpl. split; [lia|]. split; [reflexivity|]. split; [reflexivity|].
      split; [intros j Hj; lia|].
      left. exists a. auto.
    + assert ((attempt <? max_retries - 1) = false) as -> by (apply Nat.ltb_ge; lia).
      simpl. split; [lia|]. split; [reflexivity|]. split; [reflexivity|].
      split; [intros j Hj; lia|].
      right. split; [reflexivity|]. exists e. auto.
  - change (retry_loop func max_retries delay (S (S rem)) attempt w)
      with (match func w with
            | (Returned a, w') => (Returned (Some a), w', [Invoked attempt])
            | (Raised e, w') =>
                if attempt <? max_retries - 1
                then
                  let '(r, w'', evs) :=
                    retry_loop func max_retries delay (S rem) (S attempt) w' in
                  (r, w'', Invoked attempt :: Warned attempt e :: Slept delay :: evs)
                else (Raised e, w', [Invoked attempt; Warned attempt e])
            end).
    change (call_outcomes func (S (S rem)) w)
      with (let '(r, w') := func w in r :: call_outcomes func (S rem) w').
    destruct (func w) as [[a|e] w'] eqn:Hf.
    + exists 1. simpl. split; [lia|]. split; [reflexivity|]. split; [reflexivity|].
      split; [intros j Hj; lia|].
      left. exists a. auto.
    + assert ((attempt <? max_retries - 1) = true) as -> by (apply Nat.ltb_lt; lia).
      destruct (IH (S attempt) w') as [k [Hk [Hs [Hi [Hprev Hlast]]]]]; [lia|].
      destruct (retry_loop func max_retries delay (S rem) (S attempt) w')
        as [[r w''] evs] eqn:Hl.
      simpl in Hs, Hi, Hlast. exists (S k).
      split; [lia|]. split.
      { simpl. rewrite Hs. destruct k; [lia|reflexivity]. }
      split.
      { unfold invocations in *. simpl. rewrite Hi. reflexivity. }
      split.
      { intros j Hj. destruct j as [|j]; [exists e; reflexivity|].
        simpl. apply Hprev. lia. }
      replace (S k - 1) with (S (k - 1)) by lia. simpl.
      destruct Hlast as [[a [Ha Hr]]|[Hk' [e' [He' Hr]]]].
      * left. exists a. auto.
      * right. split; [lia|]. exists e'. auto.
Qed.

End RetryPolicy.

(** C7. The operation of the renderer, [_get_content], runs under
    [retry_with_delay] with its defaults.  The policy invokes the wrapped
    function [k] times with [1 <= k <= 3], sleeps 5 seconds between one
    invocation and the next and not after the last, and every invocation
    before the [k]-th failed; it returns the result of the [k]-th
    invocation when that one succeeded, and otherwise [k = 3] and the error
    of the third invocation is raised to the caller. *)
Theorem retry_with_delay_policy :
  (forall (W A : Type) (func : W -> outcome A * W) (w : W),
      exists k,
        1 <= k <= 3 /\
        schedule (snd (retry_with_delay func default_max_retries default_delay w))
        = expected_schedule 5 0 k /\
        invocations (snd (retry_with_delay func default_max_retries default_delay w)) = k /\
        (forall j, j < k - 1 ->
                   exists e, nth_error (call_outcomes func 3 w) j = Some (Raised e)) /\
        ((exists a,
             nth_error (call_outcomes func 3 w) (k - 1) = Some (Returned a) /\
             fst (fst (retry_with_delay func default_max_retries default_delay w))
             = Returned (Some a)) \/
         (k = 3 /\
          exists e,
            nth_error (call_outcomes func 3 w) 2 = Some (Raised e) /\
            fst (fst (retry_with_delay func default_max_retries default_delay w))
            = Raised e))) /\
  (forall w : World,
      snd (get_page_content w)
      = snd (retry_with_delay attempt_get_content default_max_retries default_delay w) /\
      invocations (snd (get_page_content w)) <= 3).
Proof.
  split.
  - intros W A func w.
    destruct (retry_loop_policy func 3 5 2 0 w eq_refl)
      as [k [Hk [Hs [Hi [Hprev Hlast]]]]].
    exists k. unfold retry_with_delay, default_max_retries, default_delay.
    split; [exact Hk|]. split; [exact Hs|]. split; [exact Hi|]. split; [exact Hprev|].
    destruct Hlast as [Hok|[Hk3 Herr]]; [left; exact Hok|].
    right. split; [exact Hk3|]. rewrite Hk3 in Herr. exact Herr.
  - intros w.
    assert (snd (get_page_content w)
            = snd (retry_with_delay attempt_get_content default_max_retries default_delay w))
      as Heq.
    { unfold get_page_content.
      destruct (retry_with_delay attempt_get_content default_max_retries default_delay w)
        as [[[content|e] w'] evs]; reflexivity. }
    split; [exact Heq|]. rewrite Heq.
    destruct (retry_loop_policy attempt_get_content 3 5 2 0 w eq_refl)
      as [k [Hk [_ [Hi _]]]].
    unfold retry_with_delay, default_max_retries, default_delay. rewrite Hi. lia.
Qed.

Lemma retry_with_delay_policy_witness :
  exists k,
    1 <= k <= 3 /\
    schedule (snd (retry_with_delay attempt_get_content default_max_retries default_delay
                     [mkSession None false true calm []; mkSession None true true calm [sample_page1]]))
    = expected_schedule 5 0 k.
Proof.
  destruct (proj1 retry_with_delay_policy World (list Soup) attempt_get_content
              [mkSession None false true calm []; mkSession None true true calm [sample_page1]])
    as [k [Hk [Hs _]]].
  exists k. split; [exact Hk|exact Hs].
Defined.

Example retry_three_failures :
  retry_with_delay attempt_get_content default_max_retries default_delay
    [ mkSession None false true calm []; mkSession None true false calm []; mkSession None false true calm [];
      mkSession None true true calm [sample_page1] ]
  = (Raised (RendererError "No se pudo seleccionar el sector"),
     [mkSession None true true calm [sample_page1]],
     [ Invoked 0; Warned 0 (RendererError "No se pudo seleccionar el sector"); Slept 5;
       Invoked 1; Warned 1 (RendererError "No se pudo seleccionar la entidad"); Slept 5;
       Invoked 2; Warned 2 (RendererError "No se pudo seleccionar el sector") ]).
Proof. reflexivity. Qed.

Example retry_second_attempt_succeeds :
  get_page_content
    [mkSession None false true calm []; mkSession None true true calm [sample_page1; sample_page2]]
  = (Some [sample_page1; sample_page2], [],
     [ Invoked 0; Warned 0 (RendererError "No se pudo seleccionar el sector"); Slept 5;
       Invoked 1 ]).
Proof. reflexivity. Qed.

(** ** Pagination traversal *)



















Example traverse_two_pages :
  traverse 5 (page_at [sample_page1; sample_page2; sample_page_no_title]) 1 []
  = Some (2, [sample_page1; sample_page2]).
Proof. vm_compute. reflexivity. Qed.

Example traverse_past_empty_page :
  proceso_elements sample_page_empty = [] /\
  traverse 5 (page_at [sample_page_empty; sample_page2]) 1 []
  = Some (2, [sample_page2]).
Proof. split; vm_compute; reflexivity. Qed.

(** ** Filter validation *)

Lemma date_ltb_leb (a b : Date) : date_leb a b = negb (date_ltb b a).
Proof. reflexivity. Qed.

(** C5. With both date bounds given and parsed, a start date after the end
    date makes the constructor raise, and it raises before logging and the
    browser driver are set up; with the start date not after the end date the
    validation passes, the set-up steps are reached, and the crawler is built
    (the driver starting). *)
Theorem init_validates_date_range :
  forall (estado tipo_documento : option string) (fecha_inicio fecha_fin : string)
         (inicio fin : Date) (driver_ok : bool),
    truthy (Some fecha_inicio) = true ->
    truthy (Some fecha_fin) = true ->
    py_strptime_dmy fecha_inicio = Some inicio ->
    py_strptime_dmy fecha_fin = Some fin ->
    (date_ltb fin inicio = true ->
     exists msg,
       init estado tipo_documento (Some fecha_inicio) (Some fecha_fin) driver_ok
       = (Raised (ValueError msg), [])) /\
    (date_leb inicio fin = true ->
     validate_fechas fecha_inicio fecha_fin = Returned tt /\
     snd (init estado tipo_documento (Some fecha_inicio) (Some fecha_fin) driver_ok)
     = [SetupLogging; SetupDriver] /\
     init estado tipo_documento (Some fecha_inicio) (Some fecha_fin) true
     = (Returned (mkCrawler estado tipo_documento (Some fecha_inicio) (Some fecha_fin)
                    "https://www.sucop.gov.co/busqueda?pageSize=100"),
        [SetupLogging; SetupDriver])).
Proof.
  intros estado tipo_documento fecha_inicio fecha_fin inicio fin driver_ok
         Hti Htf Hi Hf.
  assert (forall ok,
             init estado tipo_documento (Some fecha_inicio) (Some fecha_fin) ok
             = match validate_fechas fecha_inicio fecha_fin with
               | Raised e => (Raised e, [])
               | Returned _ =>
                   if ok
                   then (Returned (mkCrawler estado tipo_documento (Some fecha_inicio)
                                     (Some fecha_fin)
                                     "https://www.sucop.gov.co/busqueda?pageSize=100"),
                         [SetupLogging; SetupDriver])
                   else (Raised (RendererError "No se pudo inicializar el driver de Edge"),
                         [SetupLogging; SetupDriver])
               end) as Hinit.
  { intros ok. unfold init. rewrite Hti, Htf. reflexivity. }
  assert (validate_fechas fecha_inicio fecha_fin
          = if date_ltb fin inicio
            then Raised (ValueError
                   "Error en el formato de fechas: La fecha de inicio no puede ser posterior a la fecha de fin")
            else Returned tt) as Hval.
  { unfold validate_fechas, py_strptime. rewrite Hi, Hf. simpl.
    destruct (date_ltb fin inicio); reflexivity. }
  split.
  - intros Hlt. rewrite Hinit, Hval, Hlt. eauto.
  - intros Hle. rewrite date_ltb_leb in Hle. apply negb_true_iff in Hle.
    rewrite !Hinit, Hval, Hle. split; [reflexivity|].
    split; [destruct driver_ok; reflexivity|reflexivity].
Qed.

Lemma init_validates_date_range_witness :
  (date_ltb (mkDate 2024 1 1) (mkDate 2024 6 1) = true ->
   exists msg,
     init None None (Some "01/06/2024") (Some "01/01/2024") true
     = (Raised (ValueError msg), [])) /\
  (date_leb (mkDate 2024 6 1) (mkDate 2024 1 1) = true ->
   validate_fechas "01/06/2024" "01/01/2024" = Returned tt /\
   snd (init None None (Some "01/06/2024") (Some "01/01/2024") true)
   = [SetupLogging; SetupDriver] /\
   init None None (Some "01/06/2024") (Some "01/01/2024") true
   = (Returned (mkCrawler None None (Some "01/06/2024") (Some "01/01/2024")
                  "https://www.sucop.gov.co/busqueda?pageSize=100"),
      [SetupLogging; SetupDriver])).
Proof.
  apply (init_validates_date_range None None "01/06/2024" "01/01/2024"
           (mkDate 2024 6 1) (mkDate 2024 1 1) true); reflexivity.
Defined.

Example init_rejects_inverted_range :
  init None None (Some "01/06/2024") (Some "01/01/2024") true
  = (Raised (ValueError
       "Error en el formato de fechas: La fecha de inicio no puede ser posterior a la fecha de fin"),
     []).
Proof. reflexivity. Qed.

Example init_accepts_ordered_range :
  fst (init (Some "Activa") None (Some "01/01/2024") (Some "01/06/2024") true)
  = Returned (mkCrawler (Some "Activa") None (Some "01/01/2024") (Some "01/06/2024")
                "https://www.sucop.gov.co/busqueda?pageSize=100").
Proof. reflexivity. Qed.

(* ===================================================================== *)
(** * Part III. Further properties of the code                            *)
(* ===================================================================== *)

(** ** The retry policy for any budget *)

(** X1. [retry_with_delay] for any [max_retries] and [delay].  With a budget
    of zero the function is never invoked and [None] is returned without an
    error.  With a positive budget the function is invoked [k] times,
    [1 <= k <= max_retries], with a sleep of [delay] seconds between one
    invocation and the next; the invocations before the [k]-th failed; the
    result is that of the [k]-th when it succeeded, and otherwise the budget
    is used up and the error of the last invocation is raised. *)
Theorem retry_with_delay_any_budget :
  forall (W A : Type) (func : W -> outcome A * W) (max_retries delay : nat) (w : W),
    (max_retries = 0 ->
     retry_with_delay func max_retries delay w = (Returned None, w, [])) /\
    (1 <= max_retries ->
     exists k,
       1 <= k <= max_retries /\
       schedule (snd (retry_with_delay func max_retries delay w))
       = expected_schedule delay 0 k /\
       invocations (snd (retry_with_delay func max_retries delay w)) = k /\
       (forall j, j < k - 1 ->
                  exists e, nth_error (call_outcomes func max_retries w) j = Some (Raised e)) /\
       ((exists a,
            nth_error (call_outcomes func max_retries w) (k - 1) = Some (Returned a) /\
            fst (fst (retry_with_delay func max_retries delay w)) = Returned (Some a)) \/
        (k = max_retries /\
         exists e,
           nth_error (call_outcomes func max_retries w) (k - 1) = Some (Raised e) /\
           fst (fst (retry_with_delay func max_retries delay w)) = Raised e))).
Proof.
  intros W A func max_retries delay w. split.
  - intros ->. reflexivity.
  - intros Hpos. destruct max_retries as [|n]; [lia|].
    unfold retry_with_delay.
    exact (retry_loop_policy func (S n) delay n 0 w eq_refl).
Qed.

Lemma retry_with_delay_any_budget_witness :
  exists k,
    1 <= k <= 2 /\
    schedule (snd (retry_with_delay attempt_get_content 2 7
                     [mkSession None false true calm []; mkSession None true true calm [sample_page1]]))
    = expected_schedule 7 0 k.
Proof.
  destruct (proj2 (retry_with_delay_any_budget World (list Soup) attempt_get_content 2 7
                     [mkSession None false true calm []; mkSession None true true calm [sample_page1]]))
    as [k [Hk [Hs _]]].
  - lia.
  - exists k. split; [exact Hk|exact Hs].
Defined.

(** ** The content of one attempt *)

Lemma proceso_elements_blank : proceso_elements [] = [].
Proof. reflexivity. Qed.

Lemma page_at_in_or_blank (site : Site) (n : nat) :
  In (page_at site n) site \/ page_at site n = [].
Proof.
  unfold page_at. destruct (nth_in_or_default (n - 1) site []); auto.
Qed.

(** What the loop collects comes from the listing and showed items. *)
Lemma collected_from_site (site : Site) (j : nat) :
  Forall (fun src => In src site /\ proceso_elements src <> [])
         (collected (page_at site) j).
Proof.
  unfold collected. apply Forall_forall. intros src Hin.
  apply in_flat_map in Hin as [i [_ Hsrc]].
  unfold page_sources in Hsrc.
  destruct (proceso_elements (page_at site i)) as [|el els] eqn:He; [destruct Hsrc|].
  destruct Hsrc as [<-|[]].
  destruct (page_at_in_or_blank site i) as [Hs|Hb].
  - split; [exact Hs|]. rewrite He. discriminate.
  - rewrite Hb in He. discriminate.
Qed.

Lemma collected_length (render : nat -> Soup) (j : nat) :
  List.length (collected render j) <= j.
Proof.
  unfold collected. generalize 1. induction j as [|j IH]; intros start; simpl; [lia|].
  rewrite length_app. specialize (IH (S start)).
  assert (List.length (page_sources (render start)) <= 1).
  { unfold page_sources. destruct (proceso_elements (render start)); simpl; lia. }
  lia.
Qed.










Example get_content_page_does_not_load :
  _get_content (mkSession (Some (RendererError "net::ERR_CONNECTION_RESET")) true true calm
                  [sample_page1])
  = Raised (RendererError "net::ERR_CONNECTION_RESET").
Proof. reflexivity. Qed.

(** An error while the items of page 2 are looked up ends the loop with the
    source of page 1; an error while the links of page 1 are looked up is
    answered by the selector, which finds the link to page 2. *)
Example get_content_with_driver_errors :
  _get_content
    (mkSession None true true
       (fun n => if n =? 2 then mkFaults true false (fun _ => false) false else no_faults)
       [sample_page1; sample_page2])
  = Returned [sample_page1] /\
  _get_content
    (mkSession None true true
       (fun n => if n =? 1 then mkFaults false true (fun _ => false) false else no_faults)
       [sample_page1; sample_page2])
  = Returned [sample_page1; sample_page2] /\
  _get_content
    (mkSession None true true
       (fun n => if n =? 1 then mkFaults false false (fun _ => true) false else no_faults)
       [sample_page1; sample_page2])
  = Returned [sample_page1].
Proof. repeat split; vm_compute; reflexivity. Qed.

Example get_content_skips_empty_page :
  _get_content (mkSession None true true calm [sample_page_empty; sample_page2; sample_page1])
  = Returned [sample_page2].
Proof. vm_compute. reflexivity. Qed.

(** ** The wrapped call *)

(** X3. [get_page_content] returns [None] exactly when the three attempts
    all failed; when it returns a content, that is the content of the first
    attempt that succeeded, the attempts before it having failed.  No error
    reaches the caller. *)
Theorem get_page_content_outcome :
  forall w : World,
    (fst (fst (get_page_content w)) = None <->
     forall j, j < 3 ->
               exists e, nth_error (call_outcomes attempt_get_content 3 w) j
                         = Some (Raised e)) /\
    (forall sources,
        fst (fst (get_page_content w)) = Some sources ->
        exists k,
          k < 3 /\
          nth_error (call_outcomes attempt_get_content 3 w) k = Some (Returned sources) /\
          forall j, j < k ->
                    exists e, nth_error (call_outcomes attempt_get_content 3 w) j
                              = Some (Raised e)).
Proof.
  intros w.
  destruct (retry_loop_policy attempt_get_content 3 5 2 0 w eq_refl)
    as [k [Hk [_ [_ [Hprev Hlast]]]]].
  assert (fst (fst (get_page_content w))
          = match fst (fst (retry_loop attempt_get_content 3 5 3 0 w)) with
            | Returned content => content
            | Raised _ => None
            end) as Hg.
  { unfold get_page_content, retry_with_delay, default_max_retries, default_delay.
    destruct (retry_loop attempt_get_content 3 5 3 0 w) as [[[c|e] w'] evs]; reflexivity. }
  rewrite Hg. clear Hg.
  destruct Hlast as [[a [Ha Hr]]|[Hk3 [e [He Hr]]]]; rewrite Hr.
  - split.
    + split; [discriminate|]. intros Hall.
      destruct (Hall (k - 1)) as [e He]; [lia|]. congruence.
    + intros sources Hs. injection Hs as <-. exists (k - 1).
      split; [lia|]. split; [exact Ha|exact Hprev].
  - split.
    + split; [|reflexivity]. intros _ j Hj.
      destruct (Nat.eq_dec j (k - 1)) as [->|Hne]; [eauto|].
      apply Hprev. lia.
    + discriminate.
Qed.

Lemma get_page_content_outcome_witness :
  exists k,
    k < 3 /\
    nth_error (call_outcomes attempt_get_content 3
                 [mkSession None false true calm []; mkSession None true true calm [sample_page1]]) k
    = Some (Returned [sample_page1]).
Proof.
  destruct (proj2 (get_page_content_outcome
                     [mkSession None false true calm []; mkSession None true true calm [sample_page1]])
              [sample_page1] eq_refl) as [k [Hk [Hn _]]].
  exists k. split; [exact Hk|exact Hn].
Defined.

(** ** Which records the extractor keeps *)

Lemma url_seen_existsb (u : string) (acc : list Normativa) :
  url_seen u acc = existsb (String.eqb u) (urls acc).
Proof.
  unfold url_seen, urls. induction acc as [|n acc IH]; simpl; [reflexivity|].
  rewrite IH, (String.eqb_sym (url n) u). reflexivity.
Qed.

Lemma existsb_eqb_in (u : string) (l : list string) :
  existsb (String.eqb u) l = true <-> In u l.
Proof.
  rewrite existsb_exists. split.
  - intros [x [Hx He]]. apply String.eqb_eq in He. subst. exact Hx.
  - intros H. exists u. split; [exact H|apply String.eqb_refl].
Qed.

(** Only the members of [seen] matter. *)
Lemma first_per_url_ext (l : list Normativa) :
  forall s1 s2, (forall u, In u s1 <-> In u s2) ->
                first_per_url s1 l = first_per_url s2 l.
Proof.
  induction l as [|n l IH]; intros s1 s2 Hs; simpl; [reflexivity|].
  assert (existsb (String.eqb (url n)) s1 = existsb (String.eqb (url n)) s2) as ->.
  { destruct (existsb (String.eqb (url n)) s2) eqn:E2.
    - apply existsb_eqb_in, Hs, existsb_eqb_in, E2.
    - destruct (existsb (String.eqb (url n)) s1) eqn:E1; [|reflexivity].
      apply existsb_eqb_in, Hs, existsb_eqb_in in E1. congruence. }
  destruct (existsb (String.eqb (url n)) s2).
  - apply IH, Hs.
  - f_equal. apply IH. intros u. simpl. rewrite (Hs u). tauto.
Qed.

Lemma fold_add_first_per_url (ps : list Node) :
  forall acc,
    fold_left add_proceso ps acc = acc ++ first_per_url (urls acc) (extracted ps).
Proof.
  induction ps as [|p ps IH]; intros acc; simpl; [rewrite app_nil_r; reflexivity|].
  rewrite IH. unfold add_proceso, extracted. simpl.
  destruct (extract_proceso p) as [n|]; simpl; [|reflexivity].
  rewrite url_seen_existsb.
  destruct (existsb (String.eqb (url n)) (urls acc)); [reflexivity|].
  rewrite <- app_assoc. simpl. f_equal. f_equal.
  apply first_per_url_ext. intros u. rewrite urls_app. simpl.
  rewrite in_app_iff. simpl. tauto.
Qed.

(** X4. First seen wins.  The records [parse_normativa] returns are the
    records built from the item containers in document order, of which only
    the first of every url is kept: a later item with a url already produced
    is dropped whatever its other fields are, and the order of the kept
    records is the order of the document. *)
Theorem parse_normativa_first_per_url :
  forall soup : Soup,
    parse_normativa soup = first_per_url [] (extracted (find_procesos soup)).
Proof.
  intros soup. unfold parse_normativa. rewrite fold_add_first_per_url. reflexivity.
Qed.

Example parse_normativa_keeps_first_title :
  map titulo (parse_normativa
                [ item_bare "/proyecto/1" "Primero";
                  item_bare "/proyecto/2" "Segundo";
                  item_bare "/proyecto/1" "Repetido" ])
  = ["Primero"; "Segundo"].
Proof. vm_compute. reflexivity. Qed.

Lemma url_seen_in (u : string) (acc : list Normativa) :
  In u (urls acc) -> url_seen u acc = true.
Proof.
  intros Hin. destruct (url_seen u acc) eqn:E; [reflexivity|].
  exfalso. exact (url_seen_false _ _ E Hin).
Qed.

(** Containers whose urls were all produced add nothing. *)
Lemma fold_add_nothing_new (ps : list Node) (acc : list Normativa) :
  (forall p n, In p ps -> extract_proceso p = Some n -> In (url n) (urls acc)) ->
  fold_left add_proceso ps acc = acc.
Proof.
  induction ps as [|p ps IH]; intros H; simpl; [reflexivity|].
  assert (add_proceso acc p = acc) as ->.
  { unfold add_proceso. destruct (extract_proceso p) as [n|] eqn:He; [|reflexivity].
    rewrite (url_seen_in _ _ (H p n (or_introl eq_refl) He)). reflexivity. }
  apply IH. intros q n Hq. apply H. right. exact Hq.
Qed.

(** The containers of a run to which one of its pages is appended again. *)
Lemma find_procesos_join_again (sources : list Soup) (page : Soup) :
  In page sources ->
  exists again,
    find_procesos (join_sources (sources ++ [page]))
    = find_procesos (join_sources sources) ++ again /\
    forall c, In c again -> In c (find_procesos (join_sources sources)).
Proof.
  intros Hp.
  assert (forall cls, find_all "div" cls (join_sources (sources ++ [page]))
                      = find_all "div" cls (join_sources sources) ++ find_all "div" cls page)
    as Happ.
  { intros cls. rewrite !find_all_join, flat_map_app. simpl. rewrite app_nil_r. reflexivity. }
  assert (forall cls c, In c (find_all "div" cls page) ->
                        In c (find_all "div" cls (join_sources sources))) as Hsub.
  { intros cls c Hc. rewrite find_all_join. apply in_flat_map. exists page. auto. }
  unfold find_procesos. rewrite !Happ.
  destruct (find_all "div" "bq-proceso" (join_sources sources)) as [|a l] eqn:P.
  - destruct (find_all "div" "bq-proceso" page) as [|b m] eqn:Q.
    + simpl. exists (find_all "div" "proceso-container" page). split; [reflexivity|].
      apply Hsub.
    + exfalso. pose proof (Hsub "bq-proceso" b) as Hb. rewrite Q, P in Hb.
      exact (Hb (or_introl eq_refl)).
  - simpl. exists (find_all "div" "bq-proceso" page). split; [reflexivity|].
    intros c Hc. pose proof (Hsub "bq-proceso" c Hc) as Hin. rewrite P in Hin. exact Hin.
Qed.

(** X5. A page collected twice changes nothing: when the sources of a run
    are followed by a page that is already among them, the extractor returns
    the same records as without the repeated page. *)
Theorem parse_normativa_repeated_page :
  forall (sources : list Soup) (page : Soup),
    In page sources ->
    parse_normativa (join_sources (sources ++ [page]))
    = parse_normativa (join_sources sources).
Proof.
  intros sources page Hp. unfold parse_normativa.
  destruct (find_procesos_join_again sources page Hp) as [again [-> Hsub]].
  rewrite fold_left_app. apply fold_add_nothing_new.
  intros p n Hin He. exact (fold_add_adds _ _ _ _ (Hsub p Hin) He).
Qed.

Lemma parse_normativa_repeated_page_witness :
  parse_normativa (join_sources ([sample_page1; sample_page2] ++ [sample_page1]))
  = parse_normativa (join_sources [sample_page1; sample_page2]).
Proof.
  apply (parse_normativa_repeated_page [sample_page1; sample_page2] sample_page1).
  simpl. auto.
Defined.

(** ** What a returned record holds *)

Section Strip.

Variable ws : ascii -> bool.

Lemma lstrip_by_head (s : string) (c : ascii) (r : string) :
  lstrip_by ws s = String c r -> ws c = false.
Proof.
  induction s as [|a s IH]; simpl; [discriminate|].
  destruct (ws a) eqn:Ha; [exact IH|].
  intros H. injection H as <- _. exact Ha.
Qed.

Lemma rstrip_by_head (c : ascii) (r : string) :
  ws c = false -> rstrip_by ws (String c r) = String c (rstrip_by ws r).
Proof.
  intros Hc. simpl. rewrite Hc. destruct (rstrip_by ws r); reflexivity.
Qed.

Lemma rstrip_by_idem (s : string) :
  rstrip_by ws (rstrip_by ws s) = rstrip_by ws s.
Proof.
  induction s as [|c s IH]; [reflexivity|]. simpl.
  destruct (rstrip_by ws s) as [|d t] eqn:E.
  - destruct (ws c) eqn:Hc; [reflexivity|]. simpl. rewrite Hc. reflexivity.
  - change (rstrip_by ws (String c (String d t)))
      with (match rstrip_by ws (String d t) with
            | EmptyString => if ws c then EmptyString else String c EmptyString
            | String a b => String c (String a b)
            end).
    rewrite IH. reflexivity.
Qed.

(** Stripping a stripped text changes nothing. *)
Lemma strip_by_idem (s : string) :
  rstrip_by ws (lstrip_by ws (rstrip_by ws (lstrip_by ws s)))
  = rstrip_by ws (lstrip_by ws s).
Proof.
  destruct (lstrip_by ws s) as [|c r] eqn:E; [reflexivity|].
  pose proof (lstrip_by_head _ _ _ E) as Hc.
  rewrite (rstrip_by_head c r Hc).
  change (lstrip_by ws (String c (rstrip_by ws r)))
    with (if ws c then lstrip_by ws (rstrip_by ws r) else String c (rstrip_by ws r)).
  rewrite Hc. rewrite (rstrip_by_head c _ Hc), rstrip_by_idem. reflexivity.
Qed.

End Strip.

Lemma strip_idem (s : string) : strip (strip s) = strip s.
Proof. apply strip_by_idem. Qed.

Lemma pl_strip_idem (s : string) : pl_strip (pl_strip s) = pl_strip s.
Proof. apply strip_by_idem. Qed.

(** A stripped text does not begin with white space. *)
Lemma strip_head (s : string) (c : ascii) (r : string) :
  strip s = String c r -> isspace c = false.
Proof.
  unfold strip. destruct (lstrip_by isspace s) as [|a t] eqn:E; [discriminate|].
  pose proof (lstrip_by_head _ _ _ _ E) as Ha.
  rewrite (rstrip_by_head _ a t Ha). intros H. injection H as <- _. exact Ha.
Qed.

Lemma fecha_value_stripped (d : option Node) : strip (fecha_value d) = fecha_value d.
Proof.
  unfold fecha_value. destruct d as [d|]; [|reflexivity].
  destruct (or_else _ _); [apply strip_idem|reflexivity].
Qed.

Lemma fold_add_record_origin (ps : list Node) :
  forall (acc : list Normativa) (n : Normativa),
    In n (fold_left add_proceso ps acc) ->
    In n acc \/ exists p, In p ps /\ extract_proceso p = Some n.
Proof.
  induction ps as [|q ps IH]; intros acc n Hin; simpl in *; [auto|].
  destruct (IH _ _ Hin) as [Hacc|[p [Hp He]]].
  - unfold add_proceso in Hacc.
    destruct (extract_proceso q) as [m|] eqn:Hq; [|auto].
    destruct (url_seen (url m) acc); [auto|].
    apply in_app_or in Hacc as [H|[<-|[]]]; [auto|].
    right. exists q. auto.
  - right. exists p. auto.
Qed.

Lemma fold_add_length (ps : list Node) :
  forall acc, List.length (fold_left add_proceso ps acc) <= List.length acc + List.length ps.
Proof.
  induction ps as [|q ps IH]; intros acc; simpl; [lia|].
  specialize (IH (add_proceso acc q)).
  assert (List.length (add_proceso acc q) <= S (List.length acc)).
  { unfold add_proceso. destruct (extract_proceso q) as [m|]; [|lia].
    destruct (url_seen (url m) acc); [lia|]. rewrite length_app. simpl. lia. }
  lia.
Qed.

(** X6. Every record [parse_normativa] returns was built from one of the
    item containers of the document; its url is not empty; its title, its two
    date texts and its status carry no white space at either end; and there
    are at most as many records as item containers. *)
Theorem parse_normativa_records :
  (forall soup : Soup,
      List.length (parse_normativa soup) <= List.length (find_procesos soup)) /\
  (forall (soup : Soup) (n : Normativa),
      In n (parse_normativa soup) ->
      (exists p, In p (find_procesos soup) /\ extract_proceso p = Some n) /\
      url n <> EmptyString /\
      strip (titulo n) = titulo n /\
      strip (fecha_publicacion n) = fecha_publicacion n /\
      strip (fecha_cierre n) = fecha_cierre n /\
      strip (estado n) = estado n).
Proof.
  split.
  - intros soup. exact (fold_add_length (find_procesos soup) []).
  - intros soup n Hin.
    destruct (fold_add_record_origin _ _ _ Hin) as [[]|[p [Hp He]]].
    split; [exists p; auto|].
    unfold extract_proceso in He.
    destruct (find_header p) as [header|]; [|discriminate].
    destruct (find_tag "a" header) as [link|]; [|discriminate].
    destruct (node_attr "href" link) as [[|c h]|]; try discriminate.
    destruct (extract_fechas p) as [fp fc] eqn:Hf.
    injection He as <-. simpl.
    unfold extract_fechas in Hf.
    split; [discriminate|]. split; [apply strip_idem|].
    assert (strip fp = fp /\ strip fc = fc) as [Hfp Hfc].
    { destruct (fechas_block p) as [fechas|].
      - injection Hf as <- <-. split; apply fecha_value_stripped.
      - injection Hf as <- <-. split; reflexivity. }
    split; [exact Hfp|]. split; [exact Hfc|].
    unfold extract_estado. destruct (estado_block p) as [d|]; [|reflexivity].
    destruct (find_tag "div" d); [apply strip_idem|reflexivity].
Qed.

Lemma parse_normativa_records_witness :
  (exists p, In p (find_procesos sample_page1) /\
             extract_proceso p
             = Some (mkNormativa "Proyecto uno" "/proyecto/1" "05/03/2024" "20/03/2024"
                       "Activa" 3)) /\
  "/proyecto/1" <> EmptyString.
Proof.
  destruct (proj2 parse_normativa_records sample_page1
              (mkNormativa "Proyecto uno" "/proyecto/1" "05/03/2024" "20/03/2024" "Activa" 3))
    as [Ho [Hu _]].
  - vm_compute. auto.
  - split; [exact Ho|exact Hu].
Defined.

(** ** The outcome of the normalization *)

(** X7. [transform_data] never raises.  It returns a frame exactly when the
    list is not empty and every record has two dates that the library reads
    and a comment count within 32 bits; the frame then holds, column by
    column, the cleaned titles, the urls, the dates as read, the statuses
    and counts as they were, the two constants and the clock reading.  In
    every other case it returns [None], whatever the clock reading.  This
    holds whatever texts the library reads. *)
Theorem transform_data_outcome (pl_strptime : DateReader) :
  forall (now : Z) (normativas : list Normativa),
    transform_data pl_strptime now normativas
    = if negb (Nat.eqb (List.length normativas) 0) && forallb (normalizable pl_strptime) normativas
      then Returned (Some (normalized_frame pl_strptime now normativas))
      else Returned None.
Proof.
  intros now normativas. destruct normativas as [|n l]; [reflexivity|].
  cbn [List.length Nat.eqb negb andb].
  destruct (forallb (normalizable pl_strptime) (n :: l)) eqn:Hn.
  - apply transform_data_normalizable; [discriminate|exact Hn].
  - apply transform_data_not_normalizable. exact Hn.
Qed.

(** A text with a year of two digits is not of the digits form; under a
    reader that takes it, as the library does, the record is accepted and
    the frame holds the date of year 24. *)
Example transform_data_short_year :
  let reader := fun s => if String.eqb s "05/03/24" then Some (mkDate 24 3 5)
                         else strptime_dmy s in
  strptime_dmy "05/03/24" = None /\
  exists df,
    transform_data reader 0 [mkNormativa "t" "/p" "05/03/24" "20/03/2024" "Activa" 0]
    = Returned (Some df) /\
    df_column "fecha_publicacion" df = Some [VDate (mkDate 24 3 5)].
Proof. cbv zeta. split; [reflexivity|]. eexists. split; vm_compute; reflexivity. Qed.

Example transform_data_count_out_of_range :
  transform_data strptime_dmy 0 [mkNormativa "t" "/p" "05/03/2024" "20/03/2024" "Activa" 2147483648]
  = Returned None.
Proof. vm_compute. reflexivity. Qed.

Lemma nth_error_repeat_some {A : Type} (a : A) (n i : nat) :
  i < n -> nth_error (repeat a n) i = Some a.
Proof.
  revert i. induction n as [|n IH]; intros i Hi; [lia|].
  destruct i as [|i]; [reflexivity|]. simpl. apply IH. lia.
Qed.

(** X8. The rows of the frame are the records, one by one.  When
    [transform_data] returns a frame, its columns are those of [columnas] in
    that order, every column has one cell per record, and row [i] holds for
    record [i] of the input: its url, status and comment count unchanged, its
    two dates parsed, and the same entity, sector and clock reading as every
    other row. *)
Theorem transform_data_rows (pl_strptime : DateReader) :
  forall (now : Z) (normativas : list Normativa) (df : DataFrame),
    transform_data pl_strptime now normativas = Returned (Some df) ->
    df_columns df = columnas /\
    Forall (fun nc => List.length (snd nc) = List.length normativas) df /\
    forall (i : nat) (n : Normativa),
      nth_error normativas i = Some n ->
      exists pub cierre,
        pl_strptime (fecha_publicacion n) = Some pub /\
        pl_strptime (fecha_cierre n) = Some cierre /\
        map (fun name => option_map (fun col => nth_error col i) (df_column name df)) columnas
        = map (fun c => Some (Some c))
            [ VStr (replace_all_ws (pl_strip (titulo n))); VStr (url n);
              VDate pub; VDate cierre; VStr (estado n); VInt (comentarios n);
              VStr entidad_const; VStr sector_const; VDatetime now ].
Proof.
  intros now normativas df H.
  destruct (transform_data_some _ _ _ H) as [_ [Hn ->]].
  split; [reflexivity|]. split.
  - unfold normalized_frame.
    repeat (constructor; [simpl; rewrite ?length_map, ?repeat_length; reflexivity|]).
    constructor.
  - intros i n Hi.
    assert (normalizable pl_strptime n = true) as Hok.
    { rewrite forallb_forall in Hn. apply Hn. exact (nth_error_In _ _ Hi). }
    unfold normalizable in Hok.
    destruct (pl_strptime (fecha_publicacion n)) as [pub|] eqn:Hp; [|discriminate].
    destruct (pl_strptime (fecha_cierre n)) as [cierre|] eqn:Hc; [|discriminate].
    exists pub, cierre. split; [reflexivity|]. split; [reflexivity|].
    assert (i < List.length normativas) as Hlen
      by (apply nth_error_Some; rewrite Hi; discriminate).
    simpl. rewrite !nth_error_map, Hi, !nth_error_repeat_some by exact Hlen.
    simpl. unfold date_cell. rewrite Hp, Hc. reflexivity.
Qed.

Lemma transform_data_rows_witness :
  df_columns (normalized_frame strptime_dmy 3 [sample_record]) = columnas /\
  Forall (fun nc => List.length (snd nc) = 1) (normalized_frame strptime_dmy 3 [sample_record]).
Proof.
  destruct (transform_data_rows strptime_dmy 3%Z [sample_record]
              (normalized_frame strptime_dmy 3 [sample_record]))
    as [Hc [Hl _]].
  - vm_compute. reflexivity.
  - split; [exact Hc|exact Hl].
Defined.

(** ** Cleaned titles *)

Lemma collapse_ws_single_spaced (s : string) :
  forall b, single_spaced b (collapse_ws b s) = true.
Proof.
  induction s as [|c s IH]; intros b; simpl; [reflexivity|].
  destruct (pl_isspace c) eqn:Hc.
  - destruct b; [apply IH|]. simpl. apply IH.
  - simpl. rewrite Hc. apply IH.
Qed.

Lemma collapse_ws_fixed (t : string) :
  forall b, single_spaced b t = true -> collapse_ws b t = t.
Proof.
  induction t as [|c t IH]; intros b H; simpl in *; [reflexivity|].
  destruct (pl_isspace c) eqn:Hc.
  - apply andb_true_iff in H as [H Ht]. apply andb_true_iff in H as [Hsp Hb].
    apply Ascii.eqb_eq in Hsp. apply negb_true_iff in Hb. subst b c.
    rewrite (IH true Ht). reflexivity.
  - rewrite (IH false H). reflexivity.
Qed.

Lemma rstrip_by_fixed_inv (ws : ascii -> bool) (c : ascii) (r : string) :
  rstrip_by ws (String c r) = String c r ->
  (r = EmptyString /\ ws c = false) \/ (r <> EmptyString /\ rstrip_by ws r = r).
Proof.
  simpl. destruct (rstrip_by ws r) as [|d t] eqn:E.
  - destruct (ws c); [discriminate|]. intros H. injection H as <-. auto.
  - intros H. injection H as <-. right. split; [discriminate|reflexivity].
Qed.

Lemma rstrip_by_cons_fixed (ws : ascii -> bool) (x : ascii) (y : string) :
  rstrip_by ws y = y -> y <> EmptyString -> rstrip_by ws (String x y) = String x y.
Proof.
  intros Hy Hne. simpl. rewrite Hy. destruct y; [congruence|reflexivity].
Qed.

Lemma collapse_ws_nonempty (r : string) :
  rstrip_by pl_isspace r = r -> r <> EmptyString ->
  forall b, collapse_ws b r <> EmptyString.
Proof.
  induction r as [|c r IH]; intros Hr Hne b; [congruence|].
  destruct (rstrip_by_fixed_inv _ _ _ Hr) as [[-> Hc]|[Hne' Hr']].
  - simpl. rewrite Hc. discriminate.
  - simpl. destruct (pl_isspace c).
    + destruct b; [apply IH; assumption|discriminate].
    + discriminate.
Qed.

Lemma collapse_ws_keeps_end (u : string) :
  rstrip_by pl_isspace u = u ->
  forall b, rstrip_by pl_isspace (collapse_ws b u) = collapse_ws b u.
Proof.
  induction u as [|c u IH]; intros Hu b; [reflexivity|].
  destruct (rstrip_by_fixed_inv _ _ _ Hu) as [[-> Hc]|[Hne Hu']].
  - simpl. rewrite Hc. simpl. rewrite Hc. reflexivity.
  - pose proof (collapse_ws_nonempty u Hu' Hne) as Hnz.
    simpl. destruct (pl_isspace c).
    + destruct b; [apply IH; exact Hu'|].
      apply rstrip_by_cons_fixed; [apply IH; exact Hu'|apply Hnz].
    + apply rstrip_by_cons_fixed; [apply IH; exact Hu'|apply Hnz].
Qed.

(** X9. The title the normalization writes, [.str.strip()] followed by
    [.str.replace_all(r'\s+', ' ')], has no white space but single spaces,
    none of them at either end; cleaning it once more changes nothing. *)
Theorem title_cleanup :
  forall s : string,
    single_spaced false (replace_all_ws (pl_strip s)) = true /\
    pl_strip (replace_all_ws (pl_strip s)) = replace_all_ws (pl_strip s) /\
    replace_all_ws (pl_strip (replace_all_ws (pl_strip s))) = replace_all_ws (pl_strip s).
Proof.
  intros s.
  assert (single_spaced false (replace_all_ws (pl_strip s)) = true) as Hsingle
    by apply collapse_ws_single_spaced.
  assert (pl_strip (replace_all_ws (pl_strip s)) = replace_all_ws (pl_strip s)) as Hstrip.
  { unfold pl_strip at 1.
    assert (lstrip_by pl_isspace (replace_all_ws (pl_strip s)) = replace_all_ws (pl_strip s))
      as ->.
    { unfold pl_strip. destruct (lstrip_by pl_isspace s) as [|c r] eqn:E; [reflexivity|].
      pose proof (lstrip_by_head _ _ _ _ E) as Hc.
      rewrite (rstrip_by_head _ c r Hc). unfold replace_all_ws. simpl.
      rewrite Hc. simpl. rewrite Hc. reflexivity. }
    apply collapse_ws_keeps_end. unfold pl_strip. apply rstrip_by_idem. }
  split; [exact Hsingle|]. split; [exact Hstrip|].
  rewrite Hstrip. apply collapse_ws_fixed. exact Hsingle.
Qed.

Example title_cleanup_sample :
  replace_all_ws (pl_strip "  Proyecto   de
   resolucion  ") = "Proyecto de resolucion".
Proof. vm_compute. reflexivity. Qed.

(** ** The statistics written with the CSV *)

Lemma date_ltb_iff (a b : Date) :
  date_ltb a b = true <->
  (year a < year b \/
   (year a = year b /\ (month a < month b \/ (month a = month b /\ day a < day b)))).
Proof.
  unfold date_ltb.
  rewrite !orb_true_iff, !andb_true_iff, !orb_true_iff, !andb_true_iff,
          !Nat.ltb_lt, !Nat.eqb_eq.
  tauto.
Qed.

Lemma date_leb_iff (a b : Date) :
  date_leb a b = true <->
  (year a < year b \/
   (year a = year b /\ (month a < month b \/ (month a = month b /\ day a <= day b)))).
Proof.
  unfold date_leb. rewrite negb_true_iff.
  destruct (date_ltb b a) eqn:E.
  - apply date_ltb_iff in E. split; [discriminate|]. lia.
  - split; [intros _|reflexivity].
    assert (~ (year b < year a \/
               (year b = year a /\
                (month b < month a \/ (month b = month a /\ day b < day a))))) as Hn.
    { intros H. apply date_ltb_iff in H. congruence. }
    lia.
Qed.

Lemma date_leb_refl (a : Date) : date_leb a a = true.
Proof. apply date_leb_iff. lia. Qed.

Lemma date_leb_trans (a b c : Date) :
  date_leb a b = true -> date_leb b c = true -> date_leb a c = true.
Proof. rewrite !date_leb_iff. lia. Qed.

Lemma date_min_spec (a b : Date) :
  date_leb (date_min a b) a = true /\ date_leb (date_min a b) b = true /\
  (date_min a b = a \/ date_min a b = b).
Proof.
  unfold date_min. destruct (date_ltb b a) eqn:E.
  - split; [|split; [apply date_leb_refl|auto]].
    apply date_leb_iff. apply date_ltb_iff in E. lia.
  - split; [apply date_leb_refl|]. split; [|auto].
    unfold date_leb. rewrite E. reflexivity.
Qed.

Lemma date_max_spec (a b : Date) :
  date_leb a (date_max a b) = true /\ date_leb b (date_max a b) = true /\
  (date_max a b = a \/ date_max a b = b).
Proof.
  unfold date_max. destruct (date_ltb a b) eqn:E.
  - split; [|split; [apply date_leb_refl|auto]].
    apply date_leb_iff. apply date_ltb_iff in E. lia.
  - split; [apply date_leb_refl|]. split; [|auto].
    unfold date_leb. rewrite E. reflexivity.
Qed.

(** The least date of a column is one of its dates and is below them all. *)
Lemma series_min_spec (col : Series) (x : Date) :
  series_extreme date_min col = Some x ->
  In (VDate x) col /\ forall d, In (VDate d) col -> date_leb x d = true.
Proof.
  revert x. induction col as [|c col IH]; intros x H; simpl in H; [discriminate|].
  destruct c as [s|z|d0|t|];
    try (destruct (IH x H) as [Hin Hle]; split;
         [right; exact Hin|intros d [Hd|Hd]; [discriminate|exact (Hle d Hd)]]).
  destruct (series_extreme date_min col) as [m|] eqn:E.
  - injection H as <-. destruct (IH m eq_refl) as [Hin Hle].
    destruct (date_min_spec d0 m) as [H1 [H2 [Hc|Hc]]].
    + split; [left; rewrite Hc; reflexivity|].
      intros d [Hd|Hd]; [injection Hd as <-; exact H1|].
      exact (date_leb_trans _ _ _ H2 (Hle d Hd)).
    + split; [right; rewrite Hc; exact Hin|].
      intros d [Hd|Hd]; [injection Hd as <-; exact H1|].
      exact (date_leb_trans _ _ _ H2 (Hle d Hd)).
  - injection H as <-. split; [left; reflexivity|].
    intros d [Hd|Hd]; [injection Hd as <-; apply date_leb_refl|].
    exfalso. clear IH. induction col as [|c col IHc]; [destruct Hd|].
    simpl in E. destruct Hd as [->|Hd].
    + destruct (series_extreme date_min col); discriminate.
    + apply IHc; [|exact Hd].
      destruct c; try exact E. destruct (series_extreme date_min col); discriminate.
Qed.

(** The greatest date of a column is one of its dates and is above them all. *)
Lemma series_max_spec (col : Series) (x : Date) :
  series_extreme date_max col = Some x ->
  In (VDate x) col /\ forall d, In (VDate d) col -> date_leb d x = true.
Proof.
  revert x. induction col as [|c col IH]; intros x H; simpl in H; [discriminate|].
  destruct c as [s|z|d0|t|];
    try (destruct (IH x H) as [Hin Hle]; split;
         [right; exact Hin|intros d [Hd|Hd]; [discriminate|exact (Hle d Hd)]]).
  destruct (series_extreme date_max col) as [m|] eqn:E.
  - injection H as <-. destruct (IH m eq_refl) as [Hin Hle].
    destruct (date_max_spec d0 m) as [H1 [H2 [Hc|Hc]]].
    + split; [left; rewrite Hc; reflexivity|].
      intros d [Hd|Hd]; [injection Hd as <-; exact H1|].
      exact (date_leb_trans _ _ _ (Hle d Hd) H2).
    + split; [right; rewrite Hc; exact Hin|].
      intros d [Hd|Hd]; [injection Hd as <-; exact H1|].
      exact (date_leb_trans _ _ _ (Hle d Hd) H2).
  - injection H as <-. split; [left; reflexivity|].
    intros d [Hd|Hd]; [injection Hd as <-; apply date_leb_refl|].
    exfalso. clear IH. induction col as [|c col IHc]; [destruct Hd|].
    simpl in E. destruct Hd as [->|Hd].
    + destruct (series_extreme date_max col); discriminate.
    + apply IHc; [|exact Hd].
      destruct c; try exact E. destruct (series_extreme date_max col); discriminate.
Qed.

Lemma series_extreme_some (pick : Date -> Date -> Date) (col : Series) (d : Date) :
  In (VDate d) col -> series_extreme pick col <> None.
Proof.
  induction col as [|c col IH]; intros Hin; [destruct Hin|].
  simpl. destruct Hin as [->|Hin].
  - destruct (series_extreme pick col); discriminate.
  - destruct c; try (apply IH; exact Hin).
    destruct (series_extreme pick col); discriminate.
Qed.

Lemma date_cell_in {pl_strptime : DateReader} (l : list Normativa) (d : Date) :
  In (VDate d) (map (fun n => date_cell pl_strptime (fecha_publicacion n)) l) <->
  exists n, In n l /\ pl_strptime (fecha_publicacion n) = Some d.
Proof.
  rewrite in_map_iff. unfold date_cell. split.
  - intros [n [Hc Hn]]. exists n. split; [exact Hn|].
    destruct (pl_strptime (fecha_publicacion n)); [congruence|discriminate].
  - intros [n [Hn Hd]]. exists n. rewrite Hd. auto.
Qed.

(** The statistics of the frame of accepted records. *)
Lemma compute_stats_normalized {pl_strptime : DateReader} (now : Z) (l : list Normativa) :
  l <> [] -> forallb (normalizable pl_strptime) l = true ->
  exists lo hi,
    compute_stats (normalized_frame pl_strptime now l)
    = Some (mkStats (List.length l) (strftime_iso lo) (strftime_iso hi)) /\
    (exists n, In n l /\ pl_strptime (fecha_publicacion n) = Some lo) /\
    (exists n, In n l /\ pl_strptime (fecha_publicacion n) = Some hi) /\
    (forall n d, In n l -> pl_strptime (fecha_publicacion n) = Some d ->
                 date_leb lo d = true /\ date_leb d hi = true).
Proof.
  intros Hne Hn.
  assert (exists d0, In (VDate d0) (map (fun n => date_cell pl_strptime (fecha_publicacion n)) l))
    as [d0 Hd0].
  { destruct l as [|n l]; [congruence|].
    simpl in Hn. apply andb_true_iff in Hn as [Hn _]. unfold normalizable in Hn.
    destruct (pl_strptime (fecha_publicacion n)) as [d|] eqn:E; [|discriminate].
    exists d. left. unfold date_cell. rewrite E. reflexivity. }
  unfold compute_stats. cbn [normalized_frame df_column String.eqb Ascii.eqb Bool.eqb].
  destruct (series_extreme date_min _) as [lo|] eqn:Elo;
    [|exfalso; exact (series_extreme_some _ _ _ Hd0 Elo)].
  destruct (series_extreme date_max _) as [hi|] eqn:Ehi;
    [|exfalso; exact (series_extreme_some _ _ _ Hd0 Ehi)].
  destruct (series_min_spec _ _ Elo) as [Hlo Hlo'].
  destruct (series_max_spec _ _ Ehi) as [Hhi Hhi'].
  exists lo, hi. split.
  - f_equal. f_equal. simpl. apply length_map.
  - split; [apply date_cell_in; exact Hlo|]. split; [apply date_cell_in; exact Hhi|].
    intros n d Hin Hd.
    assert (In (VDate d) (map (fun n => date_cell pl_strptime (fecha_publicacion n)) l)) as Hc
      by (apply date_cell_in; eauto).
    split; [apply Hlo'; exact Hc|apply Hhi'; exact Hc].
Qed.

(** X10. When the records are accepted, [save_to_csv] writes the CSV and
    then the statistics, and [json_to_csv] writes the same two files.  The
    statistics count one per record, and the date range they give is taken
    from the publication dates of the records: its two ends are the dates of
    some records, and the date of every record lies between them. *)
Theorem csv_statistics (pl_strptime : DateReader) :
  forall (now : Z) (data : list Normativa),
    data <> [] ->
    forallb (normalizable pl_strptime) data = true ->
    exists lo hi,
      save_to_csv pl_strptime now data
      = (Returned tt,
         [ CallTransform data;
           WriteCsv (normalized_frame pl_strptime now data);
           WriteStats (mkStats (List.length data) (strftime_iso lo) (strftime_iso hi)) ]) /\
      json_to_csv pl_strptime now data
      = (Returned tt,
         [ WriteCsv (normalized_frame pl_strptime now data);
           WriteStats (mkStats (List.length data) (strftime_iso lo) (strftime_iso hi)) ]) /\
      (exists n, In n data /\ pl_strptime (fecha_publicacion n) = Some lo) /\
      (exists n, In n data /\ pl_strptime (fecha_publicacion n) = Some hi) /\
      (forall n d, In n data -> pl_strptime (fecha_publicacion n) = Some d ->
                   date_leb lo d = true /\ date_leb d hi = true).
Proof.
  intros now data Hne Hn.
  destruct (compute_stats_normalized now data Hne Hn) as [lo [hi [Hs [Hlo [Hhi Hall]]]]].
  exists lo, hi.
  split.
  { unfold save_to_csv. rewrite (transform_data_normalizable now data Hne Hn).
    unfold write_csv_and_stats. rewrite Hs. destruct data; [congruence|reflexivity]. }
  split.
  { unfold json_to_csv.
    change (json_to_csv_frame pl_strptime now data) with (transform_frame pl_strptime now data).
    rewrite (transform_frame_returned now data Hn).
    unfold write_csv_and_stats. rewrite Hs. destruct data; [congruence|reflexivity]. }
  split; [exact Hlo|]. split; [exact Hhi|exact Hall].
Qed.

Lemma csv_statistics_witness :
  exists lo hi,
    save_to_csv strptime_dmy 0 sample_duplicates
    = (Returned tt,
       [ CallTransform sample_duplicates;
         WriteCsv (normalized_frame strptime_dmy 0 sample_duplicates);
         WriteStats (mkStats (List.length sample_duplicates)
                       (strftime_iso lo) (strftime_iso hi)) ]).
Proof.
  destruct (csv_statistics strptime_dmy 0%Z sample_duplicates) as [lo [hi [Hs _]]].
  - discriminate.
  - vm_compute. reflexivity.
  - exists lo, hi. exact Hs.
Defined.

(** ** The run as a whole *)

(** X11. A run never raises and always closes the browser at its end.  What
    it does before that is one of three things: nothing, when no content or
    no record was obtained; the raw dump alone, when some record is not
    accepted by the normalization (a date the library does not read, or a
    count beyond 32 bits); the raw dump, then the CSV, then the
    statistics.  The CSV is thus never written without the dump before it,
    and the records of the dump are not empty and have pairwise distinct
    urls. *)
Theorem run_outcome (pl_strptime : DateReader) :
  forall (now : Z) (w : World),
    run pl_strptime now w = (Returned tt, [DriverQuit]) \/
    exists normativas,
      normativas <> [] /\ NoDup (urls normativas) /\
      ((forallb (normalizable pl_strptime) normativas = false /\
        run pl_strptime now w
        = (Returned tt, [WriteJson normativas; CallTransform normativas; DriverQuit])) \/
       (forallb (normalizable pl_strptime) normativas = true /\
        exists st,
          run pl_strptime now w
          = (Returned tt,
             [ WriteJson normativas; CallTransform normativas;
               WriteCsv (normalized_frame pl_strptime now normativas);
               WriteStats st; DriverQuit ]))).
Proof.
  intros now w. unfold run.
  destruct (get_page_content w) as [[content w'] evs].
  unfold run_from_content.
  destruct content as [[|src sources]|]; [left; reflexivity| |left; reflexivity].
  pose proof (parse_normativa_NoDup (join_sources (src :: sources))) as Hnd.
  destruct (parse_normativa (join_sources (src :: sources))) as [|n l] eqn:Hp;
    [left; reflexivity|].
  right. exists (n :: l). split; [discriminate|]. split; [exact Hnd|].
  destruct (forallb (normalizable pl_strptime) (n :: l)) eqn:Hn.
  - right. split; [reflexivity|].
    destruct (@compute_stats_normalized pl_strptime now (n :: l)) as [lo [hi [Hs _]]];
      [discriminate|exact Hn|].
    eexists. unfold save_to_csv.
    rewrite (@transform_data_normalizable pl_strptime now (n :: l)) by (try discriminate; exact Hn).
    unfold write_csv_and_stats. rewrite Hs. reflexivity.
  - left. split; [reflexivity|]. unfold save_to_csv.
    rewrite (transform_data_not_normalizable now (n :: l) Hn). reflexivity.
Qed.

Example run_two_pages :
  exists st,
    run strptime_dmy 0
      [mkSession None false true calm []; mkSession None true true calm [sample_page1; sample_page2]]
    = (Returned tt,
       [ WriteJson (parse_normativa (join_sources [sample_page1; sample_page2]));
         CallTransform (parse_normativa (join_sources [sample_page1; sample_page2]));
         WriteCsv (normalized_frame strptime_dmy 0
                     (parse_normativa (join_sources [sample_page1; sample_page2])));
         WriteStats st; DriverQuit ]) /\
    st = mkStats 3 "2024-03-05" "2024-03-07".
Proof. eexists. split; vm_compute; reflexivity. Qed.

(** ** The constructor on every combination of bounds *)

(** X12. The constructor checks the dates only when both bounds are given
    and not empty.  Then it raises [ValueError], before any set-up step and
    with the message prefixed by "Error en el formato de fechas: ", exactly
    when [datetime.strptime] rejects one of the two texts or the start is
    after the end; a day of one digit written after a space is read.
    With a bound missing or empty nothing is checked, whatever the other
    bound is: the set-up steps are reached and the crawler keeps the four
    values as given. *)
Theorem init_outcome :
  forall (estado tipo_documento fecha_inicio fecha_fin : option string) (driver_ok : bool),
    let built :=
      if driver_ok
      then (Returned (mkCrawler estado tipo_documento fecha_inicio fecha_fin
                        "https://www.sucop.gov.co/busqueda?pageSize=100"),
            [SetupLogging; SetupDriver])
      else (Raised (RendererError "No se pudo inicializar el driver de Edge"),
            [SetupLogging; SetupDriver]) in
    (truthy fecha_inicio && truthy fecha_fin = false ->
     init estado tipo_documento fecha_inicio fecha_fin driver_ok = built) /\
    (forall fi ff,
        fecha_inicio = Some fi -> fecha_fin = Some ff ->
        truthy fecha_inicio && truthy fecha_fin = true ->
        (range_ok fi ff = true ->
         init estado tipo_documento fecha_inicio fecha_fin driver_ok = built) /\
        (range_ok fi ff = false ->
         exists msg,
           init estado tipo_documento fecha_inicio fecha_fin driver_ok
           = (Raised (ValueError ("Error en el formato de fechas: " ++ msg)%string), []))).
Proof.
  intros estado tipo_documento fecha_inicio fecha_fin driver_ok built. split.
  - intros Hf. unfold init.
    destruct fecha_inicio as [fi|], fecha_fin as [ff|]; try reflexivity.
    rewrite Hf. reflexivity.
  - intros fi ff -> -> Ht. unfold init. rewrite Ht.
    unfold range_ok, validate_fechas, py_strptime.
    destruct (py_strptime_dmy fi) as [inicio|]; simpl.
    + destruct (py_strptime_dmy ff) as [fin|]; simpl.
      * unfold date_leb. destruct (date_ltb fin inicio); simpl.
        -- split; [discriminate|]. intros _. eexists. reflexivity.
        -- split; [reflexivity|discriminate].
      * split; [discriminate|]. intros _. eexists. reflexivity.
    + split; [discriminate|]. intros _. eexists. reflexivity.
Qed.

Lemma init_outcome_witness :
  exists msg,
    init None None (Some "31/02/2024") (Some "01/03/2024") true
    = (Raised (ValueError ("Error en el formato de fechas: " ++ msg)%string), []).
Proof.
  apply (proj2 (init_outcome None None (Some "31/02/2024") (Some "01/03/2024") true)
           "31/02/2024" "01/03/2024" eq_refl eq_refl eq_refl).
  reflexivity.
Defined.

(** A day of one digit written after a space is read by Python, and the
    crawler is built. *)
Example init_space_padded_day :
  strptime_dmy " 5/03/2024" = None /\
  py_strptime_dmy " 5/03/2024" = Some (mkDate 2024 3 5) /\
  fst (init None None (Some " 5/03/2024") (Some "06/03/2024") true)
  = Returned (mkCrawler None None (Some " 5/03/2024") (Some "06/03/2024")
                "https://www.sucop.gov.co/busqueda?pageSize=100") /\
  py_strptime_dmy "05/03/24" = None /\
  py_strptime_dmy " 05/03/2024" = None /\
  py_strptime_dmy "05/03/2024 " = None.
Proof. repeat split; vm_compute; reflexivity. Qed.

Example init_one_bound_unchecked :
  fst (init None None (Some "no es fecha") None true)
  = Returned (mkCrawler None None (Some "no es fecha") None
                "https://www.sucop.gov.co/busqueda?pageSize=100").
Proof. reflexivity. Qed.

(** ** The filters asked on the console *)

Lemma pedir_opcion_answer (opciones inputs : list string) :
  forall r rest,
    pedir_opcion opciones inputs = Answered r rest ->
    r = None \/ exists o, r = Some o /\ In o opciones.
Proof.
  induction inputs as [|line inputs IH]; intros r rest H; simpl in H; [discriminate|].
  destruct (strip line) as [|c s].
  - injection H as <- _. left. reflexivity.
  - destruct (py_int (String c s)) as [v|]; [|exact (IH _ _ H)].
    destruct ((0 <=? v - 1) && (v - 1 <? Z.of_nat (List.length opciones)))%Z;
      [|exact (IH _ _ H)].
    destruct (nth_error opciones (Z.to_nat (v - 1))) as [o|] eqn:Hn; [|exact (IH _ _ H)].
    injection H as <- _. right. exists o. split; [reflexivity|].
    exact (nth_error_In _ _ Hn).
Qed.

(** The loop over the dates, two lines at a time. *)
Lemma pedir_fechas_answer (n : nat) :
  forall inputs fi ff rest,
    List.length inputs <= n ->
    pedir_fechas inputs = Answered (fi, ff) rest ->
    (fi = None /\ ff = None) \/
    exists a b,
      fi = Some a /\ ff = Some b /\ truthy fi && truthy ff = true /\ range_ok a b = true /\
      py_strptime_dmy a = strptime_dmy a /\ py_strptime_dmy b = strptime_dmy b.
Proof.
  induction n as [|n IH]; intros inputs fi ff rest Hlen H.
  - destruct inputs; [discriminate|simpl in Hlen; lia].
  - destruct inputs as [|line1 rest1]; [discriminate|]. simpl in H.
    destruct (strip line1) as [|c1 s1] eqn:H1.
    { injection H as <- <- _. left. auto. }
    destruct rest1 as [|line2 rest2]; [discriminate|].
    destruct (strip line2) as [|c2 s2] eqn:H2.
    { injection H as <- <- _. left. auto. }
    assert (List.length rest2 <= n) as Hlen' by (simpl in Hlen; lia).
    destruct (py_strptime_dmy (String c1 s1)) as [inicio|] eqn:Hi;
      [|exact (IH _ _ _ _ Hlen' H)].
    destruct (py_strptime_dmy (String c2 s2)) as [fin|] eqn:Hf;
      [|exact (IH _ _ _ _ Hlen' H)].
    destruct (date_leb inicio fin) eqn:Hle; [|exact (IH _ _ _ _ Hlen' H)].
    injection H as <- <- _. right. exists (String c1 s1), (String c2 s2).
    split; [reflexivity|]. split; [reflexivity|]. split; [reflexivity|].
    split; [unfold range_ok; rewrite Hi, Hf; exact Hle|].
    split; apply py_strptime_dmy_head; eapply strip_head; eassumption.
Qed.

(** X13. Whatever is typed, the filters [solicitar_filtros] returns are
    well formed: the status is omitted or one of [ESTADOS_VALIDOS], the
    document type is omitted or one of [TIPOS_DOCUMENTO], and the dates are
    both omitted or both given, parsed, with the start not after the end.
    The constructor therefore never rejects them: called with these filters
    it reaches its set-up steps and builds the crawler. *)
Theorem solicitar_filtros_well_formed :
  forall (inputs : list string)
         (estado tipo_documento fecha_inicio fecha_fin : option string)
         (rest : list string),
    solicitar_filtros inputs
    = Answered (estado, tipo_documento, fecha_inicio, fecha_fin) rest ->
    (estado = None \/ exists e, estado = Some e /\ In e ESTADOS_VALIDOS) /\
    (tipo_documento = None \/ exists t, tipo_documento = Some t /\ In t TIPOS_DOCUMENTO) /\
    ((fecha_inicio = None /\ fecha_fin = None) \/
     exists a b inicio fin,
       fecha_inicio = Some a /\ fecha_fin = Some b /\
       strptime_dmy a = Some inicio /\ strptime_dmy b = Some fin /\
       date_leb inicio fin = true) /\
    init estado tipo_documento fecha_inicio fecha_fin true
    = (Returned (mkCrawler estado tipo_documento fecha_inicio fecha_fin
                   "https://www.sucop.gov.co/busqueda?pageSize=100"),
       [SetupLogging; SetupDriver]).
Proof.
  intros inputs estado tipo_documento fecha_inicio fecha_fin rest H.
  unfold solicitar_filtros in H.
  destruct (pedir_opcion ESTADOS_VALIDOS inputs) as [e rest1|] eqn:He; [|discriminate].
  destruct (pedir_opcion TIPOS_DOCUMENTO rest1) as [t rest2|] eqn:Ht; [|discriminate].
  destruct (pedir_fechas rest2) as [[fi ff] rest3|] eqn:Hf; [|discriminate].
  injection H as <- <- <- <- _.
  split; [exact (pedir_opcion_answer _ _ _ _ He)|].
  split; [exact (pedir_opcion_answer _ _ _ _ Ht)|].
  destruct (pedir_fechas_answer _ _ _ _ _ (Nat.le_refl _) Hf)
    as [[-> ->]|[a [b [-> [-> [Htr [Hr [Hpa Hpb]]]]]]]].
  - split; [left; auto|reflexivity].
  - split.
    + right. unfold range_ok in Hr. rewrite Hpa, Hpb in Hr.
      destruct (strptime_dmy a) as [inicio|] eqn:Ha; [|discriminate].
      destruct (strptime_dmy b) as [fin|] eqn:Hb; [|discriminate].
      exists a, b, inicio, fin. auto 6.
    + unfold init. rewrite Htr. unfold validate_fechas, py_strptime.
      unfold range_ok in Hr.
      destruct (py_strptime_dmy a) as [inicio|]; [|discriminate].
      destruct (py_strptime_dmy b) as [fin|]; [|discriminate].
      simpl. unfold date_leb in Hr. apply negb_true_iff in Hr. rewrite Hr. reflexivity.
Qed.

Lemma solicitar_filtros_well_formed_witness :
  (Some "Cerrada" = None \/ exists e, Some "Cerrada" = Some e /\ In e ESTADOS_VALIDOS) /\
  init (Some "Cerrada") None (Some "01/01/2024") (Some "30/06/2024") true
  = (Returned (mkCrawler (Some "Cerrada") None (Some "01/01/2024") (Some "30/06/2024")
                 "https://www.sucop.gov.co/busqueda?pageSize=100"),
     [SetupLogging; SetupDriver]).
Proof.
  destruct (solicitar_filtros_well_formed
              [ "7"; "dos"; " 2 "; ""; "30/06/2024"; "01/01/2024";
                "01/01/2024"; " 30/06/2024 "; "sobra" ]
              (Some "Cerrada") None (Some "01/01/2024") (Some "30/06/2024") ["sobra"])
    as [He [_ [_ Hi]]].
  - vm_compute. reflexivity.
  - split; [exact He|exact Hi].
Defined.

Example solicitar_filtros_end_of_input :
  solicitar_filtros ["1"; "3"; "15/01/2024"] = EndOfInput.
Proof. vm_compute. reflexivity. Qed.

(** ** Selecting an option *)

Lemma first_matching_spec (option_text : string) (options : list string) :
  forall start i,
    first_matching option_text options start = Some i ->
    start <= i /\
    exists o,
      nth_error options (i - start) = Some o /\
      contains (lower option_text) (lower o) = true /\
      forall j o', j < i - start -> nth_error options j = Some o' ->
                   contains (lower option_text) (lower o') = false.
Proof.
  induction options as [|o options IH]; intros start i H; simpl in H; [discriminate|].
  destruct (contains (lower option_text) (lower o)) eqn:Hc.
  - injection H as <-. split; [lia|]. rewrite Nat.sub_diag. exists o.
    split; [reflexivity|]. split; [exact Hc|]. intros j o' Hj. lia.
  - destruct (IH _ _ H) as [Hle [o1 [Hn [Hm Hbefore]]]].
    split; [lia|]. exists o1.
    replace (i - start) with (S (i - S start)) by lia.
    split; [exact Hn|]. split; [exact Hm|].
    intros j o' Hj Hj'. destruct j as [|j].
    + injection Hj' as <-. exact Hc.
    + apply (Hbefore j o'); [lia|exact Hj'].
Qed.

Lemma first_matching_none (option_text : string) (options : list string) :
  forall start,
    first_matching option_text options start = None ->
    forall o, In o options -> contains (lower option_text) (lower o) = false.
Proof.
  induction options as [|o options IH]; intros start H o' Hin; [destruct Hin|].
  simpl in H. destruct (contains (lower option_text) (lower o)) eqn:Hc; [discriminate|].
  destruct Hin as [<-|Hin]; [exact Hc|exact (IH _ H _ Hin)].
Qed.

(** X14. [wait_and_select] answers [True] exactly when the select is
    present and one of its options contains the searched text, letter case
    apart; the option it clicks is then the first such option, which need not
    be equal to the text.  It answers [False], and clicks nothing, when the
    select does not appear, has no option, or has no option containing the
    text. *)
Theorem wait_and_select_first_containing :
  forall (select_element : option (list string)) (option_text : string),
    (fst (wait_and_select select_element option_text) = true <->
     exists options o,
       select_element = Some options /\ In o options /\
       contains (lower option_text) (lower o) = true) /\
    (fst (wait_and_select select_element option_text) = false <->
     snd (wait_and_select select_element option_text) = None) /\
    (forall i,
        snd (wait_and_select select_element option_text) = Some i ->
        exists options o,
          select_element = Some options /\
          nth_error options i = Some o /\
          contains (lower option_text) (lower o) = true /\
          forall j o', j < i -> nth_error options j = Some o' ->
                       contains (lower option_text) (lower o') = false).
Proof.
  intros select_element option_text.
  destruct select_element as [options|].
  2:{ simpl. split; [|split].
      - split; [discriminate|]. intros [options [o [H _]]]. discriminate.
      - tauto.
      - discriminate. }
  assert (wait_and_select (Some options) option_text
          = match first_matching option_text options 0 with
            | Some i => (true, Some i)
            | None => (false, None)
            end) as ->.
  { destruct options; reflexivity. }
  destruct (first_matching option_text options 0) as [i|] eqn:Hf; simpl.
  - destruct (first_matching_spec _ _ _ _ Hf) as [_ [o [Hn [Hc Hb]]]].
    rewrite Nat.sub_0_r in Hn, Hb.
    split; [|split].
    + split; [|reflexivity]. intros _. exists options, o.
      split; [reflexivity|]. split; [exact (nth_error_In _ _ Hn)|exact Hc].
    + split; discriminate.
    + intros i' Hi. injection Hi as <-. exists options, o. auto.
  - split; [|split].
    + split; [discriminate|]. intros [options' [o [Ho [Hin Hc]]]].
      injection Ho as <-. rewrite (first_matching_none _ _ _ Hf o Hin) in Hc. discriminate.
    + tauto.
    + discriminate.
Qed.

Lemma wait_and_select_first_containing_witness :
  exists options o,
    Some ["Seleccione"; "Sector AGROPECUARIO y Rural"; "Agropecuario"] = Some options /\
    nth_error options 1 = Some o /\
    contains (lower "Agropecuario") (lower o) = true.
Proof.
  destruct (proj2 (proj2 (wait_and_select_first_containing
              (Some ["Seleccione"; "Sector AGROPECUARIO y Rural"; "Agropecuario"])
              "Agropecuario")) 1 eq_refl) as [options [o [Ho [Hn [Hc _]]]]].
  exists options, o. auto.
Defined.

(** ** The dimension tables *)

Lemma string_ltb_lts (a b : string) :
  String.ltb a b = true <-> OrderedTypeEx.String_as_OT.lt a b.
Proof.
  unfold String.ltb. rewrite <- OrderedTypeEx.String_as_OT.cmp_lt.
  unfold OrderedTypeEx.String_as_OT.cmp.
  destruct (String.compare a b); split; congruence.
Qed.

Lemma string_ltb_trans (a b c : string) :
  String.ltb a b = true -> String.ltb b c = true -> String.ltb a c = true.
Proof.
  rewrite !string_ltb_lts. apply OrderedTypeEx.String_as_OT.lt_trans.
Qed.

Lemma string_ltb_irrefl (a : string) : String.ltb a a = false.
Proof.
  destruct (String.ltb a a) eqn:E; [|reflexivity].
  apply string_ltb_lts in E.
  exfalso. exact (OrderedTypeEx.String_as_OT.lt_not_eq _ _ E eq_refl).
Qed.

Lemma string_compare_gt (a b : string) :
  String.compare a b = Gt -> String.ltb b a = true.
Proof.
  intros H. unfold String.ltb. rewrite String.compare_antisym, H. reflexivity.
Qed.

Lemma string_compare_lt (a b : string) :
  String.compare a b = Lt -> String.ltb a b = true.
Proof. intros H. unfold String.ltb. rewrite H. reflexivity. Qed.

Lemma insert_sorted_in (x : string) (l : list string) :
  forall y, In y (insert_sorted x l) <-> y = x \/ In y l.
Proof.
  induction l as [|a l IH]; intros y; simpl; [intuition congruence|].
  destruct (String.compare x a) eqn:E.
  - apply String.compare_eq_iff in E. subst. simpl. intuition congruence.
  - simpl. intuition congruence.
  - simpl. rewrite IH. intuition congruence.
Qed.

Lemma insert_sorted_increasing (x : string) (l : list string) :
  increasing l -> increasing (insert_sorted x l).
Proof.
  unfold increasing. induction l as [|a l IH]; intros Hs; simpl.
  - constructor; constructor.
  - inversion Hs as [|? ? Hl Ha]; subst.
    destruct (String.compare x a) eqn:E.
    + exact Hs.
    + apply string_compare_lt in E.
      constructor; [exact Hs|]. constructor; [exact E|].
      apply Forall_forall. intros y Hy. rewrite Forall_forall in Ha.
      exact (string_ltb_trans _ _ _ E (Ha y Hy)).
    + constructor; [apply IH; exact Hl|].
      apply Forall_forall. intros y Hy. apply insert_sorted_in in Hy as [->|Hy].
      * apply string_compare_gt, E.
      * rewrite Forall_forall in Ha. exact (Ha y Hy).
Qed.

Lemma sorted_set_in (l : list string) :
  forall y, In y (sorted_set l) <-> In y l.
Proof.
  induction l as [|a l IH]; intros y; simpl; [tauto|].
  rewrite insert_sorted_in, IH. intuition congruence.
Qed.

Lemma sorted_set_increasing (l : list string) : increasing (sorted_set l).
Proof.
  induction l as [|a l IH]; simpl; [constructor|].
  apply insert_sorted_increasing, IH.
Qed.

Lemma increasing_NoDup (l : list string) : increasing l -> NoDup l.
Proof.
  unfold increasing. induction 1 as [|a l Hl IH Ha]; constructor; [|exact IH].
  intros Hin. rewrite Forall_forall in Ha. specialize (Ha a Hin).
  rewrite string_ltb_irrefl in Ha. discriminate.
Qed.

Lemma numbered_fst {A : Type} (l : list A) :
  map fst (numbered l) = seq 1 (List.length l).
Proof.
  unfold numbered. generalize 1. induction l as [|a l IH]; intros s; simpl; [reflexivity|].
  rewrite IH. reflexivity.
Qed.

Lemma numbered_snd {A : Type} (l : list A) : map snd (numbered l) = l.
Proof.
  unfold numbered. generalize 1. induction l as [|a l IH]; intros s; simpl; [reflexivity|].
  rewrite IH. reflexivity.
Qed.

Lemma numbered_length {A : Type} (l : list A) : List.length (numbered l) = List.length l.
Proof. rewrite <- (length_map fst), numbered_fst, length_seq. reflexivity. Qed.

Lemma numbered_id_range {A : Type} (l : list A) (id : nat) (a : A) :
  In (id, a) (numbered l) -> 1 <= id <= List.length l.
Proof.
  intros H. apply in_combine_l in H. apply in_seq in H. lia.
Qed.

Lemma dict_fold_absent (key : string) (rows : list (nat * string)) :
  forall found,
    ~ In key (map snd rows) ->
    fold_left (fun found row => if String.eqb (snd row) key then Some (fst row) else found)
              rows found = found.
Proof.
  induction rows as [|row rows IH]; intros found Hn; simpl; [reflexivity|].
  simpl in Hn. destruct (String.eqb (snd row) key) eqn:E.
  - apply String.eqb_eq in E. exfalso. apply Hn. left. exact E.
  - apply IH. intros H. apply Hn. right. exact H.
Qed.

Lemma dict_fold_present (key : string) (id : nat) (rows : list (nat * string)) :
  forall found,
    NoDup (map snd rows) -> In (id, key) rows ->
    fold_left (fun found row => if String.eqb (snd row) key then Some (fst row) else found)
              rows found = Some id.
Proof.
  induction rows as [|row rows IH]; intros found Hnd Hin; [destruct Hin|].
  simpl in Hnd. inversion Hnd as [|? ? Hnot Hnd']; subst. simpl.
  destruct Hin as [->|Hin].
  - simpl. rewrite String.eqb_refl. apply dict_fold_absent. exact Hnot.
  - apply IH; assumption.
Qed.

(** In a table numbered over distinct keys every key is found, under the id
    of its row. *)
Lemma dict_get_numbered (l : list string) (key : string) :
  NoDup l -> In key l ->
  exists id, dict_get key (numbered l) = Some id /\ In (id, key) (numbered l) /\
             1 <= id <= List.length l.
Proof.
  intros Hnd Hin.
  assert (In key (map snd (numbered l))) as Hk by (rewrite numbered_snd; exact Hin).
  apply in_map_iff in Hk as [[id k] [Hk Hrow]]. simpl in Hk. subst k.
  exists id. split; [|split; [exact Hrow|exact (numbered_id_range _ _ _ Hrow)]].
  apply dict_fold_present; [rewrite numbered_snd; exact Hnd|exact Hrow].
Qed.

(** X15. [Dim_Estado] lists every status of the records once, in increasing
    order of the text, with the ids 1, 2, ... in that order; and the
    dictionary built from it finds the status of every record, under the id
    of the row that holds it. *)
Theorem dim_estados_table :
  forall normativas : list Normativa,
    map fst (dim_estados normativas) = seq 1 (List.length (dim_estados normativas)) /\
    increasing (map snd (dim_estados normativas)) /\
    NoDup (map snd (dim_estados normativas)) /\
    (forall e, In e (map snd (dim_estados normativas)) <->
               exists n, In n normativas /\ estado n = e) /\
    (forall n, In n normativas ->
               exists id,
                 dict_get (estado n) (dim_estados normativas) = Some id /\
                 In (id, estado n) (dim_estados normativas) /\
                 1 <= id <= List.length (dim_estados normativas)).
Proof.
  intros normativas. unfold dim_estados.
  rewrite numbered_snd, numbered_fst, numbered_length.
  pose proof (sorted_set_increasing (map estado normativas)) as Hinc.
  split; [reflexivity|]. split; [exact Hinc|].
  split; [exact (increasing_NoDup _ Hinc)|]. split.
  - intros e. rewrite sorted_set_in, in_map_iff.
    split; intros [n [H1 H2]]; exists n; auto.
  - intros n Hn. apply dict_get_numbered; [exact (increasing_NoDup _ Hinc)|].
    apply sorted_set_in, in_map. exact Hn.
Qed.

Lemma dim_estados_table_witness :
  exists id,
    dict_get (estado sample_record) (dim_estados sample_duplicates) = Some id /\
    In (id, estado sample_record) (dim_estados sample_duplicates) /\
    1 <= id <= List.length (dim_estados sample_duplicates).
Proof.
  apply (proj2 (proj2 (proj2 (proj2 (dim_estados_table sample_duplicates))))).
  simpl. auto.
Defined.

Example dim_estados_sample :
  dim_estados sample_duplicates = [(1, "Activa"); (2, "Cerrada")].
Proof. vm_compute. reflexivity. Qed.

(** ** The time table and the fact table *)

Lemma strptime_dmy_valid (s : string) (d : Date) :
  strptime_dmy s = Some d -> valid_date (year d) (month d) (day d) = true.
Proof.
  unfold strptime_dmy.
  destruct (split_on "/" s) as [|a [|b [|c [|x l]]]]; try discriminate.
  destruct (num_field 1 2 a) as [dd|]; [|discriminate].
  destruct (num_field 1 2 b) as [m|]; [|discriminate].
  destruct (num_field 4 4 c) as [y|]; [|discriminate].
  destruct (valid_date y m dd) eqn:E; [|discriminate].
  intros H. injection H as <-. exact E.
Qed.

Lemma py_strptime_dmy_valid (s : string) (d : Date) :
  py_strptime_dmy s = Some d -> valid_date (year d) (month d) (day d) = true.
Proof.
  intros H. destruct (py_strptime_dmy_digits s d H) as [Hs|[r [_ Hr]]];
    eapply strptime_dmy_valid; eassumption.
Qed.

Lemma valid_date_month (y m d : nat) : valid_date y m d = true -> 1 <= m <= 12.
Proof.
  unfold valid_date. intros H.
  repeat (apply andb_true_iff in H as [H ?]).
  apply Nat.leb_le in H2, H3. lia.
Qed.

Lemma trimestre_of_quarter (m : nat) :
  1 <= m <= 12 -> In (trimestre_of m) ["Q1"; "Q2"; "Q3"; "Q4"].
Proof.
  intros Hm.
  assert (m = 1 \/ m = 2 \/ m = 3 \/ m = 4 \/ m = 5 \/ m = 6 \/
          m = 7 \/ m = 8 \/ m = 9 \/ m = 10 \/ m = 11 \/ m = 12) as H by lia.
  repeat (destruct H as [->|H]; [vm_compute; auto 6|]).
  subst m. vm_compute. auto 6.
Qed.

Lemma tiempo_rows_ok (fechas : list string) :
  forall id,
    forallb parses fechas = true ->
    exists rows,
      tiempo_rows id fechas = BiOk rows /\
      map (fun r => (fecha_id r, fecha r)) rows
      = combine (seq id (List.length fechas)) fechas /\
      Forall tiempo_row_ok rows.
Proof.
  induction fechas as [|f fechas IH]; intros id H.
  - exists []. repeat split. constructor.
  - simpl in H. apply andb_true_iff in H as [Hf Hr]. unfold parses in Hf.
    destruct (IH (S id) Hr) as [rows [Hrows [Hids Hok]]].
    simpl. destruct (py_strptime_dmy f) as [d|] eqn:Hd; [|discriminate].
    rewrite Hrows. simpl. eexists. split; [reflexivity|]. split.
    + simpl. rewrite Hids. reflexivity.
    + constructor; [|exact Hok].
      pose proof (valid_date_month _ _ _ (py_strptime_dmy_valid _ _ Hd)) as Hm.
      exists d. simpl. split; [exact Hd|]. split; [reflexivity|]. split; [reflexivity|].
      split; [exact Hm|]. split; [reflexivity|]. apply trimestre_of_quarter, Hm.
Qed.

Lemma tiempo_rows_bad (fechas : list string) :
  forall id,
    forallb parses fechas = false ->
    exists f, In f fechas /\ py_strptime_dmy f = None /\
              tiempo_rows id fechas = BiRaised (BiValueError f).
Proof.
  induction fechas as [|f fechas IH]; intros id H; [discriminate|].
  simpl in H. simpl. unfold parses in H at 1.
  destruct (py_strptime_dmy f) as [d|] eqn:Hd.
  - simpl in H. destruct (IH (S id) H) as [g [Hg [Hn Hr]]].
    exists g. rewrite Hr. simpl. auto.
  - exists f. auto.
Qed.

Lemma forallb_parses_sorted_set (l : list string) :
  forallb parses (sorted_set l) = forallb parses l.
Proof.
  destruct (forallb parses l) eqn:E.
  - apply forallb_forall. intros x Hx. rewrite forallb_forall in E.
    apply E, sorted_set_in, Hx.
  - destruct (forallb parses (sorted_set l)) eqn:E'; [|reflexivity].
    rewrite forallb_forall in E'.
    assert (forallb parses l = true) as Ht.
    { apply forallb_forall. intros x Hx. apply E', sorted_set_in, Hx. }
    congruence.
Qed.

Lemma create_dimension_tables_ok (normativas : list Normativa) :
  forallb parses (all_fechas normativas) = true ->
  exists dim_tiempo,
    create_dimension_tables normativas
    = BiOk (dim_estados normativas, dim_tiempo, [(1, entidad_const, sector_const)]) /\
    map (fun r => (fecha_id r, fecha r)) dim_tiempo
    = numbered (sorted_set (all_fechas normativas)) /\
    increasing (map fecha dim_tiempo) /\
    (forall f, In f (map fecha dim_tiempo) <-> In f (all_fechas normativas)) /\
    Forall tiempo_row_ok dim_tiempo.
Proof.
  intros H. unfold create_dimension_tables.
  rewrite <- forallb_parses_sorted_set in H.
  destruct (tiempo_rows_ok _ 1 H) as [rows [Hrows [Hids Hok]]].
  exists rows. rewrite Hrows. split; [reflexivity|]. split; [exact Hids|].
  assert (map fecha rows = sorted_set (all_fechas normativas)) as Hf.
  { rewrite <- (numbered_snd (sorted_set (all_fechas normativas))).
    unfold numbered. rewrite <- Hids, map_map. reflexivity. }
  rewrite Hf. split; [apply sorted_set_increasing|].
  split; [intros f; apply sorted_set_in|exact Hok].
Qed.

Lemma create_dimension_tables_bad (normativas : list Normativa) :
  forallb parses (all_fechas normativas) = false ->
  exists f,
    In f (all_fechas normativas) /\ py_strptime_dmy f = None /\
    create_dimension_tables normativas = BiRaised (BiValueError f).
Proof.
  intros H. unfold create_dimension_tables.
  rewrite <- forallb_parses_sorted_set in H.
  destruct (tiempo_rows_bad _ 1 H) as [f [Hin [Hn Hr]]].
  exists f. rewrite Hr. split; [apply sorted_set_in; exact Hin|]. auto.
Qed.

(** X16. [create_dimension_tables] returns exactly when
    [datetime.strptime] reads every date text of the records, a day of one
    digit written after a space included, and raises [ValueError] on one of
    the texts it rejects.  [Dim_Tiempo] then lists every date text once, in increasing order
    of the text, with the ids 1, 2, ...; each row holds the year and the month
    of its date and the quarter of that month, one of Q1 to Q4.
    [Dim_Entidad] is the one fixed row. *)
Theorem create_dimension_tables_outcome :
  forall normativas : list Normativa,
    (forallb parses (all_fechas normativas) = true ->
     exists dim_tiempo,
       create_dimension_tables normativas
       = BiOk (dim_estados normativas, dim_tiempo, [(1, entidad_const, sector_const)]) /\
       map (fun r => (fecha_id r, fecha r)) dim_tiempo
       = numbered (sorted_set (all_fechas normativas)) /\
       increasing (map fecha dim_tiempo) /\
       (forall f, In f (map fecha dim_tiempo) <-> In f (all_fechas normativas)) /\
       Forall tiempo_row_ok dim_tiempo) /\
    (forallb parses (all_fechas normativas) = false ->
     exists f,
       In f (all_fechas normativas) /\ py_strptime_dmy f = None /\
       create_dimension_tables normativas = BiRaised (BiValueError f)).
Proof.
  intros normativas. split.
  - apply create_dimension_tables_ok.
  - apply create_dimension_tables_bad.
Qed.

Lemma create_dimension_tables_outcome_witness :
  exists dim_tiempo,
    create_dimension_tables sample_duplicates
    = BiOk (dim_estados sample_duplicates, dim_tiempo, [(1, entidad_const, sector_const)]) /\
    map (fun r => (fecha_id r, fecha r)) dim_tiempo
    = numbered (sorted_set (all_fechas sample_duplicates)).
Proof.
  destruct (proj1 (create_dimension_tables_outcome sample_duplicates))
    as [dim_tiempo [Hc [Hids _]]].
  - vm_compute. reflexivity.
  - exists dim_tiempo. split; [exact Hc|exact Hids].
Defined.

(** A date text with a space-padded day is read, and its row built. *)
Example dim_tiempo_space_padded_day :
  exists rows ent,
    create_dimension_tables
      [mkNormativa "t" "/p" " 5/03/2024" "20/03/2024" "Activa" 0]
    = BiOk ([(1, "Activa")], rows, ent) /\
    map (fun r => (fecha_id r, fecha r, anio r, mes r, trimestre r)) rows
    = [(1, " 5/03/2024", 2024, 3, "Q1"); (2, "20/03/2024", 2024, 3, "Q1")].
Proof. eexists. eexists. split; vm_compute; reflexivity. Qed.

(** The ids of [Dim_Tiempo] follow the text of the dates, not the calendar:
    the fifth of March comes before the twentieth of January. *)
Example dim_tiempo_text_order :
  exists rows ent,
    create_dimension_tables
      [mkNormativa "t" "/p" "20/01/2024" "05/03/2024" "Activa" 0]
    = BiOk ([(1, "Activa")], rows, ent) /\
    map (fun r => (fecha_id r, fecha r, trimestre r)) rows
    = [(1, "05/03/2024", "Q1"); (2, "20/01/2024", "Q1")].
Proof. eexists. eexists. split; vm_compute; reflexivity. Qed.

Lemma in_all_fechas (normativas : list Normativa) (n : Normativa) :
  In n normativas ->
  In (fecha_publicacion n) (all_fechas normativas) /\
  In (fecha_cierre n) (all_fechas normativas).
Proof.
  intros Hn. unfold all_fechas. split; apply in_flat_map; exists n; simpl; auto.
Qed.

Lemma lookup_fecha (l : list string) (dim_tiempo : list TiempoRow) (key : string) :
  map (fun r => (fecha_id r, fecha r)) dim_tiempo = numbered l ->
  NoDup l -> In key l ->
  exists id,
    lookup_or_raise key (map (fun r => (fecha_id r, fecha r)) dim_tiempo) = BiOk id /\
    exists t, In t dim_tiempo /\ fecha_id t = id /\ fecha t = key.
Proof.
  intros Hids Hnd Hin. rewrite Hids.
  destruct (dict_get_numbered l key Hnd Hin) as [id [Hg [Hrow _]]].
  exists id. unfold lookup_or_raise. rewrite Hg. split; [reflexivity|].
  rewrite <- Hids in Hrow. apply in_map_iff in Hrow as [t [Ht Hin']].
  injection Ht as H1 H2. exists t. auto.
Qed.

(** X17. With the dimension tables built from the same records,
    [create_fact_table] never fails on a missing key: it returns one row per
    record, in the order of the records.  Each row keeps the title, url and
    comment count of its record, has entity 1 and an [id_normativa] between 0
    and 99999999 whatever the hash is, and its three ids point to the rows
    of [Dim_Estado] and [Dim_Tiempo] that hold the status and the two date
    texts of the record; [dias_consulta] is the number of days from the
    publication date to the closing date. *)
Theorem create_fact_table_rows :
  forall (hash : string -> Z) (normativas : list Normativa)
         (estados : list (nat * string)) (dim_tiempo : list TiempoRow)
         (dim_entidad : list (nat * string * string)),
    create_dimension_tables normativas = BiOk (estados, dim_tiempo, dim_entidad) ->
    exists rows,
      create_fact_table hash normativas estados dim_tiempo = BiOk rows /\
      Forall2 (fact_row_ok estados dim_tiempo) normativas rows.
Proof.
  intros hash normativas estados dim_tiempo dim_entidad Hc.
  destruct (forallb parses (all_fechas normativas)) eqn:Hp.
  2:{ destruct (create_dimension_tables_bad normativas Hp) as [f [_ [_ Hr]]].
      congruence. }
  destruct (create_dimension_tables_ok normativas Hp) as [dt [Hc' [Hids _]]].
  rewrite Hc in Hc'. injection Hc' as -> -> _.
  unfold create_fact_table.
  pose proof (increasing_NoDup _ (sorted_set_increasing (all_fechas normativas))) as Hnd.
  assert (forall n, In n normativas ->
            exists row,
              fact_row hash (dim_estados normativas)
                (map (fun r => (fecha_id r, fecha r)) dt) n = BiOk row /\
              fact_row_ok (dim_estados normativas) dt n row) as Hrow.
  { intros n Hn.
    destruct (in_all_fechas _ _ Hn) as [Hfp Hfc].
    destruct (dict_get_numbered (sorted_set (map estado normativas)) (estado n))
      as [ide [Hge [Hine _]]].
    { exact (increasing_NoDup _ (sorted_set_increasing _)). }
    { apply sorted_set_in, in_map. exact Hn. }
    fold (dim_estados normativas) in Hge, Hine.
    destruct (lookup_fecha _ _ _ Hids Hnd (proj2 (sorted_set_in _ _) Hfp))
      as [idp [Hlp Htp]].
    destruct (lookup_fecha _ _ _ Hids Hnd (proj2 (sorted_set_in _ _) Hfc))
      as [idc [Hlc Htc]].
    rewrite forallb_forall in Hp.
    pose proof (Hp _ Hfp) as Hpp. pose proof (Hp _ Hfc) as Hpc. unfold parses in Hpp, Hpc.
    destruct (py_strptime_dmy (fecha_publicacion n)) as [pub|] eqn:Epub; [|discriminate].
    destruct (py_strptime_dmy (fecha_cierre n)) as [cierre|] eqn:Ecie; [|discriminate].
    unfold fact_row, lookup_or_raise at 1. rewrite Hge. cbn [bi_bind].
    rewrite Hlp. cbn [bi_bind]. rewrite Hlc. cbn [bi_bind].
    unfold bi_strptime. rewrite Epub, Ecie. cbn [bi_bind].
    eexists. split; [reflexivity|].
    unfold fact_row_ok. cbn [f_titulo f_url num_comentarios id_entidad id_normativa
      f_id_estado id_fecha_publicacion id_fecha_cierre dias_consulta].
    split; [reflexivity|]. split; [reflexivity|]. split; [reflexivity|].
    split; [reflexivity|]. split; [apply Z.mod_pos_bound; lia|].
    split; [exact Hine|]. split; [exact Htp|]. split; [exact Htc|].
    exists pub, cierre. auto. }
  clear Hp Hc Hnd Hids.
  generalize dependent Hrow. generalize (dim_estados normativas) as est.
  generalize (map (fun r => (fecha_id r, fecha r)) dt) as fechas.
  induction normativas as [|n l IH]; intros fechas est Hrow.
  - exists []. split; [reflexivity|constructor].
  - destruct (Hrow n (or_introl eq_refl)) as [row [Hr Hok]].
    destruct (IH fechas est) as [rows [Hrs Hall]].
    { intros m Hm. apply Hrow. right. exact Hm. }
    exists (row :: rows). simpl. rewrite Hr. cbn [bi_bind]. rewrite Hrs.
    split; [reflexivity|]. constructor; assumption.
Qed.

Lemma create_fact_table_rows_witness :
  exists rows,
    create_fact_table (fun _ => (-7)%Z) sample_duplicates
      (dim_estados sample_duplicates)
      (match create_dimension_tables sample_duplicates with
       | BiOk (_, dim_tiempo, _) => dim_tiempo
       | BiRaised _ => []
       end)
    = BiOk rows /\
    List.length rows = 2.
Proof.
  destruct (create_fact_table_rows (fun _ => (-7)%Z) sample_duplicates
              (dim_estados sample_duplicates)
              (match create_dimension_tables sample_duplicates with
               | BiOk (_, dim_tiempo, _) => dim_tiempo
               | BiRaised _ => []
               end)
              [(1, entidad_const, sector_const)]) as [rows [Hr Hall]].
  - vm_compute. reflexivity.
  - exists rows. split; [exact Hr|].
    symmetry. exact (Forall2_length Hall).
Defined.

Example create_fact_table_sample :
  exists estados dim_tiempo ent rows,
    create_dimension_tables sample_duplicates = BiOk (estados, dim_tiempo, ent) /\
    create_fact_table (fun _ => (-7)%Z) sample_duplicates estados dim_tiempo = BiOk rows /\
    map (fun r => (id_normativa r, f_id_estado r, id_fecha_publicacion r,
                   id_fecha_cierre r, dias_consulta r)) rows
    = [ (99999993%Z, 1, 1, 3, 15%Z); (99999993%Z, 2, 2, 4, 15%Z) ].
Proof. do 4 eexists. repeat split; vm_compute; reflexivity. Qed.

(** ** Days between two dates *)

Lemma is_leap_Z (y : nat) :
  is_leap y = true <->
  ((Z.of_nat y mod 4 = 0 /\ Z.of_nat y mod 100 <> 0) \/ Z.of_nat y mod 400 = 0)%Z.
Proof.
  unfold is_leap.
  rewrite orb_true_iff, andb_true_iff, negb_true_iff, !Nat.eqb_eq, Nat.eqb_neq.
  assert (forall k, k <> 0 -> (y mod k = 0 <-> (Z.of_nat y mod Z.of_nat k = 0)%Z)) as Hk.
  { intros k Hk. rewrite <- Nat2Z.inj_mod. lia. }
  rewrite (Hk 4), (Hk 100), (Hk 400) by discriminate.
  change (Z.of_nat 4) with 4%Z. change (Z.of_nat 100) with 100%Z.
  change (Z.of_nat 400) with 400%Z. tauto.
Qed.

Lemma days_before_year_succ (y : nat) :
  1 <= y ->
  days_before_year (Z.of_nat (S y))
  = (days_before_year (Z.of_nat y) + Z.of_nat (days_in_year y))%Z.
Proof.
  intros Hy. unfold days_before_year, days_in_year.
  rewrite Nat2Z.inj_succ.
  replace (Z.succ (Z.of_nat y) - 1)%Z with (Z.of_nat y) by lia.
  pose proof (is_leap_Z y) as Hl.
  set (z := Z.of_nat y) in *. assert (1 <= z)%Z as Hz by lia. clearbody z.
  destruct (is_leap y).
  - assert ((z mod 4 = 0 /\ z mod 100 <> 0) \/ z mod 400 = 0)%Z as H by (apply Hl; reflexivity).
    change (Z.of_nat 366) with 366%Z. clear Hl.
    Z.div_mod_to_equations. lia.
  - assert (~ ((z mod 4 = 0 /\ z mod 100 <> 0) \/ z mod 400 = 0))%Z as H
      by (intros H; apply Hl in H; discriminate).
    change (Z.of_nat 365) with 365%Z. clear Hl.
    Z.div_mod_to_equations. lia.
Qed.

Lemma days_before_year_mono (y1 y2 : nat) :
  1 <= y1 -> y1 <= y2 ->
  (days_before_year (Z.of_nat y1) <= days_before_year (Z.of_nat y2))%Z.
Proof.
  intros H1 Hle. induction Hle as [|y2 Hle IH]; [lia|].
  rewrite days_before_year_succ by lia. lia.
Qed.

Lemma days_before_month_succ (y m : nat) :
  1 <= m -> days_before_month y (S m) = days_before_month y m + days_in_month y m.
Proof.
  intros Hm. unfold days_before_month.
  replace (S m - 1) with (S (m - 1)) by lia.
  rewrite seq_S, map_app, list_sum_app.
  replace (1 + (m - 1)) with m by lia.
  cbn [map list_sum fold_right]. lia.
Qed.

Lemma days_before_month_mono (y m1 m2 : nat) :
  1 <= m1 -> m1 <= m2 -> days_before_month y m1 <= days_before_month y m2.
Proof.
  intros H1 Hle. induction Hle as [|m2 Hle IH]; [lia|].
  rewrite days_before_month_succ by lia. lia.
Qed.

Lemma days_before_month_13 (y : nat) : days_before_month y 13 = days_in_year y.
Proof.
  unfold days_before_month, days_in_year. simpl. destruct (is_leap y); reflexivity.
Qed.

(** The day of the year of a date of the calendar lies within the year. *)
Lemma day_of_year_bounds (y m d : nat) :
  valid_date y m d = true ->
  1 <= days_before_month y m + d <= days_in_year y.
Proof.
  intros Hv. unfold valid_date in Hv.
  repeat (apply andb_true_iff in Hv as [Hv ?]).
  apply Nat.leb_le in H, H0, H1, H2.
  split; [lia|].
  rewrite <- days_before_month_13.
  pose proof (days_before_month_succ y m H2).
  pose proof (days_before_month_mono y (S m) 13). lia.
Qed.

Lemma date_ordinal_lt (a b : Date) :
  valid_date (year a) (month a) (day a) = true ->
  valid_date (year b) (month b) (day b) = true ->
  date_ltb a b = true -> (date_ordinal a < date_ordinal b)%Z.
Proof.
  intros Ha Hb Hlt. apply date_ltb_iff in Hlt.
  pose proof (day_of_year_bounds _ _ _ Ha) as Da.
  pose proof (day_of_year_bounds _ _ _ Hb) as Db.
  unfold valid_date in Ha, Hb.
  repeat (apply andb_true_iff in Ha as [Ha ?]).
  repeat (apply andb_true_iff in Hb as [Hb ?]).
  apply Nat.leb_le in Ha, Hb, H, H0, H1, H2, H3, H4, H5, H6.
  unfold date_ordinal.
  destruct Hlt as [Hy|[Hy [Hm|[Hm Hd]]]].
  - pose proof (days_before_year_succ (year a) Ha).
    pose proof (days_before_year_mono (S (year a)) (year b)). lia.
  - rewrite Hy.
    pose proof (days_before_month_succ (year b) (month a) H2).
    pose proof (days_before_month_mono (year b) (S (month a)) (month b)).
    rewrite Hy in *. lia.
  - rewrite Hy, Hm. lia.
Qed.

Lemma date_eta (a b : Date) :
  year a = year b -> month a = month b -> day a = day b -> a = b.
Proof. destruct a, b. simpl. intros -> -> ->. reflexivity. Qed.

(** X18. On dates of the calendar the ordinal follows the order of the
    dates.  So [dias_consulta], closing ordinal minus publication ordinal, is
    negative exactly when the closing date is before the publication date,
    zero exactly when the two dates are the same, and positive otherwise:
    nothing in the export rejects a closing date before the publication. *)
Theorem dias_consulta_sign :
  forall (pub_text cierre_text : string) (pub cierre : Date),
    py_strptime_dmy pub_text = Some pub ->
    py_strptime_dmy cierre_text = Some cierre ->
    ((date_ordinal cierre - date_ordinal pub < 0)%Z <-> date_ltb cierre pub = true) /\
    ((date_ordinal cierre - date_ordinal pub = 0)%Z <-> cierre = pub) /\
    ((0 < date_ordinal cierre - date_ordinal pub)%Z <-> date_ltb pub cierre = true).
Proof.
  intros pub_text cierre_text pub cierre Hp Hc.
  pose proof (py_strptime_dmy_valid _ _ Hp) as Vp.
  pose proof (py_strptime_dmy_valid _ _ Hc) as Vc.
  pose proof (date_ordinal_lt _ _ Vc Vp) as Hcp.
  pose proof (date_ordinal_lt _ _ Vp Vc) as Hpc.
  assert (date_ltb cierre pub = true \/ cierre = pub \/ date_ltb pub cierre = true) as Htri.
  { rewrite !date_ltb_iff.
    destruct (Nat.lt_trichotomy (year cierre) (year pub)) as [?|[Hy|?]]; [lia| |lia].
    destruct (Nat.lt_trichotomy (month cierre) (month pub)) as [?|[Hm|?]]; [lia| |lia].
    destruct (Nat.lt_trichotomy (day cierre) (day pub)) as [?|[Hd|?]]; [lia| |lia].
    right. left. apply date_eta; assumption. }
  assert (date_ltb cierre pub = true -> date_ltb pub cierre = true -> False) as Hno.
  { rewrite !date_ltb_iff. lia. }
  assert (forall d, date_ltb d d = false) as Hirr.
  { intros d. destruct (date_ltb d d) eqn:E; [|reflexivity].
    apply date_ltb_iff in E. lia. }
  split; [|split].
  - split; [|intros H; specialize (Hcp H); lia].
    intros Hneg. destruct Htri as [H|[->|H]]; [exact H|lia|specialize (Hpc H); lia].
  - split; [|intros ->; lia].
    intros Hz. destruct Htri as [H|[H|H]]; [specialize (Hcp H); lia|exact H|
                                           specialize (Hpc H); lia].
  - split; [|intros H; specialize (Hpc H); lia].
    intros Hpos. destruct Htri as [H|[->|H]]; [specialize (Hcp H); lia|lia|exact H].
Qed.

Lemma dias_consulta_sign_witness :
  ((date_ordinal (mkDate 2024 3 1) - date_ordinal (mkDate 2024 2 28) < 0)%Z <->
   date_ltb (mkDate 2024 3 1) (mkDate 2024 2 28) = true).
Proof.
  apply (dias_consulta_sign "28/02/2024" "01/03/2024" (mkDate 2024 2 28) (mkDate 2024 3 1));
    reflexivity.
Defined.

Example dias_consulta_leap_day :
  (date_ordinal (mkDate 2024 3 1) - date_ordinal (mkDate 2024 2 28) = 2)%Z /\
  (date_ordinal (mkDate 2023 3 1) - date_ordinal (mkDate 2023 2 28) = 1)%Z /\
  date_ordinal (mkDate 1 1 1) = 1%Z.
Proof. repeat split; vm_compute; reflexivity. Qed.

(** ** The control to the next page *)





Example next_control_ignores_other_pages :
  next_control sample_page1 1 = Some 2 /\
  next_control sample_page1 2 = None /\
  next_control sample_page_link3 1 = Some 2 /\
  next_control sample_page_link3 3 = None.
Proof. repeat split; vm_compute; reflexivity. Qed.




(** ** Mixed markup *)

(** X21. The choice between the two container classes is made once for the
    whole document.  When the document has a container of the primary class
    [bq-proceso], every record returned was built from a container of that
    class, and the containers under the fallback class [proceso-container]
    give no record; the fallback class is read only when no container of the
    primary class exists. *)
Theorem parse_normativa_primary_wins :
  forall soup : Soup,
    (find_all "div" "bq-proceso" soup <> [] ->
     forall n, In n (parse_normativa soup) ->
               exists p, In p (find_all "div" "bq-proceso" soup) /\
                         extract_proceso p = Some n) /\
    (find_all "div" "bq-proceso" soup = [] ->
     forall n, In n (parse_normativa soup) ->
               exists p, In p (find_all "div" "proceso-container" soup) /\
                         extract_proceso p = Some n).
Proof.
  intros soup. split; intros H n Hn.
  - destruct (fold_add_record_origin _ _ _ Hn) as [[]|[p [Hp He]]].
    rewrite (find_procesos_primary soup H) in Hp. exists p. auto.
  - destruct (fold_add_record_origin _ _ _ Hn) as [[]|[p [Hp He]]].
    rewrite (find_procesos_fallback soup H) in Hp. exists p. auto.
Qed.

Lemma parse_normativa_primary_wins_witness :
  exists p,
    In p (find_all "div" "bq-proceso" (join_sources [sample_page_fallback; sample_page_no_dates]))
    /\ extract_proceso p = Some (mkNormativa "Proyecto siete" "/proyecto/7" "" "" "" 0).
Proof.
  apply (proj1 (parse_normativa_primary_wins
                  (join_sources [sample_page_fallback; sample_page_no_dates]))).
  - vm_compute. discriminate.
  - vm_compute. auto.
Defined.

Example parse_normativa_mixed_markup :
  urls (parse_normativa sample_page_fallback) = ["/proyecto/8"] /\
  urls (parse_normativa (join_sources [sample_page_fallback; sample_page_no_dates]))
  = ["/proyecto/7"].
Proof. split; vm_compute; reflexivity. Qed.
